(** * Hermez node: synchronizer, transaction selection and test-chain generator

    A shallow embedding of the parts of the node that the specification's
    claims talk about, each in a module named after its Go package:

    - [TxSelector]: [getL2Profitable] and the [txs] sort interface;
    - [SyncDraft]: the first draft of the synchronizer ([Status]);
    - [Til]: the test-chain generator ([TestContext], the L1 queues, [idx]);
    - [TxProcessor]: the batch transaction processor;
    - [Synchronizer]: [Sync2], [reorg], the three event streams.

    Go values are embedded as follows. Integers ([int], [int64], [uint32],
    [Idx], [BatchNum], [big.Int]) are [Z] or [N]; none of the modelled code
    relies on wrap-around.  Slices are lists, Go maps are [gmap]s, strings are
    byte strings ([string]: one [ascii] per byte).  A Go function that
    returns [(T, error)] returns an [outcome T]; a run-time panic (nil
    dereference, index out of range) is the separate outcome [Panic]. *)

From Stdlib Require Import ZArith QArith Qround Lia.
From stdpp Require Import gmap strings list fin_maps sorting pretty.

Local Close Scope Q_scope.
Local Open Scope Z_scope.

(** ** Outcomes of Go calls *)

(** The errors the modelled code tells apart. *)
Inductive error : Type :=
| ErrNoRows                  (* sql.ErrNoRows *)
| ErrNotFound                (* ethereum.NotFound *)
| ErrBlockHashMismatchEvent  (* eth.ErrBlockHashMismatchEvent *)
| ErrNotAbleToSync           (* synchronizer.ErrNotAbleToSync (draft) *)
| ErrMsg (msg : string).     (* fmt.Errorf / errors.New: the text of the message,
                                without the values formatted into it *)

#[global] Instance error_eq_dec : EqDecision error.
Proof. solve_decision. Defined.

Inductive outcome (A : Type) : Type :=
| Ok (a : A)
| Err (e : error)
| Panic.
Arguments Ok {A} a.
Arguments Err {A} e.
Arguments Panic {A}.

Definition obind {A B} (m : outcome A) (k : A -> outcome B) : outcome B :=
  match m with
  | Ok a => k a
  | Err e => Err e
  | Panic => Panic
  end.

Definition is_Ok {A} (m : outcome A) : Prop := exists a, m = Ok a.
Definition is_Err {A} (m : outcome A) : Prop := exists e, m = Err e.

(** [err.Error()] *)
Definition errorString (e : error) : string :=
  match e with
  | ErrNoRows => "sql: no rows in result set"
  | ErrNotFound => "not found"
  | ErrBlockHashMismatchEvent => "block hash mismatch in event log"
  | ErrNotAbleToSync => "it has not been possible to synchronize any block"
  | ErrMsg msg => msg
  end.

(** [fmt.Errorf(prefix + ": %w", err)] *)
Definition wrapError (prefix : string) (e : error) : error :=
  ErrMsg (prefix +:+ ": " +:+ errorString e).

#[global] Instance outcome_ret : MRet outcome := fun A a => Ok a.
#[global] Instance outcome_bind : MBind outcome := fun A B k m => obind m k.

(** A Go pointer to a record is [None] when nil.  Reading or writing a field
    through a nil pointer panics. *)
Definition ptr (A : Type) : Type := option A.

Definition deref {A} (p : ptr A) : outcome A :=
  match p with
  | Some a => Ok a
  | None => Panic
  end.

Definition store {A} (p : ptr A) (f : A -> A) : outcome (ptr A) :=
  match p with
  | Some a => Ok (Some (f a))
  | None => Panic
  end.

(** Code with a receiver it mutates: the state is threaded, and what was
    written before an error or a panic stays written. *)
Definition M (S A : Type) : Type := S -> outcome A * S.

#[global] Instance M_ret {S} : MRet (M S) := fun A a s => (Ok a, s).
#[global] Instance M_bind {S} : MBind (M S) := fun A B k m s =>
  match m s with
  | (Ok a, s') => k a s'
  | (Err e, s') => (Err e, s')
  | (Panic, s') => (Panic, s')
  end.

Definition get {S} : M S S := fun s => (Ok s, s).
Definition gets {S A} (f : S -> A) : M S A := fun s => (Ok (f s), s).
Definition put {S} (s : S) : M S unit := fun _ => (Ok tt, s).
Definition modify {S} (f : S -> S) : M S unit := fun s => (Ok tt, f s).
Definition throw {S A} (e : error) : M S A := fun s => (Err e, s).
Definition panic {S A} : M S A := fun s => (Panic, s).
Definition lift {S A} (o : outcome A) : M S A := fun s => (o, s).

(** [for _, x := range l { body }] *)
Fixpoint forM_ {S A} (l : list A) (body : A -> M S unit) : M S unit :=
  match l with
  | [] => mret tt
  | x :: l' => body x ;; forM_ l' body
  end.

(** [for i := 0; i < n; i++ { acc = body(acc, x_i) }] with an accumulator. *)
Fixpoint foldM {S A B} (body : B -> A -> M S B) (acc : B) (l : list A) : M S B :=
  match l with
  | [] => mret acc
  | x :: l' => acc ← body acc x; foldM body acc l'
  end.

(** [m] keeps the invariant [I] of the state, whatever its outcome. *)
Definition preserves {S A} (I : S -> Prop) (m : M S A) : Prop :=
  forall s, I s -> I (m s).2.

Section preserves.
Context {S : Type} (I : S -> Prop).

Lemma preserves_ret {A} (a : A) : preserves I (mret a).
Proof. by intros s Hs. Qed.

Lemma preserves_bind {A B} (m : M S A) (k : A -> M S B) :
  preserves I m -> (forall a, preserves I (k a)) -> preserves I (m ≫= k).
Proof.
  intros Hm Hk s Hs. specialize (Hm s Hs).
  unfold mbind, M_bind. destruct (m s) as [[a|e|] s']; simpl in *; [|done..].
  by apply Hk.
Qed.

Lemma preserves_get : preserves I get.
Proof. by intros s Hs. Qed.

Lemma preserves_lift {A} (o : outcome A) : preserves I (lift o).
Proof. by intros s Hs. Qed.

Lemma preserves_throw {A} (e : error) : preserves I (throw (A:=A) e).
Proof. by intros s Hs. Qed.

Lemma preserves_panic {A} : preserves I (panic (A:=A)).
Proof. by intros s Hs. Qed.

Lemma preserves_modify (f : S -> S) :
  (forall s, I s -> I (f s)) -> preserves I (modify f).
Proof. intros Hf s Hs. by apply Hf. Qed.

Lemma preserves_forM_ {A} (l : list A) (body : A -> M S unit) :
  (forall x, preserves I (body x)) -> preserves I (forM_ l body).
Proof.
  intros Hbody. induction l as [|x l IH]; simpl; [apply preserves_ret|].
  apply preserves_bind; [apply Hbody|]. by intros _.
Qed.

Lemma preserves_foldM {A B} (body : B -> A -> M S B) (acc : B) (l : list A) :
  (forall b x, preserves I (body b x)) -> preserves I (foldM body acc l).
Proof.
  intros Hbody. revert acc. induction l as [|x l IH]; intros acc; simpl.
  - apply preserves_ret.
  - apply preserves_bind; [apply Hbody|]. apply IH.
Qed.

Lemma preserves_apply {A} (m : M S A) (s : S) : preserves I m -> I s -> I (m s).2.
Proof. intros Hm. apply Hm. Qed.

Lemma preserves_run {A} (m : M S A) (s s' : S) (r : outcome A) :
  preserves I m -> I s -> m s = (r, s') -> I s'.
Proof. intros Hm Hs Hrun. specialize (Hm s Hs). by rewrite Hrun in Hm. Qed.

(** The rule for sequencing that remembers what the first part returned. *)
Lemma bind_inv {A B} (m : M S A) (k : A -> M S B) (s : S) :
  I (m s).2 ->
  (forall a s', m s = (Ok a, s') -> I s' -> I (k a s').2) ->
  I ((m ≫= k) s).2.
Proof.
  intros Hm Hk. unfold mbind, M_bind.
  destruct (m s) as [[a|e|] s'] eqn:E; simpl in *; [|done..].
  by apply Hk.
Qed.

End preserves.

Lemma get_run {S} (s a s' : S) : get s = (Ok a, s') -> a = s /\ s' = s.
Proof. unfold get. by intros [= -> ->]. Qed.

Lemma lift_run {S A} (o : outcome A) (s s' : S) (a : A) :
  lift o s = (Ok a, s') -> o = Ok a /\ s' = s.
Proof. unfold lift. by intros [= -> ->]. Qed.

Lemma deref_Ok {A} (p : ptr A) (a : A) : deref p = Ok a -> p = Some a.
Proof. destruct p; simpl; congruence. Qed.

(** Running a sequence: what the first part did decides how it goes on. *)
Lemma bind_run {S A B} (m : M S A) (k : A -> M S B) (s s1 : S) (a : A) :
  m s = (Ok a, s1) -> (m ≫= k) s = k a s1.
Proof. intros Hm. unfold mbind, M_bind. by rewrite Hm. Qed.

Lemma bind_run_Err {S A B} (m : M S A) (k : A -> M S B) (s s1 : S) (e : error) :
  m s = (Err e, s1) -> (m ≫= k) s = (Err e, s1).
Proof. intros Hm. unfold mbind, M_bind. by rewrite Hm. Qed.

Lemma bind_run_Ok {S A B} (m : M S A) (k : A -> M S B) (s s' : S) (b : B) :
  (m ≫= k) s = (Ok b, s') ->
  exists a s1, m s = (Ok a, s1) /\ k a s1 = (Ok b, s').
Proof.
  unfold mbind, M_bind. destruct (m s) as [[a|e|] s1]; [|done..].
  intros Hk. by exists a, s1.
Qed.

Lemma modify_run {S} (f : S -> S) (s s' : S) (u : unit) :
  modify f s = (Ok u, s') -> s' = f s.
Proof. unfold modify. by intros [= _ <-]. Qed.

Lemma mret_run {S A} (a b : A) (s s' : S) :
  mret (M:=M S) a s = (Ok b, s') -> b = a /\ s' = s.
Proof. unfold mret, M_ret. by intros [= -> ->]. Qed.

(** ** Package txselector *)

Module TxSelector.

(** [common.PoolL2Tx], the fields the selector reads.  [AbsoluteFee] is a
    [float64] in the source; a finite float denotes a rational, and [>] on
    finite floats is [>] on the rationals they denote. *)
Record PoolL2Tx : Type := mkPoolL2Tx {
  FromIdx : Z;
  ToIdx : Z;
  TokenID : Z;
  Amount : Z;
  Nonce : Z;
  AbsoluteFee : Q
}.

(** [type txs []common.PoolL2Tx]. *)
Definition txs : Type := list PoolL2Tx.

(** [func (t txs) Less(i, j int) bool]: [t[i].AbsoluteFee > t[j].AbsoluteFee]. *)
Definition Less (ti tj : PoolL2Tx) : bool :=
  negb (Qle_bool (AbsoluteFee ti) (AbsoluteFee tj)).

(** The closure handed to [sort.SliceStable]: [txs[i].Nonce < txs[j].Nonce]. *)
Definition lessNonce (ti tj : PoolL2Tx) : bool := Nonce ti <? Nonce tj.

(** [sort.SliceStable]: the stable sort of a slice is unique, and is what
    insertion from the right computes. *)
Fixpoint stable_insert {A} (less : A -> A -> bool) (x : A) (l : list A) : list A :=
  match l with
  | [] => [x]
  | y :: l' => if less y x then y :: stable_insert less x l' else x :: y :: l'
  end.

Fixpoint SliceStable {A} (less : A -> A -> bool) (l : list A) : list A :=
  match l with
  | [] => []
  | x :: l' => stable_insert less x (SliceStable less l')
  end.

(** [sort.Sort] on values of type [txs].  The library promises a permutation
    ordered by [Less] and nothing about ties, so the selector is
    parameterised by the sorting function and the facts below use only that
    contract.  [sort_Sort] is the instance used to evaluate it: the
    insertion sort the library runs on short slices. *)
Definition sort_Sort : txs -> txs := SliceStable Less.

Section getL2Profitable.
Variable sortTxs : txs -> txs.

(** [func (txsel *TxSelector) getL2Profitable(txs txs, max uint32) txs] *)
Definition getL2Profitable (t : txs) (max : N) : txs :=
  let t := sortTxs t in
  if Z.of_nat (length t) <? Z.of_N max then t
  else
    let t := take (N.to_nat max) t in
    SliceStable lessNonce t.

End getL2Profitable.

(** Orderings used in the statements. *)
Definition fee_ge (a b : PoolL2Tx) : Prop := (AbsoluteFee b <= AbsoluteFee a)%Q.
Definition nonce_le (a b : PoolL2Tx) : Prop := Nonce a <= Nonce b.

(** What [sort.Sort] guarantees for the [txs] interface. *)
Definition sort_contract (sortTxs : txs -> txs) : Prop :=
  forall t, sortTxs t ≡ₚ t /\ Sorted fee_ge (sortTxs t).

(** A pool of two transactions: the older one (nonce 0) pays fee 1, the
    newer one (nonce 1) pays fee 2. *)
Definition tx_nonce0 : PoolL2Tx :=
  {| FromIdx := 256; ToIdx := 257; TokenID := 1; Amount := 10;
     Nonce := 0; AbsoluteFee := 1%Q |}.
Definition tx_nonce1 : PoolL2Tx :=
  {| FromIdx := 256; ToIdx := 257; TokenID := 1; Amount := 10;
     Nonce := 1; AbsoluteFee := 2%Q |}.
Definition short_pool : txs := [tx_nonce0; tx_nonce1].

(** *** Facts about the two sorts *)

Section stable_sort_facts.
Context {A : Type} (less : A -> A -> bool) (R : A -> A -> Prop).
Hypothesis less_true : forall y x, less y x = true -> R y x.
Hypothesis less_false : forall y x, less y x = false -> R x y.

Lemma stable_insert_perm (x : A) (l : list A) : stable_insert less x l ≡ₚ x :: l.
Proof.
  induction l as [|y l IH]; simpl; [done|].
  destruct (less y x); [|done].
  rewrite IH. apply Permutation_swap.
Qed.

Lemma SliceStable_perm (l : list A) : SliceStable less l ≡ₚ l.
Proof.
  induction l as [|x l IH]; simpl; [done|].
  by rewrite stable_insert_perm, IH.
Qed.

Lemma stable_insert_HdRel (y x : A) (l : list A) :
  R y x -> HdRel R y l -> HdRel R y (stable_insert less x l).
Proof.
  intros Hyx Hhd. destruct l as [|z l]; simpl; [by constructor|].
  destruct (less z x); constructor; [|done].
  by inversion Hhd.
Qed.

Lemma stable_insert_sorted (x : A) (l : list A) :
  Sorted R l -> Sorted R (stable_insert less x l).
Proof.
  induction 1 as [|y l Hs IH Hhd]; simpl; [by repeat constructor|].
  destruct (less y x) eqn:Hless.
  - constructor; [done|]. apply stable_insert_HdRel; auto.
  - constructor; [by constructor|]. constructor. auto.
Qed.

Lemma SliceStable_sorted (l : list A) : Sorted R (SliceStable less l).
Proof.
  induction l as [|x l IH]; simpl; [constructor|].
  by apply stable_insert_sorted.
Qed.

End stable_sort_facts.

Lemma SliceStable_length {A} (less : A -> A -> bool) (l : list A) :
  length (SliceStable less l) = length l.
Proof. apply Permutation_length, SliceStable_perm. Qed.

Lemma lessNonce_sorted (l : txs) : Sorted nonce_le (SliceStable lessNonce l).
Proof.
  apply SliceStable_sorted; unfold lessNonce, nonce_le; intros y x H; lia.
Qed.

Lemma Less_true (y x : PoolL2Tx) : Less y x = true -> fee_ge y x.
Proof.
  unfold Less, fee_ge. destruct (Qle_bool _ _) eqn:E; [done|]. intros _.
  apply Qlt_le_weak, Qnot_le_lt. intros H%Qle_bool_iff. congruence.
Qed.

Lemma Less_false (y x : PoolL2Tx) : Less y x = false -> fee_ge x y.
Proof.
  unfold Less, fee_ge. destruct (Qle_bool _ _) eqn:E; [|done]. intros _.
  by apply Qle_bool_iff.
Qed.

Lemma sort_Sort_contract : sort_contract sort_Sort.
Proof.
  intros t. split; [apply SliceStable_perm|].
  apply SliceStable_sorted; [apply Less_true | apply Less_false].
Qed.

#[local] Instance fee_ge_trans : Transitive fee_ge.
Proof. intros a b c Hab Hbc. unfold fee_ge in *. by eapply Qle_trans. Qed.

Lemma StronglySorted_take_drop {A} (R : A -> A -> Prop) (l : list A) (n : nat) :
  StronglySorted R l ->
  forall x y, x ∈ take n l -> y ∈ drop n l -> R x y.
Proof.
  intros Hs. revert n. induction Hs as [|a l Hs IH Hall]; intros n x y Hx Hy.
  - rewrite take_nil in Hx. by apply elem_of_nil in Hx.
  - destruct n as [|n]; simpl in *; [by apply elem_of_nil in Hx|].
    apply elem_of_cons in Hx as [->|Hx]; [|by eapply IH].
    rewrite Forall_forall in Hall. apply Hall.
    by eapply subseteq_drop.
Qed.

(** *** [getL2Profitable] under the contract of [sort.Sort] *)

Section getL2Profitable_facts.
Variable sortTxs : txs -> txs.
Hypothesis sortTxs_ok : sort_contract sortTxs.

Lemma getL2Profitable_length (t : txs) (max : N) :
  length (getL2Profitable sortTxs t max) = Nat.min (length t) (N.to_nat max).
Proof.
  unfold getL2Profitable. destruct (sortTxs_ok t) as [Hp _].
  apply Permutation_length in Hp.
  case_match eqn:E.
  - apply Z.ltb_lt in E. lia.
  - apply Z.ltb_ge in E. rewrite SliceStable_length, length_take. lia.
Qed.

(** The selection together with what it leaves out is the input, and
    nothing left out pays a higher fee than something selected. *)
Lemma getL2Profitable_most_profitable (t : txs) (max : N) :
  exists rest,
    getL2Profitable sortTxs t max ++ rest ≡ₚ t /\
    forall x y, x ∈ getL2Profitable sortTxs t max -> y ∈ rest -> fee_ge x y.
Proof.
  unfold getL2Profitable. destruct (sortTxs_ok t) as [Hp Hs].
  case_match.
  - exists []. split; [by rewrite app_nil_r|].
    intros x y _ Hy. by apply elem_of_nil in Hy.
  - exists (drop (N.to_nat max) (sortTxs t)). split.
    + by rewrite SliceStable_perm, take_drop.
    + intros x y Hx Hy. rewrite SliceStable_perm in Hx.
      eapply StronglySorted_take_drop; [|done..].
      by apply Sorted_StronglySorted; [apply _|].
Qed.

Lemma getL2Profitable_subseteq (t : txs) (max : N) :
  getL2Profitable sortTxs t max ⊆ t.
Proof.
  destruct (getL2Profitable_most_profitable t max) as (rest & Hp & _).
  intros x Hx. rewrite <-Hp. apply elem_of_app. by left.
Qed.

(** Once the input fills the batch, the selection is ordered by nonce. *)
Lemma getL2Profitable_full_nonce_sorted (t : txs) (max : N) :
  (N.to_nat max <= length t)%nat ->
  Sorted nonce_le (getL2Profitable sortTxs t max).
Proof.
  intros Hlen. unfold getL2Profitable. destruct (sortTxs_ok t) as [Hp _].
  apply Permutation_length in Hp.
  case_match eqn:E; [apply Z.ltb_lt in E; lia|].
  apply lessNonce_sorted.
Qed.

(** An input shorter than the bound comes back in fee order. *)
Lemma getL2Profitable_short (t : txs) (max : N) :
  (length t < N.to_nat max)%nat ->
  getL2Profitable sortTxs t max = sortTxs t.
Proof.
  intros Hlen. unfold getL2Profitable. destruct (sortTxs_ok t) as [Hp _].
  apply Permutation_length in Hp.
  case_match eqn:E; [done|]. apply Z.ltb_ge in E. lia.
Qed.

(** C10 (fails on the code).  With room for three transactions, the pool
    [short_pool] of two is returned by the early [return txs] in fee order:
    nonce 1 before nonce 0.  The function's comment promises the selection
    sorted by nonce; the nonce sort is only reached once the pool holds at
    least [max] transactions. *)
Theorem getL2Profitable_short_pool_not_sorted_by_nonce :
  getL2Profitable sortTxs short_pool 3 = [tx_nonce1; tx_nonce0] /\
  map Nonce (getL2Profitable sortTxs short_pool 3) = [1; 0] /\
  ~ Sorted nonce_le (getL2Profitable sortTxs short_pool 3).
Proof.
  assert (Hsort : sortTxs short_pool = [tx_nonce1; tx_nonce0]).
  { destruct (sortTxs_ok short_pool) as [Hp Hs].
    symmetry in Hp. apply Permutation_length_2_inv in Hp as [Hp|Hp]; [|done].
    rewrite Hp in Hs. apply Sorted_inv in Hs as [_ Hhd].
    apply HdRel_inv in Hhd. by vm_compute in Hhd. }
  rewrite getL2Profitable_short by (simpl; lia).
  rewrite Hsort. split_and!; [done..|].
  intros Hs. apply Sorted_inv in Hs as [_ Hhd].
  apply HdRel_inv in Hhd. unfold nonce_le in Hhd. simpl in Hhd. lia.
Qed.

End getL2Profitable_facts.

Lemma getL2Profitable_short_pool_witness :
  getL2Profitable sort_Sort short_pool 3 = [tx_nonce1; tx_nonce0] /\
  map Nonce (getL2Profitable sort_Sort short_pool 3) = [1; 0] /\
  ~ Sorted nonce_le (getL2Profitable sort_Sort short_pool 3).
Proof.
  exact (getL2Profitable_short_pool_not_sorted_by_nonce
           sort_Sort sort_Sort_contract).
Defined.

End TxSelector.

(** ** Package synchronizer, first draft *)

Module SyncDraft.

(** [common.Block] as declared in [common/block.go] (the timestamp is not
    read by the modelled code). *)
Record Block : Type := mkBlock {
  EthBlockNum : Z;
  Hash : Z
}.

(** [common.SyncStatus], the fields [Status] assigns. *)
Record SyncStatus : Type := mkSyncStatus {
  CurrentBlock : Z;
  CurrentBatch : Z;
  Synchronized : bool
}.

(** The collaborators [Status] calls, by what they answer. *)
Record Collaborators : Type := mkCollaborators {
  GetLastBlock : outcome Block;      (* s.historyDB.GetLastBlock() *)
  GetLastBatchNum : outcome Z;       (* s.historyDB.GetLastBatchNum() *)
  EthCurrentBlock : outcome Z        (* s.ethClient.EthCurrentBlock() *)
}.

(** [func (s *Synchronizer) Status()], returning a [*common.SyncStatus]
    and an error.
    [var status *common.SyncStatus] declares a nil pointer; every later
    [status.F = v] stores through it. *)
Definition Status (s : Collaborators) : outcome (ptr SyncStatus) :=
  let status : ptr SyncStatus := None in
  match GetLastBlock s with
  | Err e => Err e
  | Panic => Panic
  | Ok lastSavedBlock =>
    status ← store status (fun r =>
      {| CurrentBlock := EthBlockNum lastSavedBlock;
         CurrentBatch := CurrentBatch r; Synchronized := Synchronized r |});
    lastSavedBatch ← match GetLastBatchNum s with
                     | Err ErrNoRows => Ok 0
                     | o => o
                     end;
    status ← store status (fun r =>
      {| CurrentBlock := CurrentBlock r;
         CurrentBatch := lastSavedBatch; Synchronized := Synchronized r |});
    latestBlockNum ← EthCurrentBlock s;
    cur ← deref status;
    status ← store status (fun r =>
      {| CurrentBlock := CurrentBlock r; CurrentBatch := CurrentBatch r;
         Synchronized := bool_decide (CurrentBlock cur = latestBlockNum) |});
    Ok status
  end.

(** A history with one saved block, and a chain one block ahead. *)
Definition one_block_saved : Collaborators :=
  {| GetLastBlock := Ok {| EthBlockNum := 1; Hash := 11 |};
     GetLastBatchNum := Ok 0;
     EthCurrentBlock := Ok 2 |}.

(** C9 (fails on the code).  Whenever the history store answers with a last
    block, [Status] panics at [status.CurrentBlock = ...]: the pointer was
    declared and never allocated.  No call returns a status record. *)
Theorem Status_stores_through_nil_pointer (s : Collaborators) (b : Block) :
  GetLastBlock s = Ok b -> Status s = Panic.
Proof. intros H. unfold Status. by rewrite H. Qed.

Lemma Status_stores_through_nil_pointer_witness :
  GetLastBlock one_block_saved = Ok {| EthBlockNum := 1; Hash := 11 |} /\
  Status one_block_saved = Panic.
Proof.
  split; [reflexivity|].
  exact (Status_stores_through_nil_pointer one_block_saved _ eq_refl).
Defined.

Lemma Status_never_returns_a_record (s : Collaborators) :
  Status s = Panic \/ is_Err (Status s).
Proof.
  unfold Status. destruct (GetLastBlock s); [by left|right; by eexists|by left].
Qed.

End SyncDraft.

(** ** Package til (transakcio): the test-chain generator *)

Module Til.

(** [common.TxType] together with the instruction types of the generator's
    own language; [TxTypeOther] stands for any other string. *)
Inductive TxType : Type :=
| TxTypeExit
| TxTypeTransfer
| TxTypeDeposit
| TxTypeCreateAccountDeposit
| TxTypeCreateAccountDepositTransfer
| TxTypeDepositTransfer
| TxTypeForceTransfer
| TxTypeForceExit
| txTypeCreateAccountDepositCoordinator
| typeNewBatch
| typeNewBatchL1
| typeNewBlock
| typeRegisterToken
| TxTypeOther (s : string).

#[global] Instance TxType_eq_dec : EqDecision TxType.
Proof. solve_decision. Defined.

(** [common.UserThreshold].
    Modelled from the spec: the constant is declared in package [common],
    outside the sources at hand; the spec fixes it ("user accounts start at
    256"). *)
Definition UserThreshold : Z := 256.

(** [common.L1Tx], the fields the generator sets.  A [*big.Int] left unset
    is nil. *)
Record common_L1Tx : Type := mkCommonL1Tx {
  L1FromIdx : Z;
  L1ToIdx : Z;
  L1FromEthAddr : Z;
  L1FromBJJ : option Z;
  L1TokenID : Z;
  L1LoadAmount : option Z;
  L1Amount : option Z;
  L1Type : TxType
}.

(** [common.L2Tx], the fields the generator sets. *)
Record common_L2Tx : Type := mkCommonL2Tx {
  L2FromIdx : Z;
  L2ToIdx : Z;
  L2Amount : option Z;
  L2Fee : Z;
  L2Nonce : Z;
  L2Type : TxType;
  L2BatchNum : Z
}.

(** [common.Token], the fields the generator sets. *)
Record Token : Type := mkToken {
  TokTokenID : Z;
  TokEthBlockNum : Z
}.

(** [type Account struct]: the account of a user for one token. *)
Record Account : Type := mkAccount {
  Idx : Z;
  Nonce : Z
}.

(** [type User struct].  The generator holds users and accounts by pointer;
    a user is identified by its name and an account by the user's name and
    the token, which is how [Users] and [Accounts] reach them. *)
Record User : Type := mkUser {
  BJJ : Z;
  Addr : Z;
  Accounts : gmap Z Account
}.

(** [type L1Tx struct] of the generator. *)
Record L1Tx : Type := mkL1Tx {
  l1lineNum : Z;
  l1fromIdxName : string;
  l1toIdxName : string;
  l1L1Tx : common_L1Tx
}.

(** [type L2Tx struct] of the generator. *)
Record L2Tx : Type := mkL2Tx {
  l2lineNum : Z;
  l2fromIdxName : string;
  l2toIdxName : string;
  l2tokenID : Z;
  l2L2Tx : common_L2Tx
}.

(** [type BatchData struct] *)
Record BatchData : Type := mkBatchData {
  L1Batch : bool;
  L1CoordinatorTxs : list common_L1Tx;
  testL1CoordinatorTxs : list L1Tx;
  L2Txs : list common_L2Tx;
  testL2Txs : list L2Tx;
  CreatedAccounts : list Account
}.

(** [type BlockData struct] *)
Record BlockData : Type := mkBlockData {
  L1UserTxs : list common_L1Tx;
  Batches : list BatchData;
  RegisteredTokens : list Token
}.

(** [BatchData{}] and [BlockData{}] *)
Definition emptyBatchData : BatchData :=
  {| L1Batch := false; L1CoordinatorTxs := []; testL1CoordinatorTxs := [];
     L2Txs := []; testL2Txs := []; CreatedAccounts := [] |}.
Definition emptyBlockData : BlockData :=
  {| L1UserTxs := []; Batches := []; RegisteredTokens := [] |}.

(** The parser's [instruction] and [parsedSet], the fields read here. *)
Record instruction : Type := mkInstruction {
  lineNum : Z;
  typ : TxType;
  from : string;
  to : string;
  tokenID : Z;
  loadAmount : Z;
  amount : Z;
  fee : Z
}.

Record parsedSet : Type := mkParsedSet {
  instructions : list instruction;
  accounts : list string
}.

(** [type TestContext struct].  [l1CreatedAccounts] holds pointers to the
    accounts stored under [Users]; each is kept as the path (user name,
    token) of the account it aliases.  [toForgeNum] and [openToForge] index
    [queues]; they start at 0 and 1 and are only ever incremented. *)
Record TestContext : Type := mkTestContext {
  Instructions : list instruction;
  accountsNames : list string;
  Users : gmap string User;
  lastRegisteredTokenID : Z;
  l1CreatedAccounts : gmap string (string * Z);
  rollupConstMaxL1UserTx : Z;
  idx : Z;
  currBlock : BlockData;
  currBatch : BatchData;
  currBatchNum : Z;
  queues : list (list L1Tx);
  toForgeNum : nat;
  openToForge : nat
}.

(** [func NewTestContext(rollupConstMaxL1UserTx int) *TestContext] *)
Definition NewTestContext (rollupConstMaxL1UserTx : Z) : TestContext :=
  {| Instructions := [];
     accountsNames := [];
     Users := ∅;
     lastRegisteredTokenID := 0;
     l1CreatedAccounts := ∅;
     rollupConstMaxL1UserTx := rollupConstMaxL1UserTx;
     idx := UserThreshold;
     currBlock := emptyBlockData;
     currBatch := emptyBatchData;
     currBatchNum := 0;
     (* start with 2 queues, one for toForge, and the other for openToForge *)
     queues := [[]; []];
     toForgeNum := 0;
     openToForge := 1 |}.

(** Assignments to one field of the context. *)
Definition set_Instructions (v : list instruction) (tc : TestContext) : TestContext :=
  mkTestContext v (accountsNames tc) (Users tc) (lastRegisteredTokenID tc)
    (l1CreatedAccounts tc) (rollupConstMaxL1UserTx tc) (idx tc) (currBlock tc)
    (currBatch tc) (currBatchNum tc) (queues tc) (toForgeNum tc) (openToForge tc).
Definition set_accountsNames (v : list string) (tc : TestContext) : TestContext :=
  mkTestContext (Instructions tc) v (Users tc) (lastRegisteredTokenID tc)
    (l1CreatedAccounts tc) (rollupConstMaxL1UserTx tc) (idx tc) (currBlock tc)
    (currBatch tc) (currBatchNum tc) (queues tc) (toForgeNum tc) (openToForge tc).
Definition set_Users (v : gmap string User) (tc : TestContext) : TestContext :=
  mkTestContext (Instructions tc) (accountsNames tc) v (lastRegisteredTokenID tc)
    (l1CreatedAccounts tc) (rollupConstMaxL1UserTx tc) (idx tc) (currBlock tc)
    (currBatch tc) (currBatchNum tc) (queues tc) (toForgeNum tc) (openToForge tc).
Definition set_lastRegisteredTokenID (v : Z) (tc : TestContext) : TestContext :=
  mkTestContext (Instructions tc) (accountsNames tc) (Users tc) v
    (l1CreatedAccounts tc) (rollupConstMaxL1UserTx tc) (idx tc) (currBlock tc)
    (currBatch tc) (currBatchNum tc) (queues tc) (toForgeNum tc) (openToForge tc).
Definition set_l1CreatedAccounts (v : gmap string (string * Z)) (tc : TestContext) : TestContext :=
  mkTestContext (Instructions tc) (accountsNames tc) (Users tc) (lastRegisteredTokenID tc)
    v (rollupConstMaxL1UserTx tc) (idx tc) (currBlock tc)
    (currBatch tc) (currBatchNum tc) (queues tc) (toForgeNum tc) (openToForge tc).
Definition set_idx (v : Z) (tc : TestContext) : TestContext :=
  mkTestContext (Instructions tc) (accountsNames tc) (Users tc) (lastRegisteredTokenID tc)
    (l1CreatedAccounts tc) (rollupConstMaxL1UserTx tc) v (currBlock tc)
    (currBatch tc) (currBatchNum tc) (queues tc) (toForgeNum tc) (openToForge tc).
Definition set_currBlock (v : BlockData) (tc : TestContext) : TestContext :=
  mkTestContext (Instructions tc) (accountsNames tc) (Users tc) (lastRegisteredTokenID tc)
    (l1CreatedAccounts tc) (rollupConstMaxL1UserTx tc) (idx tc) v
    (currBatch tc) (currBatchNum tc) (queues tc) (toForgeNum tc) (openToForge tc).
Definition set_currBatch (v : BatchData) (tc : TestContext) : TestContext :=
  mkTestContext (Instructions tc) (accountsNames tc) (Users tc) (lastRegisteredTokenID tc)
    (l1CreatedAccounts tc) (rollupConstMaxL1UserTx tc) (idx tc) (currBlock tc)
    v (currBatchNum tc) (queues tc) (toForgeNum tc) (openToForge tc).
Definition set_currBatchNum (v : Z) (tc : TestContext) : TestContext :=
  mkTestContext (Instructions tc) (accountsNames tc) (Users tc) (lastRegisteredTokenID tc)
    (l1CreatedAccounts tc) (rollupConstMaxL1UserTx tc) (idx tc) (currBlock tc)
    (currBatch tc) v (queues tc) (toForgeNum tc) (openToForge tc).
Definition set_queues (v : list (list L1Tx)) (tc : TestContext) : TestContext :=
  mkTestContext (Instructions tc) (accountsNames tc) (Users tc) (lastRegisteredTokenID tc)
    (l1CreatedAccounts tc) (rollupConstMaxL1UserTx tc) (idx tc) (currBlock tc)
    (currBatch tc) (currBatchNum tc) v (toForgeNum tc) (openToForge tc).
Definition set_toForgeNum (v : nat) (tc : TestContext) : TestContext :=
  mkTestContext (Instructions tc) (accountsNames tc) (Users tc) (lastRegisteredTokenID tc)
    (l1CreatedAccounts tc) (rollupConstMaxL1UserTx tc) (idx tc) (currBlock tc)
    (currBatch tc) (currBatchNum tc) (queues tc) v (openToForge tc).
Definition set_openToForge (v : nat) (tc : TestContext) : TestContext :=
  mkTestContext (Instructions tc) (accountsNames tc) (Users tc) (lastRegisteredTokenID tc)
    (l1CreatedAccounts tc) (rollupConstMaxL1UserTx tc) (idx tc) (currBlock tc)
    (currBatch tc) (currBatchNum tc) (queues tc) (toForgeNum tc) v.

(** [l[i]] on a slice: out of range panics. *)
Definition index {A} (l : list A) (i : nat) : outcome A :=
  match l !! i with
  | Some x => Ok x
  | None => Panic
  end.

(** [fmt.Errorf("Line %d: %s", inst.lineNum, err.Error())]; the line number
    is not rendered. *)
Definition lineError (e : error) : error := ErrMsg ("Line: " +:+ errorString e).

(** [if err := m; err != nil { return nil, fmt.Errorf("Line ...") }] *)
Definition orLineError {S A} (m : M S A) : M S A := fun s =>
  match m s with
  | (Err e, s') => (Err (lineError e), s')
  | r => r
  end.

Section generator.
(** Functions of other packages, by what they return. *)
Variable Public : Z -> Z.            (* babyjub: PrivateKey.Public() *)
Variable newPrivateKey : nat -> Z.   (* the key copied from strconv.Itoa(i) *)
Variable newAddress : nat -> Z.      (* ethCrypto.PubkeyToAddress of the key i *)
Variable idxTokenIDToString : string -> Z -> string.
Variable NewPoolL2Tx : common_L2Tx -> outcome common_L2Tx.
  (* common.NewPoolL2Tx(tx.PoolL2Tx()) followed by nTx.L2Tx() *)
Variable NewL2Tx : common_L2Tx -> outcome common_L2Tx.   (* common.NewL2Tx *)
Variable parse : string -> outcome parsedSet.  (* newParser(...).parse() *)

(** [tc.Users[name]], dereferenced. *)
Definition getUser (name : string) : M TestContext User :=
  tc ← get; lift (deref (Users tc !! name)).

(** [func (tc *TestContext) addToL1Queue(tx L1Tx)] *)
Definition addToL1Queue (tx : L1Tx) : M TestContext unit :=
  tc ← get;
  q ← lift (index (queues tc) (openToForge tc));
  (if bool_decide (rollupConstMaxL1UserTx tc <= Z.of_nat (length q)) then
     (* if current OpenToForge queue reached its Max, move into a new queue *)
     modify (fun tc => set_openToForge (S (openToForge tc)) tc) ;;
     modify (fun tc => set_queues (queues tc ++ [[]]) tc)
   else mret tt) ;;
  tc ← get;
  q ← lift (index (queues tc) (openToForge tc));
  modify (set_queues (<[openToForge tc := q ++ [tx]]> (queues tc))).

(** [func (tc *TestContext) checkIfAccountExists(tf string, inst instruction) error] *)
Definition checkIfAccountExists (tf : string) (inst : instruction) : M TestContext unit :=
  user ← getUser tf;
  match Accounts user !! tokenID inst with
  | None => throw (ErrMsg "while account not created yet")
  | Some _ => mret tt
  end.

(** [func (tc *TestContext) checkIfTokenIsRegistered(inst instruction) error] *)
Definition checkIfTokenIsRegistered (inst : instruction) : M TestContext unit :=
  tc ← get;
  if bool_decide (lastRegisteredTokenID tc < tokenID inst)
  then throw (ErrMsg "Can not process: TokenID not registered")
  else mret tt.

(** One round of the loop of [calculateIdxForL1Txs]. *)
Definition calculateIdxForL1Tx (isCoordinatorTxs : bool) (tx : L1Tx) : M TestContext unit :=
  (if bool_decide (L1Type (l1L1Tx tx) = TxTypeCreateAccountDeposit \/
                   L1Type (l1L1Tx tx) = TxTypeCreateAccountDepositTransfer) then
     user ← getUser (l1fromIdxName tx);
     match Accounts user !! L1TokenID (l1L1Tx tx) with
     | Some _ =>
       (* if account already exists, return error *)
       throw (ErrMsg "Can not create same account twice (same User & same TokenID) (this is a design property of Transakcio)")
     | None =>
       tc ← get;
       let acc := {| Idx := idx tc; Nonce := 0 |} in
       modify (set_Users
         (<[l1fromIdxName tx :=
              mkUser (BJJ user) (Addr user)
                (<[L1TokenID (l1L1Tx tx) := acc]> (Accounts user))]> (Users tc))) ;;
       modify (fun tc => set_l1CreatedAccounts
         (<[idxTokenIDToString (l1fromIdxName tx) (L1TokenID (l1L1Tx tx)) :=
              (l1fromIdxName tx, L1TokenID (l1L1Tx tx))]> (l1CreatedAccounts tc)) tc) ;;
       modify (fun tc => set_idx (idx tc + 1) tc)
     end
   else mret tt) ;;
  if isCoordinatorTxs then
    modify (fun tc =>
      let b := currBatch tc in
      set_currBatch
        (mkBatchData (L1Batch b) (L1CoordinatorTxs b ++ [l1L1Tx tx])
           (testL1CoordinatorTxs b) (L2Txs b) (testL2Txs b) (CreatedAccounts b)) tc)
  else mret tt.

(** [func (tc *TestContext) calculateIdxForL1Txs(isCoordinatorTxs bool, txs []L1Tx) error] *)
Definition calculateIdxForL1Txs (isCoordinatorTxs : bool) (txs : list L1Tx) : M TestContext unit :=
  forM_ txs (calculateIdxForL1Tx isCoordinatorTxs).

(** Assignments through [tc.currBatch] and [tc.currBlock]. *)
Definition set_testL2Tx (i : nat) (t : L2Tx) : M TestContext unit :=
  modify (fun tc =>
    let b := currBatch tc in
    set_currBatch
      (mkBatchData (L1Batch b) (L1CoordinatorTxs b) (testL1CoordinatorTxs b)
         (L2Txs b) (<[i := t]> (testL2Txs b)) (CreatedAccounts b)) tc).

Definition append_testL2Txs (t : L2Tx) : M TestContext unit :=
  modify (fun tc =>
    let b := currBatch tc in
    set_currBatch
      (mkBatchData (L1Batch b) (L1CoordinatorTxs b) (testL1CoordinatorTxs b)
         (L2Txs b) (testL2Txs b ++ [t]) (CreatedAccounts b)) tc).

Definition append_L2Txs (t : common_L2Tx) : M TestContext unit :=
  modify (fun tc =>
    let b := currBatch tc in
    set_currBatch
      (mkBatchData (L1Batch b) (L1CoordinatorTxs b) (testL1CoordinatorTxs b)
         (L2Txs b ++ [t]) (testL2Txs b) (CreatedAccounts b)) tc).

Definition append_testL1CoordinatorTxs (t : L1Tx) : M TestContext unit :=
  modify (fun tc =>
    let b := currBatch tc in
    set_currBatch
      (mkBatchData (L1Batch b) (L1CoordinatorTxs b) (testL1CoordinatorTxs b ++ [t])
         (L2Txs b) (testL2Txs b) (CreatedAccounts b)) tc).

Definition append_L1UserTxs (t : common_L1Tx) : M TestContext unit :=
  modify (fun tc =>
    let b := currBlock tc in
    set_currBlock (mkBlockData (L1UserTxs b ++ [t]) (Batches b) (RegisteredTokens b)) tc).

(** One round of the loop of [setIdxs], on [tc.currBatch.testL2Txs[i]]. *)
Definition setIdx (i : nat) : M TestContext unit :=
  tc ← get;
  testTx ← lift (index (testL2Txs (currBatch tc)) i);
  user ← getUser (l2fromIdxName testTx);
  match Accounts user !! l2tokenID testTx with
  | None => throw (ErrMsg "Line: from User for TokenID while account not created yet")
  | Some acc =>
    (if bool_decide (L2Type (l2L2Tx testTx) = TxTypeTransfer) then
       match l1CreatedAccounts tc
               !! idxTokenIDToString (l2toIdxName testTx) (l2tokenID testTx) with
       | None => throw (ErrMsg "Line: Can not create Transfer for a non existing account")
       | Some _ => mret tt
       end
     else mret tt) ;;
    (* tc.Users[...].Accounts[...].Nonce++ *)
    let acc' := {| Idx := Idx acc; Nonce := Nonce acc + 1 |} in
    modify (fun tc => set_Users
      (<[l2fromIdxName testTx :=
           mkUser (BJJ user) (Addr user)
             (<[l2tokenID testTx := acc']> (Accounts user))]> (Users tc)) tc) ;;
    let t := l2L2Tx testTx in
    (* testTx.L2Tx.Nonce = ...; testTx.L2Tx.FromIdx = ... *)
    let t := mkCommonL2Tx (Idx acc') (L2ToIdx t) (L2Amount t) (L2Fee t)
               (Nonce acc') (L2Type t) (L2BatchNum t) in
    let withTx t := mkL2Tx (l2lineNum testTx) (l2fromIdxName testTx)
                      (l2toIdxName testTx) (l2tokenID testTx) t in
    set_testL2Tx i (withTx t) ;;
    t ← (if bool_decide (L2Type t = TxTypeTransfer) then
           toUser ← getUser (l2toIdxName testTx);
           toAcc ← lift (deref (Accounts toUser !! l2tokenID testTx));
           let t := mkCommonL2Tx (L2FromIdx t) (Idx toAcc) (L2Amount t) (L2Fee t)
                      (L2Nonce t) (L2Type t) (L2BatchNum t) in
           set_testL2Tx i (withTx t) ;;
           mret t
         else mret t);
    nTx ← lift (NewL2Tx t);
    set_testL2Tx i (withTx nTx) ;;
    append_L2Txs nTx
  end.

(** [func (tc *TestContext) setIdxs() error] *)
Definition setIdxs : M TestContext unit :=
  tc ← get;
  forM_ (seq 0 (length (testL2Txs (currBatch tc)))) setIdx ;;
  modify (fun tc =>
    let b := currBlock tc in
    set_currBlock
      (mkBlockData (L1UserTxs b) (Batches b ++ [currBatch tc]) (RegisteredTokens b)) tc) ;;
  modify (fun tc => set_currBatchNum (currBatchNum tc + 1) tc) ;;
  modify (set_currBatch emptyBatchData).

(** [func (tc *TestContext) generateKeys(accNames []string)]; [i] is the
    loop counter, starting at 1. *)
Fixpoint generateKeysFrom (i : nat) (accNames : list string) : M TestContext unit :=
  match accNames with
  | [] => mret tt
  | name :: rest =>
    tc ← get;
    match Users tc !! name with
    | Some _ => mret tt   (* account already created *)
    | None =>
      modify (set_Users
        (<[name := {| BJJ := newPrivateKey i; Addr := newAddress i;
                      Accounts := ∅ |}]> (Users tc)))
    end ;;
    generateKeysFrom (S i) rest
  end.

Definition generateKeys (accNames : list string) : M TestContext unit :=
  generateKeysFrom 1 accNames.

(** The zero [common.L1Tx] and [common.L2Tx]. *)
Definition zeroL1Tx : common_L1Tx :=
  mkCommonL1Tx 0 0 0 None 0 None None (TxTypeOther "").
Definition zeroL2Tx : common_L2Tx :=
  mkCommonL2Tx 0 0 None 0 0 (TxTypeOther "") 0.

(** Assignment through the pointer [testTx := &tc.queues[tc.toForgeNum][i]]
    of the loop of [case typeNewBatchL1]; [q] is the queue the pointer was
    taken from and [testTx] its element. *)
Definition set_queuedL1Tx (q : list L1Tx) (i : nat) (testTx : L1Tx) (t : common_L1Tx)
  : M TestContext unit :=
  modify (fun tc =>
    set_queues
      (<[toForgeNum tc :=
           <[i := mkL1Tx (l1lineNum testTx) (l1fromIdxName testTx)
                    (l1toIdxName testTx) t]> q]> (queues tc)) tc).

(** One round of the loop of [case typeNewBatchL1] that sets the real
    indexes of [tc.queues[tc.toForgeNum][i]]. *)
Definition setQueuedIdx (i : nat) : M TestContext unit :=
  tc ← get;
  q ← lift (index (queues tc) (toForgeNum tc));
  testTx ← lift (index q i);
  let t := l1L1Tx testTx in
  fromUser ← getUser (l1fromIdxName testTx);
  fromAcc ← lift (deref (Accounts fromUser !! L1TokenID t));
  let t := mkCommonL1Tx (Idx fromAcc) (L1ToIdx t) (Addr fromUser)
             (Some (Public (BJJ fromUser))) (L1TokenID t) (L1LoadAmount t)
             (L1Amount t) (L1Type t) in
  set_queuedL1Tx q i testTx t ;;
  t ← (if bool_decide (l1toIdxName testTx = "") then
         mret (mkCommonL1Tx (L1FromIdx t) 0 (L1FromEthAddr t) (L1FromBJJ t)
                 (L1TokenID t) (L1LoadAmount t) (L1Amount t) (L1Type t))
       else
         toUser ← getUser (l1toIdxName testTx);
         toAcc ← lift (deref (Accounts toUser !! L1TokenID t));
         mret (mkCommonL1Tx (L1FromIdx t) (Idx toAcc) (L1FromEthAddr t) (L1FromBJJ t)
                 (L1TokenID t) (L1LoadAmount t) (L1Amount t) (L1Type t)));
  set_queuedL1Tx q i testTx t ;;
  append_L1UserTxs t.

(** The end of [case typeNewBatchL1]: advance batch. *)
Definition advanceToForge : M TestContext unit :=
  modify (fun tc => set_toForgeNum (S (toForgeNum tc)) tc) ;;
  tc ← get;
  if bool_decide (toForgeNum tc = openToForge tc) then
    modify (fun tc => set_openToForge (S (openToForge tc)) tc) ;;
    modify (fun tc => set_queues (queues tc ++ [[]]) tc)
  else mret tt.

(** The body of the loop of [GenerateBlocks]: one instruction, with the
    blocks generated so far. *)
Definition generateInstruction (blocks : list BlockData) (inst : instruction)
  : M TestContext (list BlockData) :=
  match typ inst with
  | txTypeCreateAccountDepositCoordinator =>
    orLineError (checkIfTokenIsRegistered inst) ;;
    user ← getUser (from inst);
    let tx := mkCommonL1Tx 0 0 (Addr user) (Some (Public (BJJ user))) (tokenID inst)
                (Some (loadAmount inst)) None TxTypeCreateAccountDeposit in
    append_testL1CoordinatorTxs (mkL1Tx (lineNum inst) (from inst) "" tx) ;;
    mret blocks
  | TxTypeCreateAccountDeposit | TxTypeCreateAccountDepositTransfer =>
    orLineError (checkIfTokenIsRegistered inst) ;;
    user ← getUser (from inst);
    let tx := mkCommonL1Tx 0 0 (Addr user) (Some (Public (BJJ user))) (tokenID inst)
                (Some (loadAmount inst))
                (if bool_decide (typ inst = TxTypeCreateAccountDepositTransfer)
                 then Some (amount inst) else None)
                (typ inst) in
    addToL1Queue (mkL1Tx (lineNum inst) (from inst) (to inst) tx) ;;
    mret blocks
  | TxTypeDeposit | TxTypeDepositTransfer =>
    orLineError (checkIfTokenIsRegistered inst) ;;
    orLineError (checkIfAccountExists (from inst) inst) ;;
    let tx := mkCommonL1Tx 0 0 0 None (tokenID inst) (Some (loadAmount inst))
                (if bool_decide (typ inst = TxTypeDepositTransfer)
                 then Some (amount inst) else None)
                (typ inst) in
    addToL1Queue (mkL1Tx (lineNum inst) (from inst) (to inst) tx) ;;
    mret blocks
  | TxTypeTransfer =>
    orLineError (checkIfTokenIsRegistered inst) ;;
    let tx := mkCommonL2Tx 0 0 (Some (amount inst)) (fee inst) 0 TxTypeTransfer 0 in
    tx ← orLineError (lift (NewPoolL2Tx tx));
    tc ← get;
    let tx := mkCommonL2Tx (L2FromIdx tx) (L2ToIdx tx) (L2Amount tx) (L2Fee tx)
                (L2Nonce tx) (L2Type tx) (currBatchNum tc) in
    append_testL2Txs (mkL2Tx (lineNum inst) (from inst) (to inst) (tokenID inst) tx) ;;
    mret blocks
  | TxTypeExit =>
    orLineError (checkIfTokenIsRegistered inst) ;;
    tc ← get;
    let tx := mkCommonL2Tx 0 1 (Some (amount inst)) 0 0 TxTypeExit (currBatchNum tc) in
    append_testL2Txs (mkL2Tx (lineNum inst) (from inst) (to inst) (tokenID inst) tx) ;;
    mret blocks
  | TxTypeForceExit =>
    orLineError (checkIfTokenIsRegistered inst) ;;
    let tx := mkCommonL1Tx 0 1 0 None (tokenID inst) None (Some (amount inst))
                TxTypeExit in
    addToL1Queue (mkL1Tx (lineNum inst) (from inst) (to inst) tx) ;;
    mret blocks
  | typeNewBatch =>
    tc ← get;
    calculateIdxForL1Txs true (testL1CoordinatorTxs (currBatch tc)) ;;
    setIdxs ;;
    mret blocks
  | typeNewBatchL1 =>
    (* for each L1UserTx of the queues[ToForgeNum], calculate the Idx *)
    tc ← get;
    q ← lift (index (queues tc) (toForgeNum tc));
    calculateIdxForL1Txs false q ;;
    tc ← get;
    calculateIdxForL1Txs true (testL1CoordinatorTxs (currBatch tc)) ;;
    (* once Idxs are calculated, update transactions to use the new Idxs *)
    tc ← get;
    q ← lift (index (queues tc) (toForgeNum tc));
    forM_ (seq 0 (length q)) setQueuedIdx ;;
    setIdxs ;;
    advanceToForge ;;
    mret blocks
  | typeNewBlock =>
    tc ← get;
    modify (set_currBlock emptyBlockData) ;;
    mret (blocks ++ [currBlock tc])
  | typeRegisterToken =>
    let newToken := {| TokTokenID := tokenID inst;
                       TokEthBlockNum := Z.of_nat (length blocks) |} in
    tc ← get;
    if bool_decide (tokenID inst <> lastRegisteredTokenID tc + 1) then
      throw (ErrMsg "Line: RegisterToken TokenID should be sequential")
    else
      modify (fun tc => set_lastRegisteredTokenID (lastRegisteredTokenID tc + 1) tc) ;;
      modify (fun tc =>
        let b := currBlock tc in
        set_currBlock
          (mkBlockData (L1UserTxs b) (Batches b) (RegisteredTokens b ++ [newToken])) tc) ;;
      mret blocks
  | _ => throw (ErrMsg "Line: Unexpected type")
  end.

(** [for _, inst := range parsedSet.instructions { ... }] *)
Fixpoint generateInstructions (blocks : list BlockData) (insts : list instruction)
  : M TestContext (list BlockData) :=
  match insts with
  | [] => mret blocks
  | inst :: rest =>
    blocks ← generateInstruction blocks inst;
    generateInstructions blocks rest
  end.

(** [func (tc *TestContext) GenerateBlocks(set string) ([]BlockData, error)] *)
Definition GenerateBlocks (set : string) : M TestContext (list BlockData) :=
  parsedSet ← lift (parse set);
  modify (set_Instructions (instructions parsedSet)) ;;
  modify (set_accountsNames (accounts parsedSet)) ;;
  tc ← get;
  generateKeys (accountsNames tc) ;;
  generateInstructions [] (instructions parsedSet).

(** *** The L1 user-tx queues *)

(** The last queue is the one open to forge, and the queue to forge next
    comes before it. *)
Definition queues_wf (tc : TestContext) : Prop :=
  S (openToForge tc) = length (queues tc) /\ (toForgeNum tc < openToForge tc)%nat.

(** No queue holds more than [rollupConstMaxL1UserTx] transactions. *)
Definition queues_capped (tc : TestContext) : Prop :=
  Forall (fun q => Z.of_nat (length q) <= rollupConstMaxL1UserTx tc) (queues tc).

Definition queues_inv (tc : TestContext) : Prop :=
  1 <= rollupConstMaxL1UserTx tc /\ queues_wf tc /\ queues_capped tc.

(** The invariant while a pointer into the queue to forge is held: that
    queue keeps the length [n] it had when the pointer was taken. *)
Definition queue_to_forge_held (n : nat) (tc : TestContext) : Prop :=
  queues_inv tc /\
  exists q0, queues tc !! toForgeNum tc = Some q0 /\ length q0 = n.

(** *** The account index counter *)

(** The index of the account of user [name] for token [tid], if created. *)
Definition accountIdx (tc : TestContext) (name : string) (tid : Z) : option Z :=
  u ← Users tc !! name; a ← Accounts u !! tid; Some (Idx a).

(** The indexes handed out so far are exactly [UserThreshold], ...,
    [idx - 1], each to one account. *)
Definition idx_inv (tc : TestContext) : Prop :=
  UserThreshold <= idx tc /\
  (forall name tid i, accountIdx tc name tid = Some i -> UserThreshold <= i < idx tc) /\
  (forall i, UserThreshold <= i < idx tc ->
     exists name tid, accountIdx tc name tid = Some i) /\
  (forall n1 t1 n2 t2 i,
     accountIdx tc n1 t1 = Some i -> accountIdx tc n2 t2 = Some i ->
     n1 = n2 /\ t1 = t2).

(** What a round of [calculateIdxForL1Txs] leaves behind when it creates the
    account of [user] (named [name]) for token [tid]. *)
Definition accountCreated (name : string) (user : User) (tid : Z) (tc : TestContext)
  : TestContext :=
  set_idx (idx tc + 1)
    (set_l1CreatedAccounts
       (<[idxTokenIDToString name tid := (name, tid)]> (l1CreatedAccounts tc))
       (set_Users
          (<[name := mkUser (BJJ user) (Addr user)
                       (<[tid := {| Idx := idx tc; Nonce := 0 |}]> (Accounts user))]>
             (Users tc)) tc)).

(** What a round of [calculateIdxForL1Txs] over coordinator transactions
    adds to the current batch. *)
Definition coordinatorTxAdded (isCoordinatorTxs : bool) (tx : L1Tx) (tc : TestContext)
  : TestContext :=
  if isCoordinatorTxs then
    let b := currBatch tc in
    set_currBatch
      (mkBatchData (L1Batch b) (L1CoordinatorTxs b ++ [l1L1Tx tx])
         (testL1CoordinatorTxs b) (L2Txs b) (testL2Txs b) (CreatedAccounts b)) tc
  else tc.

(** [tx] creates an account. *)
Definition createsAccount (tx : L1Tx) : Prop :=
  L1Type (l1L1Tx tx) = TxTypeCreateAccountDeposit \/
  L1Type (l1L1Tx tx) = TxTypeCreateAccountDepositTransfer.

(** What [addToL1Queue] leaves behind, given the open queue [q]. *)
Definition addedToL1Queue (tx : L1Tx) (q : list L1Tx) (tc : TestContext) : TestContext :=
  if bool_decide (rollupConstMaxL1UserTx tc <= Z.of_nat (length q)) then
    set_queues (queues tc ++ [[tx]]) (set_openToForge (S (openToForge tc)) tc)
  else
    set_queues (<[openToForge tc := q ++ [tx]]> (queues tc)) tc.

(** What [advanceToForge] leaves behind. *)
Definition advancedToForge (tc : TestContext) : TestContext :=
  if bool_decide (S (toForgeNum tc) = openToForge tc) then
    set_queues (queues tc ++ [[]])
      (set_openToForge (S (openToForge tc)) (set_toForgeNum (S (toForgeNum tc)) tc))
  else set_toForgeNum (S (toForgeNum tc)) tc.

Lemma queues_wf_open (tc : TestContext) :
  queues_wf tc -> exists q, queues tc !! openToForge tc = Some q.
Proof.
  intros [Hlen _]. apply lookup_lt_is_Some. lia.
Qed.

Lemma addToL1Queue_run (tx : L1Tx) (tc : TestContext) (q : list L1Tx) :
  queues_wf tc -> queues tc !! openToForge tc = Some q ->
  addToL1Queue tx tc = (Ok tt, addedToL1Queue tx q tc).
Proof.
  intros [Hlen Hlt] Hq.
  unfold addToL1Queue, addedToL1Queue, mbind, M_bind, get, lift, index, modify.
  simpl. rewrite Hq. simpl.
  case_bool_decide as Hfull; simpl.
  - rewrite lookup_app_r by lia.
    replace (S (openToForge tc) - length (queues tc))%nat with 0%nat by lia.
    simpl. f_equal. unfold set_queues, set_openToForge. simpl. f_equal.
    rewrite insert_app_r_alt by lia.
    by replace (S (openToForge tc) - length (queues tc))%nat with 0%nat by lia.
  - by rewrite Hq.
Qed.

Lemma advanceToForge_run (tc : TestContext) :
  advanceToForge tc = (Ok tt, advancedToForge tc).
Proof.
  unfold advanceToForge, advancedToForge, mbind, M_bind, get, modify. simpl.
  by case_bool_decide.
Qed.

Lemma addedToL1Queue_wf (tx : L1Tx) (q : list L1Tx) (tc : TestContext) :
  queues_wf tc -> queues_wf (addedToL1Queue tx q tc).
Proof.
  intros [Hlen Hlt]. unfold addedToL1Queue, queues_wf.
  case_bool_decide; simpl.
  - rewrite length_app. simpl. lia.
  - rewrite length_insert. lia.
Qed.

Lemma addedToL1Queue_capped (tx : L1Tx) (q : list L1Tx) (tc : TestContext) :
  1 <= rollupConstMaxL1UserTx tc -> queues tc !! openToForge tc = Some q ->
  queues_capped tc -> queues_capped (addedToL1Queue tx q tc).
Proof.
  intros Hmax Hq Hcap. unfold addedToL1Queue, queues_capped in *.
  case_bool_decide; simpl.
  - apply Forall_app. split; [done|]. repeat constructor. simpl. lia.
  - apply Forall_insert; [done|]. rewrite length_app. simpl. lia.
Qed.

Lemma advancedToForge_wf (tc : TestContext) :
  queues_wf tc -> queues_wf (advancedToForge tc).
Proof.
  intros [Hlen Hlt]. unfold advancedToForge, queues_wf.
  case_bool_decide; simpl; [rewrite length_app; simpl|]; lia.
Qed.

Lemma advancedToForge_capped (tc : TestContext) :
  1 <= rollupConstMaxL1UserTx tc -> queues_capped tc -> queues_capped (advancedToForge tc).
Proof.
  intros Hmax Hcap. unfold advancedToForge, queues_capped in *.
  case_bool_decide; simpl; [|done].
  apply Forall_app. split; [done|]. repeat constructor. simpl. lia.
Qed.

Lemma addedToL1Queue_max (tx : L1Tx) (q : list L1Tx) (tc : TestContext) :
  rollupConstMaxL1UserTx (addedToL1Queue tx q tc) = rollupConstMaxL1UserTx tc.
Proof. unfold addedToL1Queue. by case_bool_decide. Qed.

Lemma advancedToForge_max (tc : TestContext) :
  rollupConstMaxL1UserTx (advancedToForge tc) = rollupConstMaxL1UserTx tc.
Proof. unfold advancedToForge. by case_bool_decide. Qed.

Lemma addToL1Queue_preserves (tx : L1Tx) : preserves queues_inv (addToL1Queue tx).
Proof.
  intros tc (Hmax & Hwf & Hcap).
  destruct (queues_wf_open tc Hwf) as [q Hq].
  rewrite (addToL1Queue_run tx tc q Hwf Hq). simpl.
  split_and!.
  - by rewrite addedToL1Queue_max.
  - by apply addedToL1Queue_wf.
  - by apply addedToL1Queue_capped.
Qed.

Lemma advanceToForge_preserves : preserves queues_inv advanceToForge.
Proof.
  intros tc (Hmax & Hwf & Hcap). rewrite advanceToForge_run. simpl.
  split_and!.
  - by rewrite advancedToForge_max.
  - by apply advancedToForge_wf.
  - by apply advancedToForge_capped.
Qed.

Lemma orLineError_preserves {A} (I : TestContext -> Prop) (m : M TestContext A) :
  preserves I m -> preserves I (orLineError m).
Proof.
  intros Hm s Hs. specialize (Hm s Hs). unfold orLineError.
  by destruct (m s) as [[?|?|] ?].
Qed.

Lemma getUser_run (name : string) (tc tc' : TestContext) (u : User) :
  getUser name tc = (Ok u, tc') -> Users tc !! name = Some u /\ tc' = tc.
Proof.
  unfold getUser, mbind, M_bind, get, lift. simpl.
  destruct (Users tc !! name); simpl; [|done]. by intros [= -> ->].
Qed.

Lemma preserves_weaken {A} (I J : TestContext -> Prop) (m : M TestContext A)
    (tc : TestContext) :
  preserves J m -> J tc -> (forall tc', J tc' -> I tc') -> I (m tc).2.
Proof. intros Hm Htc HJI. by apply HJI, Hm. Qed.

(** Breaks a monadic program into its parts, for an invariant that the
    assignments met on the way do not touch. *)
Ltac frame :=
  repeat first
    [ apply preserves_ret | apply preserves_get | apply preserves_lift
    | apply preserves_throw
    | solve [auto with pres]
    | apply preserves_bind; [|intros ?]
    | apply preserves_forM_; intros ?
    | apply orLineError_preserves
    | apply preserves_modify; intros ? ?; assumption
    | progress cbv zeta
    | match goal with
      | |- preserves _ (match ?x with _ => _ end) => destruct x
      | |- preserves _ (if ?x then _ else _) => destruct x
      end ].

Create HintDb pres.
#[local] Hint Resolve addToL1Queue_preserves advanceToForge_preserves : pres.

Lemma getUser_preserves (I : TestContext -> Prop) (name : string) :
  preserves I (getUser name).
Proof. unfold getUser. frame. Qed.
#[local] Hint Resolve getUser_preserves : pres.

Lemma checkIfTokenIsRegistered_preserves (I : TestContext -> Prop) (inst : instruction) :
  preserves I (checkIfTokenIsRegistered inst).
Proof. unfold checkIfTokenIsRegistered. frame. Qed.

Lemma checkIfAccountExists_preserves (I : TestContext -> Prop) (tf : string)
    (inst : instruction) :
  preserves I (checkIfAccountExists tf inst).
Proof. unfold checkIfAccountExists. frame. Qed.
#[local] Hint Resolve checkIfTokenIsRegistered_preserves
  checkIfAccountExists_preserves : pres.

Lemma calculateIdxForL1Txs_preserves_queues (isCoordinatorTxs : bool) (txs : list L1Tx) :
  preserves queues_inv (calculateIdxForL1Txs isCoordinatorTxs txs).
Proof. unfold calculateIdxForL1Txs, calculateIdxForL1Tx. frame. Qed.

Lemma setIdxs_preserves_queues : preserves queues_inv setIdxs.
Proof.
  unfold setIdxs, setIdx, set_testL2Tx, append_L2Txs. frame.
Qed.

Lemma generateKeysFrom_preserves_queues (i : nat) (accNames : list string) :
  preserves queues_inv (generateKeysFrom i accNames).
Proof.
  revert i. induction accNames as [|name rest IH]; intros i; simpl; frame.
Qed.
#[local] Hint Resolve calculateIdxForL1Txs_preserves_queues setIdxs_preserves_queues
  generateKeysFrom_preserves_queues : pres.

Lemma set_queuedL1Tx_preserves (q : list L1Tx) (i : nat) (testTx : L1Tx)
    (t : common_L1Tx) :
  preserves (queue_to_forge_held (length q)) (set_queuedL1Tx q i testTx t).
Proof.
  intros tc [(Hmax & [Hlen Hlt] & Hcap) (q0 & Hq0 & Hl)].
  unfold set_queuedL1Tx, modify. simpl.
  unfold queue_to_forge_held, queues_inv, queues_wf, queues_capped in *. simpl.
  split_and!; [done|by rewrite length_insert|done| |].
  - apply Forall_insert; [done|]. rewrite length_insert, <-Hl.
    by eapply (Forall_lookup_1 _ _ _ _ Hcap).
  - eexists. split; [apply list_lookup_insert_eq; lia|].
    by rewrite length_insert.
Qed.
#[local] Hint Resolve set_queuedL1Tx_preserves : pres.

Lemma setQueuedIdx_preserves_queues (i : nat) : preserves queues_inv (setQueuedIdx i).
Proof.
  intros tc Hinv. unfold setQueuedIdx.
  apply bind_inv; [done|]. intros ? ? [-> ->]%get_run _.
  apply bind_inv; [done|]. intros q ? [Hq ->]%lift_run _.
  unfold index in Hq. destruct (queues tc !! toForgeNum tc) as [q0|] eqn:Hq0; [|done].
  injection Hq as <-.
  apply (preserves_weaken _ (queue_to_forge_held (length q0)));
    [|split; [done|by exists q0]|by intros ? []].
  unfold append_L1UserTxs. frame.
Qed.
#[local] Hint Resolve setQueuedIdx_preserves_queues : pres.

Lemma generateInstruction_preserves_queues (blocks : list BlockData) (inst : instruction) :
  preserves queues_inv (generateInstruction blocks inst).
Proof.
  unfold generateInstruction, append_testL1CoordinatorTxs, append_testL2Txs.
  destruct (typ inst); frame.
Qed.

Lemma generateInstructions_preserves_queues (blocks : list BlockData)
    (insts : list instruction) :
  preserves queues_inv (generateInstructions blocks insts).
Proof.
  revert blocks. induction insts as [|inst rest IH]; intros blocks; simpl.
  - apply preserves_ret.
  - apply preserves_bind; [apply generateInstruction_preserves_queues|]. apply IH.
Qed.

Lemma GenerateBlocks_preserves_queues (set : string) :
  preserves queues_inv (GenerateBlocks set).
Proof.
  unfold GenerateBlocks, generateKeys. frame.
  apply generateInstructions_preserves_queues.
Qed.

Lemma NewTestContext_queues (max : Z) : 1 <= max -> queues_inv (NewTestContext max).
Proof.
  intros Hmax. unfold queues_inv, queues_wf, queues_capped. simpl.
  split_and!; [done|done|lia|]. repeat constructor; simpl; lia.
Qed.

(** *** The index counter through the generator *)

Lemma idx_inv_ext (tc tc' : TestContext) :
  idx tc' = idx tc ->
  (forall n t, accountIdx tc' n t = accountIdx tc n t) ->
  idx_inv tc -> idx_inv tc'.
Proof.
  intros Hidx Hacc (H0 & Hrange & Hsurj & Hinj). unfold idx_inv.
  rewrite Hidx. split_and!; [done|..].
  - intros n t i. rewrite Hacc. apply Hrange.
  - intros i Hi. destruct (Hsurj i Hi) as (n & t & H). exists n, t. by rewrite Hacc.
  - intros n1 t1 n2 t2 i. rewrite !Hacc. apply Hinj.
Qed.

Lemma accountIdx_new_user (tc : TestContext) (name : string) (k a : Z) (n : string)
    (t : Z) :
  Users tc !! name = None ->
  accountIdx (set_Users (<[name := mkUser k a ∅]> (Users tc)) tc) n t
  = accountIdx tc n t.
Proof.
  intros Hnone. unfold accountIdx. simpl.
  destruct (decide (name = n)) as [->|Hne].
  - rewrite lookup_insert_eq, Hnone. simpl. by rewrite lookup_empty.
  - by rewrite lookup_insert_ne.
Qed.

Lemma accountIdx_same_idx (tc : TestContext) (name : string) (user : User) (tid : Z)
    (acc acc' : Account) (n : string) (t : Z) :
  Users tc !! name = Some user -> Accounts user !! tid = Some acc ->
  Idx acc' = Idx acc ->
  accountIdx
    (set_Users (<[name := mkUser (BJJ user) (Addr user)
                            (<[tid := acc']> (Accounts user))]> (Users tc)) tc) n t
  = accountIdx tc n t.
Proof.
  intros Hu Ha Hidx. unfold accountIdx. simpl.
  destruct (decide (name = n)) as [->|Hne]; [|by rewrite lookup_insert_ne].
  rewrite lookup_insert_eq, Hu. simpl.
  destruct (decide (tid = t)) as [->|Hne]; [|by rewrite lookup_insert_ne].
  rewrite lookup_insert_eq, Ha. simpl. by rewrite Hidx.
Qed.

Lemma accountIdx_created (tc : TestContext) (name : string) (user : User) (tid : Z)
    (n : string) (t : Z) :
  Users tc !! name = Some user ->
  accountIdx (accountCreated name user tid tc) n t
  = if decide (name = n /\ tid = t) then Some (idx tc) else accountIdx tc n t.
Proof.
  intros Hu. unfold accountIdx, accountCreated. simpl.
  destruct (decide (name = n)) as [->|Hne]; [|rewrite lookup_insert_ne by done].
  - rewrite lookup_insert_eq, Hu. simpl.
    destruct (decide (tid = t)) as [->|Hne].
    + rewrite lookup_insert_eq. simpl. by rewrite decide_True.
    + rewrite lookup_insert_ne by done. rewrite decide_False; [done|]. by intros [].
  - rewrite decide_False; [done|]. by intros [].
Qed.

(** Creating an account hands out [idx] and moves the counter by one. *)
Lemma accountCreated_idx_inv (tc : TestContext) (name : string) (user : User) (tid : Z) :
  Users tc !! name = Some user -> Accounts user !! tid = None ->
  idx_inv tc -> idx_inv (accountCreated name user tid tc).
Proof.
  intros Hu Ha (H0 & Hrange & Hsurj & Hinj).
  assert (Hfresh : accountIdx tc name tid = None).
  { unfold accountIdx. rewrite Hu. simpl. by rewrite Ha. }
  unfold idx_inv. split_and!.
  - simpl. lia.
  - intros n t i. rewrite accountIdx_created by done. simpl.
    case_decide; [intros [= <-]; lia|]. intros Hi%Hrange. lia.
  - intros i Hi. simpl in Hi. destruct (decide (i = idx tc)) as [->|Hne].
    + exists name, tid. rewrite accountIdx_created by done. by rewrite decide_True.
    + destruct (Hsurj i) as (n & t & Hnt); [lia|]. exists n, t.
      rewrite accountIdx_created by done. case_decide as Heq; [|done].
      destruct Heq as [-> ->]. congruence.
  - intros n1 t1 n2 t2 i. rewrite !accountIdx_created by done.
    destruct (decide (name = n1 /\ tid = t1)) as [[<- <-]|?],
      (decide (name = n2 /\ tid = t2)) as [[<- <-]|?]; intros Hi1 Hi2; simplify_eq.
    + done.
    + apply Hrange in Hi2. lia.
    + apply Hrange in Hi1. lia.
    + by eapply Hinj.
Qed.

Lemma calculateIdxForL1Tx_creates (isCoordinatorTxs : bool) (tx : L1Tx)
    (tc : TestContext) (user : User) :
  createsAccount tx ->
  Users tc !! l1fromIdxName tx = Some user ->
  Accounts user !! L1TokenID (l1L1Tx tx) = None ->
  calculateIdxForL1Tx isCoordinatorTxs tx tc
  = (Ok tt, coordinatorTxAdded isCoordinatorTxs tx
              (accountCreated (l1fromIdxName tx) user (L1TokenID (l1L1Tx tx)) tc)).
Proof.
  intros Hcreate Hu Ha.
  unfold calculateIdxForL1Tx, getUser, mbind, M_bind, get, lift, modify.
  rewrite bool_decide_eq_true_2 by done. simpl.
  rewrite Hu. simpl. rewrite Ha. simpl.
  unfold coordinatorTxAdded. by destruct isCoordinatorTxs.
Qed.

Lemma calculateIdxForL1Tx_preserves_idx (isCoordinatorTxs : bool) (tx : L1Tx) :
  preserves idx_inv (calculateIdxForL1Tx isCoordinatorTxs tx).
Proof.
  intros tc Hinv. unfold calculateIdxForL1Tx.
  apply bind_inv; [|intros _ tc' _ Htc'; apply preserves_apply; [frame|done]].
  case_bool_decide; [|done].
  apply bind_inv; [by apply getUser_preserves|].
  intros user ? [Hu ->]%getUser_run _.
  destruct (Accounts user !! L1TokenID (l1L1Tx tx)) eqn:Ha; [done|].
  change (idx_inv (accountCreated (l1fromIdxName tx) user (L1TokenID (l1L1Tx tx)) tc)).
  by apply accountCreated_idx_inv.
Qed.
#[local] Hint Resolve calculateIdxForL1Tx_preserves_idx : pres.

Lemma calculateIdxForL1Txs_preserves_idx (isCoordinatorTxs : bool) (txs : list L1Tx) :
  preserves idx_inv (calculateIdxForL1Txs isCoordinatorTxs txs).
Proof. unfold calculateIdxForL1Txs. frame. Qed.

Lemma generateKeysFrom_preserves_idx (i : nat) (accNames : list string) :
  preserves idx_inv (generateKeysFrom i accNames).
Proof.
  revert i. induction accNames as [|name rest IH]; intros i; simpl; [frame|].
  intros tc Hinv.
  apply bind_inv; [done|]. intros ? ? [-> ->]%get_run _.
  apply bind_inv; [|intros _ tc' _ Htc'; by apply IH].
  destruct (Users tc !! name) eqn:Hu; [done|].
  eapply idx_inv_ext; [|intros n t; by apply accountIdx_new_user|]; done.
Qed.

Lemma setIdx_preserves_idx (i : nat) : preserves idx_inv (setIdx i).
Proof.
  intros tc Hinv. unfold setIdx.
  apply bind_inv; [done|]. intros ? ? [-> ->]%get_run _.
  apply bind_inv; [done|]. intros testTx ? [_ ->]%lift_run _.
  apply bind_inv; [by apply getUser_preserves|].
  intros user ? [Hu ->]%getUser_run _.
  destruct (Accounts user !! l2tokenID testTx) as [acc|] eqn:Ha; [|done].
  apply bind_inv; [by repeat case_match|].
  intros [] tc' Hrun _.
  assert (tc' = tc) as ->.
  { repeat case_match; unfold throw, mret, M_ret in Hrun; congruence. }
  cbv zeta.
  apply bind_inv.
  - eapply idx_inv_ext; [|intros n t; by eapply accountIdx_same_idx|]; done.
  - intros _ tc' _ Htc'. apply preserves_apply; [|done].
    unfold set_testL2Tx, append_L2Txs. frame.
Qed.
#[local] Hint Resolve calculateIdxForL1Txs_preserves_idx generateKeysFrom_preserves_idx
  setIdx_preserves_idx : pres.

Lemma setIdxs_preserves_idx : preserves idx_inv setIdxs.
Proof. unfold setIdxs. frame. Qed.
#[local] Hint Resolve setIdxs_preserves_idx : pres.

Lemma generateInstruction_preserves_idx (blocks : list BlockData) (inst : instruction) :
  preserves idx_inv (generateInstruction blocks inst).
Proof.
  unfold generateInstruction, append_testL1CoordinatorTxs, append_testL2Txs,
    addToL1Queue, setQueuedIdx, set_queuedL1Tx, append_L1UserTxs, advanceToForge.
  destruct (typ inst); frame.
Qed.

Lemma generateInstructions_preserves_idx (blocks : list BlockData)
    (insts : list instruction) :
  preserves idx_inv (generateInstructions blocks insts).
Proof.
  revert blocks. induction insts as [|inst rest IH]; intros blocks; simpl.
  - apply preserves_ret.
  - apply preserves_bind; [apply generateInstruction_preserves_idx|]. apply IH.
Qed.

Lemma GenerateBlocks_preserves_idx (set : string) :
  preserves idx_inv (GenerateBlocks set).
Proof.
  unfold GenerateBlocks, generateKeys. frame.
  apply generateInstructions_preserves_idx.
Qed.

Lemma NewTestContext_idx (max : Z) : idx_inv (NewTestContext max).
Proof.
  unfold idx_inv, accountIdx. simpl. split_and!; [done|..].
  - intros name tid i. by rewrite lookup_empty.
  - intros i Hi. lia.
  - intros n1 t1 n2 t2 i. by rewrite lookup_empty.
Qed.

(** *** The claims about the generator *)

(** C6, amended.  For a cap of at least one transaction: a fresh context
    has its queues in order; generating blocks keeps them so (the open queue
    is the last one, the queue to forge comes before it, no queue is over
    the cap); [addToL1Queue] never fails, puts the transaction at the end of
    the open queue, or alone in a new open queue when the open one is
    full; and after an L1 batch the queue to forge moves on by one, a new
    empty open queue being appended when it reaches the open one. *)
Theorem l1_queues_invariants (max : Z) :
  1 <= max ->
  queues_inv (NewTestContext max) /\
  (forall set, queues_inv (GenerateBlocks set (NewTestContext max)).2) /\
  (forall tc, queues_inv tc ->
     (forall set, queues_inv (GenerateBlocks set tc).2) /\
     (forall tx, exists q,
        queues tc !! openToForge tc = Some q /\
        addToL1Queue tx tc = (Ok tt, addedToL1Queue tx q tc) /\
        queues_inv (addedToL1Queue tx q tc)) /\
     advanceToForge tc = (Ok tt, advancedToForge tc) /\
     queues_inv (advancedToForge tc)).
Proof.
  intros Hmax. split_and!.
  - by apply NewTestContext_queues.
  - intros set. by apply GenerateBlocks_preserves_queues, NewTestContext_queues.
  - intros tc Hinv. split_and!.
    + intros set. by apply GenerateBlocks_preserves_queues.
    + intros tx. destruct Hinv as (Hm & Hwf & Hcap).
      destruct (queues_wf_open tc Hwf) as [q Hq]. exists q.
      split_and!; [done|by apply addToL1Queue_run|].
      pose proof (addToL1Queue_preserves tx tc) as Hp.
      rewrite (addToL1Queue_run tx tc q) in Hp by done. by apply Hp.
    + apply advanceToForge_run.
    + pose proof (advanceToForge_preserves tc Hinv) as Hp.
      by rewrite advanceToForge_run in Hp.
Qed.

(** C7.  A fresh context starts the counter at 256 with no account; a round
    of [calculateIdxForL1Txs] that creates an account, of a user or of the
    coordinator, gives it the current value of the counter and moves the
    counter by exactly one; and whatever blocks and batches are generated,
    the indexes handed out are exactly 256, ..., [idx - 1], each to one
    account. *)
Theorem idx_assigned_sequentially :
  (forall max, idx (NewTestContext max) = 256 /\ idx_inv (NewTestContext max)) /\
  (forall isCoordinatorTxs tx tc user,
     createsAccount tx ->
     Users tc !! l1fromIdxName tx = Some user ->
     Accounts user !! L1TokenID (l1L1Tx tx) = None ->
     exists tc',
       calculateIdxForL1Tx isCoordinatorTxs tx tc = (Ok tt, tc') /\
       accountIdx tc' (l1fromIdxName tx) (L1TokenID (l1L1Tx tx)) = Some (idx tc) /\
       idx tc' = idx tc + 1) /\
  (forall set tc, idx_inv tc -> idx_inv (GenerateBlocks set tc).2) /\
  (forall set max, idx_inv (GenerateBlocks set (NewTestContext max)).2).
Proof.
  split_and!.
  - intros max. split; [done|apply NewTestContext_idx].
  - intros isCoordinatorTxs tx tc user Hc Hu Ha. eexists. split_and!.
    + by apply calculateIdxForL1Tx_creates.
    + transitivity (accountIdx (accountCreated (l1fromIdxName tx) user
                                  (L1TokenID (l1L1Tx tx)) tc)
                      (l1fromIdxName tx) (L1TokenID (l1L1Tx tx))).
      { unfold coordinatorTxAdded. by destruct isCoordinatorTxs. }
      rewrite accountIdx_created by done. by rewrite decide_True.
    + unfold coordinatorTxAdded. by destruct isCoordinatorTxs.
  - intros set tc. apply GenerateBlocks_preserves_idx.
  - intros set max. apply GenerateBlocks_preserves_idx, NewTestContext_idx.
Qed.

End generator.

(** *** A small chain, to run the generator on *)

(** Stand-ins for the functions of other packages. *)
Definition samplePublic (sk : Z) : Z := sk + 1000.
Definition samplePrivateKey (i : nat) : Z := Z.of_nat i.
Definition sampleAddress (i : nat) : Z := Z.of_nat i + 2000.
Definition sampleKey (name : string) (tid : Z) : string := name +:+ pretty tid.

(** Coordinator account for token 0 in a first batch; user A's account in
    the second L1 batch of the first block (the first one forges the empty
    queue 0); user B's in the second L1 batch of the second block. *)
Definition sampleSet : parsedSet :=
  {| accounts := ["Coord"; "A"; "B"];
     instructions :=
       [ mkInstruction 1 txTypeCreateAccountDepositCoordinator "Coord" "" 0 0 0 0;
         mkInstruction 2 typeNewBatch "" "" 0 0 0 0;
         mkInstruction 3 TxTypeCreateAccountDeposit "A" "" 0 500 0 0;
         mkInstruction 4 typeNewBatchL1 "" "" 0 0 0 0;
         mkInstruction 5 typeNewBatchL1 "" "" 0 0 0 0;
         mkInstruction 6 typeNewBlock "" "" 0 0 0 0;
         mkInstruction 7 TxTypeCreateAccountDeposit "B" "" 0 500 0 0;
         mkInstruction 8 typeNewBatchL1 "" "" 0 0 0 0;
         mkInstruction 9 typeNewBatchL1 "" "" 0 0 0 0;
         mkInstruction 10 typeNewBlock "" "" 0 0 0 0 ] |}.

Definition sampleGenerateBlocks (max : Z) : outcome (list BlockData) * TestContext :=
  GenerateBlocks samplePublic samplePrivateKey sampleAddress sampleKey Ok Ok
    (fun _ => Ok sampleSet) "" (NewTestContext max).

Definition sampleL1Tx : L1Tx :=
  mkL1Tx 3 "A" "" (mkCommonL1Tx 0 0 0 None 0 (Some 500) None TxTypeCreateAccountDeposit).

Lemma sampleGenerateBlocks_idxs :
  let tc := (sampleGenerateBlocks 2).2 in
  is_Ok (sampleGenerateBlocks 2).1 /\
  accountIdx tc "Coord" 0 = Some 256 /\
  accountIdx tc "A" 0 = Some 257 /\
  accountIdx tc "B" 0 = Some 258 /\
  idx tc = 259 /\
  map length (queues tc) = [0; 1; 0; 1; 0; 0]%nat /\
  toForgeNum tc = 4%nat /\ openToForge tc = 5%nat.
Proof. vm_compute. split_and!; try done. by eexists. Qed.

Lemma idx_assigned_sequentially_witness :
  idx_inv (sampleGenerateBlocks 2).2
  /\ accountIdx (sampleGenerateBlocks 2).2 "Coord" 0 = Some 256
  /\ accountIdx (sampleGenerateBlocks 2).2 "A" 0 = Some 257
  /\ accountIdx (sampleGenerateBlocks 2).2 "B" 0 = Some 258
  /\ idx (sampleGenerateBlocks 2).2 = 259.
Proof.
  pose proof (idx_assigned_sequentially samplePublic samplePrivateKey sampleAddress
                sampleKey Ok Ok (fun _ => Ok sampleSet)) as (_ & _ & _ & Hgen).
  split; [exact (Hgen "" 2)|].
  vm_compute. by split_and!.
Defined.

Lemma l1_queues_invariants_witness :
  1 <= 2 /\ queues_inv (NewTestContext 2) /\ queues_inv (sampleGenerateBlocks 2).2.
Proof.
  assert (Hmax : 1 <= 2) by lia.
  pose proof (l1_queues_invariants samplePublic samplePrivateKey sampleAddress
                sampleKey Ok Ok (fun _ => Ok sampleSet) 2 Hmax) as (H0 & Hgen & _).
  split_and!; [exact Hmax|exact H0|exact (Hgen "")].
Defined.

(** C6 as stated fails for a cap of zero: the transaction appended to a
    fresh context lands alone in a new queue, which then holds more than
    [rollupConstMaxL1UserTx] = 0 transactions; the same happens while
    generating the sample chain. *)
Lemma l1_queue_over_a_cap_of_zero :
  let tc := (addToL1Queue sampleL1Tx (NewTestContext 0)).2 in
  rollupConstMaxL1UserTx tc = 0 /\
  queues tc = [[]; []; [sampleL1Tx]] /\
  openToForge tc = 2%nat /\
  ~ queues_capped tc /\
  map length (queues (sampleGenerateBlocks 0).2) = [0; 0; 1; 0; 1; 0]%nat.
Proof.
  cbv zeta. split_and!; [done..| |by vm_compute].
  unfold queues_capped. simpl. rewrite !Forall_cons. simpl. lia.
Qed.

End Til.

(** ** The transaction processor *)

Module TxProcessor.

Local Open Scope N_scope.

(** Modelled from the spec: the transaction processor and the account store
    under it (packages txprocessor and statedb) are not among the sources at
    hand, only their tests are.  The definitions of this module follow the
    spec's data model (section 3) and its processing rules (sections 4.2 and
    4.3) sentence by sentence.  Indexes, token ids, nonces, balances and
    amounts are the spec's unsigned integers ([N]).  The Merkle trie and the
    witness data are left out: no rule on balances, nonces or indexes reads
    them. *)

(** Modelled from the spec: the transaction types of the data model. *)
Inductive TxType : Type :=
| CreateAccountDeposit
| CreateAccountDepositTransfer
| Deposit
| DepositTransfer
| ForceTransfer
| ForceExit
| Transfer
| TransferToEthAddr
| TransferToBJJ
| Exit.

#[global] Instance TxType_eq_dec : EqDecision TxType.
Proof. solve_decision. Defined.

(** Modelled from the spec: "Account: {Idx, TokenID, Nonce, Balance, BJJ,
    EthAddr}"; the index is the key under which the account is stored. *)
Record Account : Type := mkAccount {
  TokenID : N;
  Nonce : N;
  Balance : N;
  BJJ : N;
  EthAddr : N
}.

(** Modelled from the spec: the account store, "layered over [the trie]
    plus a key-value account store keyed by (EthAddr, BJJ, TokenID) for
    reverse lookup", with [lastIdx] and the current batch number.  The spec
    does not say which account [getIdxByEthAddr] answers with when several
    share an address and a token; [idxByAddr] keeps the first one created. *)
Record StateDB : Type := mkStateDB {
  accounts : gmap N Account;
  idxByKey : gmap (N * N * N) N;
  idxByAddr : gmap (N * N) N;
  lastIdx : N;
  currentBatch : N
}.

(** Modelled from the spec: "The first 256 indices are reserved ... User
    accounts start at 256". *)
Definition emptyStateDB : StateDB :=
  {| accounts := ∅; idxByKey := ∅; idxByAddr := ∅; lastIdx := 255;
     currentBatch := 0 |}.

(** Modelled from the spec: the exit pseudo-account. *)
Definition exitIdx : N := 1.

(** Modelled from the spec: the store's errors. *)
Definition AccountNotFound : error := ErrMsg "AccountNotFound".
Definition AccountAlreadyExists : error := ErrMsg "AccountAlreadyExists".

(** Modelled from the spec: [getAccount(idx)]. *)
Definition getAccount (s : StateDB) (idx : N) : outcome Account :=
  match accounts s !! idx with
  | Some a => Ok a
  | None => Err AccountNotFound
  end.

(** Modelled from the spec: [getIdxByEthAddrBJJ] and [getIdxByEthAddr]. *)
Definition getIdxByEthAddrBJJ (s : StateDB) (addr bjj tokenID : N) : outcome N :=
  match idxByKey s !! (addr, bjj, tokenID) with
  | Some i => Ok i
  | None => Err AccountNotFound
  end.

Definition getIdxByEthAddr (s : StateDB) (addr tokenID : N) : outcome N :=
  match idxByAddr s !! (addr, tokenID) with
  | Some i => Ok i
  | None => Err AccountNotFound
  end.

(** Modelled from the spec: "[createAccount(account) → idx] (assigns the
    next Idx, updates both stores, bumps lastIdx)"; "the pair (EthAddr, BJJ,
    TokenID) is unique", so a second account for a triple is
    [AccountAlreadyExists]. *)
Definition createAccount (s : StateDB) (a : Account) : outcome (N * StateDB) :=
  match idxByKey s !! (EthAddr a, BJJ a, TokenID a) with
  | Some _ => Err AccountAlreadyExists
  | None =>
    let idx := lastIdx s + 1 in
    Ok (idx,
        {| accounts := <[idx := a]> (accounts s);
           idxByKey := <[(EthAddr a, BJJ a, TokenID a) := idx]> (idxByKey s);
           idxByAddr :=
             match idxByAddr s !! (EthAddr a, TokenID a) with
             | Some _ => idxByAddr s
             | None => <[(EthAddr a, TokenID a) := idx]> (idxByAddr s)
             end;
           lastIdx := idx;
           currentBatch := currentBatch s |})
  end.

(** Modelled from the spec: [updateAccount(idx, account)]. *)
Definition updateAccount (s : StateDB) (idx : N) (a : Account) : outcome StateDB :=
  match accounts s !! idx with
  | None => Err AccountNotFound
  | Some _ =>
    Ok {| accounts := <[idx := a]> (accounts s); idxByKey := idxByKey s;
          idxByAddr := idxByAddr s; lastIdx := lastIdx s;
          currentBatch := currentBatch s |}
  end.

Definition withBalance (a : Account) (b : N) : Account :=
  mkAccount (TokenID a) (Nonce a) b (BJJ a) (EthAddr a).

(** Modelled from the spec: "L1Tx: on-chain-originated transfer", the
    fields the processing rules read. *)
Record L1Tx : Type := mkL1Tx {
  L1FromIdx : N;
  L1ToIdx : N;
  L1TokenID : N;
  L1Amount : N;
  L1DepositAmount : N;
  L1FromBJJ : N;
  L1FromEthAddr : N;
  L1Type : TxType;
  L1UserOrigin : bool
}.

(** Modelled from the spec: "PoolL2Tx: off-chain transfer", the fields the
    processing rules read. *)
Record PoolL2Tx : Type := mkPoolL2Tx {
  L2FromIdx : N;
  L2ToIdx : N;
  L2ToEthAddr : N;
  L2ToBJJ : N;
  L2TokenID : N;
  L2Amount : N;
  L2Fee : N;
  L2Nonce : N;
  L2Type : TxType;
  L2Signature : N;
  L2MaxNumBatch : N
}.

(** Modelled from the spec: "[ptc] fixes bounds". *)
Record Config : Type := mkConfig {
  NLevels : N;
  MaxTx : N;
  MaxL1Tx : N;
  MaxFeeTx : N;
  ChainID : N
}.

(** Modelled from the spec: "ExitInfo{Idx, BatchNum, Amount, MerkleProof}",
    without the proof. *)
Record ExitInfo : Type := mkExitInfo {
  ExitIdx : N;
  ExitBatchNum : N;
  ExitAmount : N
}.

(** Modelled from the spec: "Output: {ZKInputs?, ExitInfos[],
    CreatedAccounts[], CollectedFees (TokenID→bigint)}", without the
    witness. *)
Record ProcessTxOutput : Type := mkProcessTxOutput {
  ExitInfos : list ExitInfo;
  CreatedAccounts : list (N * Account);
  CollectedFees : gmap N N
}.

Definition emptyOutput : ProcessTxOutput :=
  {| ExitInfos := []; CreatedAccounts := []; CollectedFees := ∅ |}.

(** The state of a batch under way: the store, the output so far, and the
    number of the batch. *)
Record Work : Type := mkWork {
  db : StateDB;
  out : ProcessTxOutput;
  batchNum : N
}.

Definition withDb (w : Work) (s : StateDB) : Work := mkWork s (out w) (batchNum w).

Definition withAccounts (s : StateDB) (m : gmap N Account) : StateDB :=
  mkStateDB m (idxByKey s) (idxByAddr s) (lastIdx s) (currentBatch s).

Definition ProtocolViolation (what : string) : error := ErrMsg what.

(** Modelled from the spec: the transfer leg of an L1 transaction.  "An L1
    that fails its validity check (insufficient balance, wrong recipient,
    token mismatch) is still consumed ... but is not applied — balance and
    nonce are unchanged." *)
Definition transferL1 (s : StateDB) (fromIdx toIdx amount : N) : StateDB :=
  match accounts s !! fromIdx, accounts s !! toIdx with
  | Some snd, Some rcv =>
    if bool_decide (amount <= Balance snd /\ TokenID snd = TokenID rcv) then
      let m := <[fromIdx := withBalance snd (Balance snd - amount)]> (accounts s) in
      let m := alter (fun r => withBalance r (Balance r + amount)) toIdx m in
      withAccounts s m
    else s
  | _, _ => s
  end.

(** Modelled from the spec: "Deposit: credit DepositAmount to the account at
    FromIdx iff (FromEthAddr) matches the account's EthAddr."  The result
    says whether the deposit was applied. *)
Definition depositL1 (s : StateDB) (tx : L1Tx) : bool * StateDB :=
  match accounts s !! L1FromIdx tx with
  | Some a =>
    if bool_decide (EthAddr a = L1FromEthAddr tx) then
      (true, withAccounts s
               (<[L1FromIdx tx := withBalance a (Balance a + L1DepositAmount tx)]>
                  (accounts s)))
    else (false, s)
  | None => (false, s)
  end.

(** Modelled from the spec: "for each L1 transaction", by type. *)
Definition processL1Tx (w : Work) (tx : L1Tx) : outcome Work :=
  let s := db w in
  let newAccount :=
    {| TokenID := L1TokenID tx; Nonce := 0; Balance := L1DepositAmount tx;
       BJJ := L1FromBJJ tx; EthAddr := L1FromEthAddr tx |} in
  let created idx s' :=
    mkWork s'
      (mkProcessTxOutput (ExitInfos (out w))
         (CreatedAccounts (out w) ++ [(idx, newAccount)]) (CollectedFees (out w)))
      (batchNum w) in
  match L1Type tx with
  | CreateAccountDeposit =>
    '(idx, s') ← createAccount s newAccount;
    Ok (created idx s')
  | CreateAccountDepositTransfer =>
    '(idx, s') ← createAccount s newAccount;
    Ok (created idx (transferL1 s' idx (L1ToIdx tx) (L1Amount tx)))
  | Deposit => Ok (withDb w (depositL1 s tx).2)
  | DepositTransfer =>
    let '(applied, s') := depositL1 s tx in
    if applied
    then Ok (withDb w (transferL1 s' (L1FromIdx tx) (L1ToIdx tx) (L1Amount tx)))
    else Ok w
  | ForceTransfer =>
    match accounts s !! L1FromIdx tx with
    | Some a =>
      if bool_decide (EthAddr a = L1FromEthAddr tx)
      then Ok (withDb w (transferL1 s (L1FromIdx tx) (L1ToIdx tx) (L1Amount tx)))
      else Ok w
    | None => Ok w
    end
  | ForceExit =>
    match accounts s !! L1FromIdx tx with
    | Some a =>
      if bool_decide (EthAddr a = L1FromEthAddr tx /\ L1Amount tx <= Balance a) then
        Ok (mkWork
              (withAccounts s
                 (<[L1FromIdx tx := withBalance a (Balance a - L1Amount tx)]> (accounts s)))
              (mkProcessTxOutput
                 (ExitInfos (out w)
                    ++ [mkExitInfo (L1FromIdx tx) (batchNum w) (L1Amount tx)])
                 (CreatedAccounts (out w)) (CollectedFees (out w)))
              (batchNum w))
      else Ok w
    | None => Ok w
    end
  | _ => Err (ProtocolViolation "not an L1 transaction type")
  end.

Section rules.
(** The fee table ("a fixed constant shared with the on-chain verifier",
    which the spec does not list) and the EdDSA verification (an "external,
    specified collaborator"). *)
Variable feeTable : N -> Q.
Variable verifySignature : N -> PoolL2Tx -> bool.

(** Modelled from the spec: "Compute feeAmount = Amount × feeTable[FeeSelector]
    (see §6 for the 256-entry table)"; amounts being integers, the product
    is rounded down.  "Fee table index out of range" is a protocol
    violation. *)
Definition feeAmount (amount sel : N) : outcome N :=
  if bool_decide (sel < 256) then
    Ok (Z.to_N (Qfloor (Qmult (inject_Z (Z.of_N amount)) (feeTable sel))))
  else Err (ProtocolViolation "fee table index out of range").

Definition guard (b : bool) (what : string) : outcome unit :=
  if b then Ok tt else Err (ProtocolViolation what).

(** Modelled from the spec: the receiver of an L2 transaction: "for
    Transfer: require ToIdx ≥ 256"; "for TransferToEthAddr / TransferToBJJ
    ...: if an account for (ToEthAddr[,ToBJJ], TokenID) exists, resolve to
    that Idx as AuxToIdx; otherwise reject". *)
Definition receiverL2 (s : StateDB) (tx : PoolL2Tx) : outcome N :=
  match L2Type tx with
  | Transfer =>
    if bool_decide (256 <= L2ToIdx tx) then Ok (L2ToIdx tx)
    else Err (ProtocolViolation "ToIdx below 256")
  | TransferToEthAddr => getIdxByEthAddr s (L2ToEthAddr tx) (L2TokenID tx)
  | TransferToBJJ => getIdxByEthAddrBJJ s (L2ToEthAddr tx) (L2ToBJJ tx) (L2TokenID tx)
  | _ => Err (ProtocolViolation "not a transfer")
  end.

(** Modelled from the spec: the effect of a valid L2 transaction of
    [sender] that pays [fee]: "debit Amount + feeAmount from sender; credit
    Amount to receiver", or for an exit "append to ExitInfos"; "accumulate
    feeAmount into CollectedFees[TokenID]; bump sender nonce". *)
Definition applyL2Tx (w : Work) (tx : PoolL2Tx) (sender : Account) (fee : N)
  : outcome Work :=
  let s := db w in
  let sender' :=
    mkAccount (TokenID sender) (Nonce sender + 1)
      (Balance sender - (L2Amount tx + fee)) (BJJ sender) (EthAddr sender) in
  let m := <[L2FromIdx tx := sender']> (accounts s) in
  let collected :=
    <[TokenID sender := default 0 (CollectedFees (out w) !! TokenID sender) + fee]>
      (CollectedFees (out w)) in
  match L2Type tx with
  | Exit =>
    Ok (mkWork (withAccounts s m)
          (mkProcessTxOutput
             (ExitInfos (out w) ++ [mkExitInfo (L2FromIdx tx) (batchNum w) (L2Amount tx)])
             (CreatedAccounts (out w)) collected)
          (batchNum w))
  | _ =>
    toIdx ← receiverL2 s tx;
    receiver ← match m !! toIdx with
               | Some r => Ok r
               | None => Err AccountNotFound
               end;
    guard (bool_decide (TokenID receiver = TokenID sender)) "wrong recipient token" ;;
    let m := <[toIdx := withBalance receiver (Balance receiver + L2Amount tx)]> m in
    Ok (mkWork (withAccounts s m)
          (mkProcessTxOutput (ExitInfos (out w)) (CreatedAccounts (out w)) collected)
          (batchNum w))
  end.

(** Modelled from the spec: "for each L2 transaction": the signature "using
    the signer's stored BJJ", "Nonce == account.Nonce (strict equality)",
    "MaxNumBatch == 0 or MaxNumBatch ≥ currentBatchNum", the fee, and
    (balances never go negative) the funds.  "Any L2 validity failure
    aborts the whole batch (hard error)". *)
Definition processL2Tx (w : Work) (tx : PoolL2Tx) : outcome Work :=
  sender ← getAccount (db w) (L2FromIdx tx);
  guard (verifySignature (BJJ sender) tx) "signature invalid" ;;
  guard (bool_decide (L2Nonce tx = Nonce sender)) "nonce" ;;
  guard (bool_decide (L2MaxNumBatch tx = 0 \/ batchNum w <= L2MaxNumBatch tx))
    "MaxNumBatch" ;;
  fee ← feeAmount (L2Amount tx) (L2Fee tx);
  guard (bool_decide (L2Amount tx + fee <= Balance sender)) "insufficient balance" ;;
  applyL2Tx w tx sender fee.

(** Modelled from the spec: "the fee-distribution step iterates coordIdxs
    ...  For each idx, look up the account's TokenID; if
    CollectedFees[TokenID] > 0, credit the floor of that amount to the
    coordinator account and zero the slot."  The slots zeroed are the
    step's own copy [fees] of the collected fees: the tests read the totals
    from the output after the step. *)
Fixpoint distributeFees (s : StateDB) (fees : gmap N N) (coordIdxs : list N)
  : outcome StateDB :=
  match coordIdxs with
  | [] => Ok s
  | idx :: rest =>
    acc ← getAccount s idx;
    match fees !! TokenID acc with
    | Some f =>
      if bool_decide (0 < f) then
        distributeFees
          (withAccounts s (<[idx := withBalance acc (Balance acc + f)]> (accounts s)))
          (<[TokenID acc := 0]> fees) rest
      else distributeFees s fees rest
    | None => distributeFees s fees rest
    end
  end.

Fixpoint foldOutcome {A B} (f : B -> A -> outcome B) (b : B) (l : list A) : outcome B :=
  match l with
  | [] => Ok b
  | x :: l' => b' ← f b x; foldOutcome f b' l'
  end.

(** Modelled from the spec: the processor.  "Processing order, fixed and
    mandatory: 1. l1UserTxs ... 2. l1CoordinatorTxs ... 3. poolL2Txs ... 4.
    fee-distribution step over coordIdxs"; "exceeding any bound is a hard
    error before processing begins"; the store "checkpoints under the new
    batch number".  A hard error leaves the caller with the store it had. *)
Definition ProcessTxs (ptc : Config) (s : StateDB) (coordIdxs : list N)
    (l1UserTxs l1CoordinatorTxs : list L1Tx) (poolL2Txs : list PoolL2Tx)
  : outcome (StateDB * ProcessTxOutput) :=
  let nL1 := N.of_nat (length l1UserTxs + length l1CoordinatorTxs) in
  guard (bool_decide (nL1 <= MaxL1Tx ptc)) "MaxL1Tx" ;;
  guard (bool_decide (nL1 + N.of_nat (length poolL2Txs) <= MaxTx ptc)) "MaxTx" ;;
  guard (bool_decide (N.of_nat (length coordIdxs) <= MaxFeeTx ptc)) "MaxFeeTx" ;;
  let w := mkWork s emptyOutput (currentBatch s + 1) in
  w ← foldOutcome processL1Tx w l1UserTxs;
  w ← foldOutcome processL1Tx w l1CoordinatorTxs;
  w ← foldOutcome processL2Tx w poolL2Txs;
  s' ← distributeFees (db w) (CollectedFees (out w)) coordIdxs;
  Ok (mkStateDB (accounts s') (idxByKey s') (idxByAddr s') (lastIdx s') (batchNum w),
      out w).

End rules.

(** *** The test vectors of the ZK-input tests *)

(** [generateJsUsers]: the addresses and the compressed public keys of the
    four users, as numbers. *)
Definition userAddr (i : nat) : N :=
  nth i [0x7e5f4552091a69125d5dfcb7b8c2659029395bdf;
         0x2b5ad5c4795c026514f8317c7a215e218dccd6cf;
         0x6813eb9362372eef6200f3b1dbc3f819671cba69;
         0x1eff47bc3a10a45d4b230b5d10e37751fe6aa718] 0.
Definition userBJJ (i : nat) : N :=
  nth i [0xd746824f7d0ac5044a573f51b278acb56d823bec39551d1d7bf7378b68a1b021;
         0x4d05c307400c65795f02db96b1b81c60386fd53e947d9d3f749f3d99b1853909;
         0x38ffa002724562eb2a952a2503e206248962406cf16392ff32759b6f2a41fe11;
         0xc719e6401190be7fa7fbfcd3448fe2755233c01575341a3b09edadf5454f760b] 0.

(** The [CreateAccountDeposit] of user [i] used by every vector. *)
Definition createAccountDepositOf (i : nat) : L1Tx :=
  {| L1FromIdx := 0; L1DepositAmount := 16000000; L1Amount := 0; L1TokenID := 1;
     L1FromBJJ := userBJJ i; L1FromEthAddr := userAddr i; L1ToIdx := 0;
     L1Type := CreateAccountDeposit; L1UserOrigin := true |}.

(** An L2 [Transfer] of 1000 with fee selector 126, signed by user 0. *)
Definition transferOf (toIdx nonce signature : N) : PoolL2Tx :=
  {| L2FromIdx := 256; L2ToIdx := toIdx; L2ToEthAddr := 0; L2ToBJJ := 0;
     L2TokenID := 1; L2Amount := 1000; L2Fee := 126; L2Nonce := nonce;
     L2Type := Transfer; L2Signature := signature; L2MaxNumBatch := 0 |}.

(** [TestZKInputs1] *)
Definition ptc1 : Config :=
  {| NLevels := 16; MaxTx := 3; MaxL1Tx := 2; MaxFeeTx := 2; ChainID := 0 |}.
Definition l1Txs1 : list L1Tx := [createAccountDepositOf 0; createAccountDepositOf 1].
Definition l2Txs1 (signature : N) : list PoolL2Tx := [transferOf 256 0 signature].

(** [TestZKInputs3] *)
Definition ptc3 : Config :=
  {| NLevels := 16; MaxTx := 10; MaxL1Tx := 4; MaxFeeTx := 2; ChainID := 0 |}.
Definition createAccountDepositTransfer3 : L1Tx :=
  {| L1FromIdx := 0; L1DepositAmount := 16000000; L1Amount := 1000; L1TokenID := 1;
     L1FromBJJ := userBJJ 3; L1FromEthAddr := userAddr 3; L1ToIdx := 258;
     L1Type := CreateAccountDepositTransfer; L1UserOrigin := true |}.
Definition l1Txs3 : list L1Tx :=
  [createAccountDepositOf 0; createAccountDepositOf 1; createAccountDepositOf 2;
   createAccountDepositTransfer3].

(** The account of user [i] for token 1, with the given nonce and balance. *)
Definition accountOf (i : nat) (nonce balance : N) : Account :=
  {| TokenID := 1; Nonce := nonce; Balance := balance; BJJ := userBJJ i;
     EthAddr := userAddr i |}.

Definition keyOf (i : nat) : N * N * N := (userAddr i, userBJJ i, 1).

(** [TestZKInputs1], step by step: the store after the empty first batch;
    the second batch after its L1 transactions, after its L2 transaction,
    and the store after the fee distribution. *)
Definition afterEmptyBatch : StateDB :=
  {| accounts := ∅; idxByKey := ∅; idxByAddr := ∅; lastIdx := 255; currentBatch := 1 |}.

Definition afterL1_1 : Work :=
  {| db := {| accounts :=
                <[257 := accountOf 1 0 16000000]> (<[256 := accountOf 0 0 16000000]> ∅);
              idxByKey := <[keyOf 1 := 257]> (<[keyOf 0 := 256]> ∅);
              idxByAddr := <[(userAddr 1, 1) := 257]> (<[(userAddr 0, 1) := 256]> ∅);
              lastIdx := 257; currentBatch := 1 |};
     out := {| ExitInfos := [];
               CreatedAccounts :=
                 [(256, accountOf 0 0 16000000); (257, accountOf 1 0 16000000)];
               CollectedFees := ∅ |};
     batchNum := 2 |}.

Definition afterL2_1 : Work :=
  {| db := withAccounts (db afterL1_1)
             (<[256 := accountOf 0 1 15999899]> (accounts (db afterL1_1)));
     out := {| ExitInfos := [];
               CreatedAccounts := CreatedAccounts (out afterL1_1);
               CollectedFees := <[1 := 101]> ∅ |};
     batchNum := 2 |}.

Definition final_1 : StateDB :=
  {| accounts :=
       <[257 := accountOf 1 0 16000101]> (<[256 := accountOf 0 1 15999899]> ∅);
     idxByKey := idxByKey (db afterL1_1);
     idxByAddr := idxByAddr (db afterL1_1);
     lastIdx := 257; currentBatch := 2 |}.



(** Every account of the store has an index the store has handed out. *)
Definition store_wf (s : StateDB) : Prop :=
  forall i a, accounts s !! i = Some a -> i <= lastIdx s.

(** A fee table whose entry 126 is 0.101, and a verifier that accepts. *)
Definition sampleFeeTable (sel : N) : Q := if bool_decide (sel = 126) then 101 # 1000 else 0.
Definition acceptSignature (bjj : N) (tx : PoolL2Tx) : bool := true.

Ltac eval_guard :=
  match goal with
  | |- context [guard ?b ?m] =>
    let v := eval vm_compute in b in change (guard b m) with (guard v m)
  end; cbn [guard mbind outcome_bind obind].

Lemma emptyStateDB_wf : store_wf emptyStateDB.
Proof. intros i a. unfold emptyStateDB. simpl. by rewrite lookup_empty. Qed.






Section vectors.
Variable feeTable : N -> Q.
Variable verifySignature : N -> PoolL2Tx -> bool.

Lemma emptyBatch_run :
  ProcessTxs feeTable verifySignature ptc1 emptyStateDB [] [] [] []
  = Ok (afterEmptyBatch, emptyOutput).
Proof. reflexivity. Qed.

Lemma l1_phase_1 :
  foldOutcome processL1Tx (mkWork afterEmptyBatch emptyOutput 2) l1Txs1 = Ok afterL1_1.
Proof. vm_compute. reflexivity. Qed.

Lemma l2_phase_1 (signature : N) :
  feeAmount feeTable 1000 126 = Ok 101 ->
  verifySignature (userBJJ 0) (transferOf 256 0 signature) = true ->
  foldOutcome (processL2Tx feeTable verifySignature) afterL1_1 (l2Txs1 signature)
  = Ok afterL2_1.
Proof.
  intros Hfee Hsig. unfold l2Txs1. cbn [foldOutcome]. unfold processL2Tx.
  replace (getAccount (db afterL1_1) (L2FromIdx (transferOf 256 0 signature)))
    with (Ok (accountOf 0 0 16000000)) by (vm_compute; reflexivity).
  cbn [mbind outcome_bind obind].
  change (BJJ (accountOf 0 0 16000000)) with (userBJJ 0). rewrite Hsig.
  cbn [guard mbind outcome_bind obind].
  do 2 eval_guard.
  change (feeAmount feeTable _ _) with (feeAmount feeTable 1000 126). rewrite Hfee.
  cbn [mbind outcome_bind obind]. eval_guard.
  vm_compute. reflexivity.
Qed.

Lemma fee_distribution_1 :
  distributeFees (db afterL2_1) (CollectedFees (out afterL2_1)) [257]
  = Ok (withAccounts (db afterL2_1) (accounts final_1)).
Proof. vm_compute. reflexivity. Qed.

(** C1.  [TestZKInputs1]: after an empty first batch, the batch of the two
    [CreateAccountDeposit]s and the self-transfer of 1000 with fee selector
    126, with coordinator index 257, leaves account 256 with balance
    15_999_899 and nonce 1, and account 257 with balance 16_000_101.  The
    fee of 101 is taken from the sender with the amount while the L2
    transaction is processed (the coordinator still has 16_000_000 then) and
    reaches account 257 in the fee-distribution step. *)
Theorem ZKInputs1_fee_debited_then_distributed (signature : N) :
  feeAmount feeTable 1000 126 = Ok 101 ->
  verifySignature (userBJJ 0) (transferOf 256 0 signature) = true ->
  ProcessTxs feeTable verifySignature ptc1 emptyStateDB [] [] [] []
    = Ok (afterEmptyBatch, emptyOutput) /\
  ProcessTxs feeTable verifySignature ptc1 afterEmptyBatch [257] l1Txs1 []
      (l2Txs1 signature)
    = Ok (final_1, out afterL2_1) /\
  accounts final_1 !! 256 = Some (accountOf 0 1 15999899) /\
  accounts final_1 !! 257 = Some (accountOf 1 0 16000101) /\
  accounts final_1 !! 258 = None /\
  foldOutcome processL1Tx (mkWork afterEmptyBatch emptyOutput 2) l1Txs1
    = Ok afterL1_1 /\
  accounts (db afterL1_1) !! 256 = Some (accountOf 0 0 16000000) /\
  accounts (db afterL1_1) !! 257 = Some (accountOf 1 0 16000000) /\
  foldOutcome (processL2Tx feeTable verifySignature) afterL1_1 (l2Txs1 signature)
    = Ok afterL2_1 /\
  accounts (db afterL2_1) !! 256 = Some (accountOf 0 1 15999899) /\
  accounts (db afterL2_1) !! 257 = Some (accountOf 1 0 16000000) /\
  CollectedFees (out afterL2_1) !! 1 = Some 101.
Proof.
  intros Hfee Hsig.
  split_and!.
  - apply emptyBatch_run.
  - unfold ProcessTxs. do 3 eval_guard.
    change (currentBatch afterEmptyBatch + 1) with 2.
    rewrite l1_phase_1. cbn [mbind outcome_bind obind foldOutcome].
    rewrite l2_phase_1 by done. cbn [mbind outcome_bind obind].
    rewrite fee_distribution_1. cbn [mbind outcome_bind obind].
    vm_compute. reflexivity.
  - vm_compute; reflexivity.
  - vm_compute; reflexivity.
  - vm_compute; reflexivity.
  - apply l1_phase_1.
  - vm_compute; reflexivity.
  - vm_compute; reflexivity.
  - by apply l2_phase_1.
  - vm_compute; reflexivity.
  - vm_compute; reflexivity.
  - vm_compute; reflexivity.
Qed.

End vectors.

Lemma sampleFeeTable_126 : feeAmount sampleFeeTable 1000 126 = Ok 101.
Proof. vm_compute. reflexivity. Qed.

Lemma ZKInputs1_witness :
  feeAmount sampleFeeTable 1000 126 = Ok 101 /\
  acceptSignature (userBJJ 0) (transferOf 256 0 0) = true /\
  ProcessTxs sampleFeeTable acceptSignature ptc1 afterEmptyBatch [257] l1Txs1 []
      (l2Txs1 0)
    = Ok (final_1, out afterL2_1) /\
  accounts final_1 !! 256 = Some (accountOf 0 1 15999899) /\
  accounts final_1 !! 257 = Some (accountOf 1 0 16000101).
Proof.
  pose proof (ZKInputs1_fee_debited_then_distributed sampleFeeTable acceptSignature 0
                sampleFeeTable_126 eq_refl) as (_ & Hrun & H256 & H257 & _).
  split_and!; [exact sampleFeeTable_126|reflexivity|exact Hrun|exact H256|exact H257].
Defined.

End TxProcessor.

(** ** Package synchronizer *)

Module Synchronizer.

(** *** Data of packages common and eth

    The declarations of these packages are not among the sources at hand;
    each record keeps the fields the synchronizer reads or writes, under
    the names it uses.  Hashes and addresses are numbers. *)

(** [common.Block], as returned by [EthBlockByNumber]. *)
Record Block : Type := mkBlock {
  Num : Z;
  Timestamp : Z;
  Hash : Z;
  ParentHash : Z
}.

#[global] Instance Block_eq_dec : EqDecision Block.
Proof. solve_decision. Defined.

(** [common.L1Tx]: the fields the synchronizer writes, and the rest of the
    transaction ([L1Data]), which it hands on unread. *)
Record L1Tx : Type := mkL1Tx {
  ToForgeL1TxsNum : option Z;
  L1Position : Z;
  UserOrigin : bool;
  L1EthBlockNum : Z;
  L1BatchNum : option Z;
  L1Data : Z
}.

(** [common.L2Tx], likewise. *)
Record L2Tx : Type := mkL2Tx {
  L2Position : Z;
  L2EthBlockNum : Z;
  L2BatchNum : Z;
  L2Data : Z
}.

(** [common.ExitInfo] and [common.Account] as the transaction processor
    returns them, likewise. *)
Record ExitInfo : Type := mkExitInfo {
  ExitBatchNum : Z;
  ExitData : Z
}.

Record Account : Type := mkAccount {
  AccNonce : Z;
  AccBalance : Z;
  AccBatchNum : Z;
  AccData : Z
}.

(** [common.Batch] *)
Record Batch : Type := mkBatch {
  BatchNum : Z;
  BatchEthBlockNum : Z;
  ForgerAddr : Z;
  CollectedFees : gmap Z Z;
  FeeIdxsCoordinator : list Z;
  StateRoot : Z;
  NumAccounts : Z;
  LastIdx : Z;
  ExitRoot : Z;
  ForgeL1TxsNum : option Z;
  SlotNum : Z
}.

(** [common.BatchData] *)
Record BatchData : Type := mkBatchData {
  L1Batch : bool;
  BatchL1UserTxs : list L1Tx;
  L1CoordinatorTxs : list L1Tx;
  L2Txs : list L2Tx;
  CreatedAccounts : list Account;
  ExitTree : list ExitInfo;
  BatchOf : Batch
}.

(** [common.Token] *)
Record Token : Type := mkToken {
  TokenID : Z;
  TokenEthAddr : Z;
  TokenEthBlockNum : Z;
  Name : string;
  Symbol : string;
  Decimals : Z
}.

(** What [EthERC20Consts] returns. *)
Record ERC20Consts : Type := mkERC20Consts {
  ConstName : string;
  ConstSymbol : string;
  ConstDecimals : Z
}.

(** [common.WithdrawInfo] *)
Record WithdrawInfo : Type := mkWithdrawInfo {
  WithdrawIdx : Z;
  NumExitRoot : Z;
  InstantWithdraw : bool;
  WithdrawTxHash : Z;
  Owner : Z;
  WithdrawToken : Z
}.

(** [common.WDelayerTransfer] *)
Record WDelayerTransfer : Type := mkWDelayerTransfer {
  TransferOwner : Z;
  TransferToken : Z;
  TransferAmount : Z
}.

(** [common.BucketUpdate], [common.TokenExchange], [common.BucketParams],
    [common.Bid], [common.Coordinator],
    [common.WDelayerEscapeHatchWithdrawal] *)
Record BucketUpdate : Type := mkBucketUpdate {
  BUEthBlockNum : Z;
  BUNumBucket : Z;
  BUBlockStamp : Z;
  BUWithdrawals : Z
}.

Record TokenExchange : Type := mkTokenExchange {
  TEEthBlockNum : Z;
  TEAddress : Z;
  TEValueUSD : Z
}.

Record BucketParams : Type := mkBucketParams {
  CeilUSD : Z;
  BucketWithdrawals : Z;
  BlockWithdrawalRate : Z;
  MaxWithdrawals : Z
}.

Record Bid : Type := mkBid {
  BidSlotNum : Z;
  BidValue : Z;
  Bidder : Z;
  BidEthBlockNum : Z
}.

Record Coordinator : Type := mkCoordinator {
  CoordBidder : Z;
  CoordForger : Z;
  CoordURL : string;
  CoordEthBlockNum : Z
}.

Record WDelayerEscapeHatchWithdrawal : Type := mkEscapeHatch {
  EHEthBlockNum : Z;
  EHWho : Z;
  EHTo : Z;
  EHTokenAddr : Z;
  EHAmount : Z
}.

(** [common.RollupVariables], [common.AuctionVariables],
    [common.WDelayerVariables] *)
Record RollupVariables : Type := mkRollupVariables {
  RVEthBlockNum : Z;
  FeeAddToken : Z;
  ForgeL1L2BatchTimeout : Z;
  RVWithdrawalDelay : Z;
  Buckets : list BucketParams;
  SafeMode : bool
}.

Record AuctionVariables : Type := mkAuctionVariables {
  AVEthBlockNum : Z;
  DonationAddress : Z;
  BootCoordinator : Z;
  BootCoordinatorURL : string;
  DefaultSlotSetBid : list Z;
  DefaultSlotSetBidSlotNum : Z;
  ClosedAuctionSlots : Z;
  OpenAuctionSlots : Z;
  AllocationRatio : list Z;
  Outbidding : Z;
  SlotDeadline : Z
}.

Record WDelayerVariables : Type := mkWDelayerVariables {
  WVEthBlockNum : Z;
  HermezGovernanceAddress : Z;
  EmergencyCouncilAddress : Z;
  WVWithdrawalDelay : Z;
  EmergencyModeStartingBlock : Z;
  EmergencyMode : bool
}.

(** [type SCVariables struct] *)
Record SCVariables : Type := mkSCVariables {
  VarsRollup : RollupVariables;
  VarsAuction : AuctionVariables;
  VarsWDelayer : WDelayerVariables
}.

(** [common.RollupData], [common.AuctionData], [common.WDelayerData],
    [common.BlockData] *)
Record RollupData : Type := mkRollupData {
  L1UserTxs : list L1Tx;
  Batches : list BatchData;
  AddedTokens : list Token;
  Withdrawals : list WithdrawInfo;
  UpdateBucketWithdraw : list BucketUpdate;
  TokenExchanges : list TokenExchange;
  RollupVars : option RollupVariables
}.

Record AuctionData : Type := mkAuctionData {
  Bids : list Bid;
  Coordinators : list Coordinator;
  AuctionVars : option AuctionVariables
}.

Record WDelayerData : Type := mkWDelayerData {
  Deposits : list WDelayerTransfer;
  DepositsByTxHash : gmap Z (list WDelayerTransfer);
  WDelayerWithdrawals : list WDelayerTransfer;
  EscapeHatchWithdrawals : list WDelayerEscapeHatchWithdrawal;
  WDelayerVars : option WDelayerVariables
}.

Record BlockData : Type := mkBlockData {
  BlockOf : Block;
  Rollup : RollupData;
  Auction : AuctionData;
  WDelayer : WDelayerData
}.

(** Modelled from the spec: [common.NewRollupData()],
    [common.NewAuctionData()] and [common.NewWDelayerData()] are not among
    the sources at hand.  A stream without events contributes empty data:
    every slice and map empty, no new variables. *)
Definition NewRollupData : RollupData := mkRollupData [] [] [] [] [] [] None.
Definition NewAuctionData : AuctionData := mkAuctionData [] [] None.
Definition NewWDelayerData : WDelayerData := mkWDelayerData [] ∅ [] [] None.

(** *** Events, as [eth.RollupEvents], [eth.AuctionEvents] and
    [eth.WDelayerEvents] carry them *)

Record RollupEventForgeBatch : Type := mkEventForgeBatch {
  EvtBatchNum : Z;
  EvtEthTxHash : Z;
  EvtL1UserTxsLen : Z
}.

Record RollupEventAddToken : Type := mkEventAddToken {
  EvtTokenAddress : Z;
  EvtTokenID : Z
}.

Record RollupEventUpdateBucketWithdraw : Type := mkEventUpdateBucketWithdraw {
  EvtNumBucket : Z;
  EvtBlockStamp : Z;
  EvtWithdrawals : Z
}.

Record RollupEventWithdraw : Type := mkEventWithdraw {
  EvtIdx : Z;
  EvtNumExitRoot : Z;
  EvtInstantWithdraw : bool;
  EvtTxHash : Z
}.

Record RollupEventUpdateTokenExchange : Type := mkEventUpdateTokenExchange {
  AddressArray : list Z;
  ValueArray : list Z
}.

Record RollupEventUpdateBucketsParameters : Type := mkEventUpdateBucketsParameters {
  ArrayBuckets : list BucketParams;
  EvtSafeMode : bool
}.

(** An event that carries one new value is kept as that value. *)
Record RollupEvents : Type := mkRollupEvents {
  EvL1UserTx : list L1Tx;
  EvForgeBatch : list RollupEventForgeBatch;
  EvAddToken : list RollupEventAddToken;
  EvUpdateBucketWithdraw : list RollupEventUpdateBucketWithdraw;
  EvWithdraw : list RollupEventWithdraw;
  EvUpdateTokenExchange : list RollupEventUpdateTokenExchange;
  EvUpdateForgeL1L2BatchTimeout : list Z;
  EvUpdateFeeAddToken : list Z;
  EvUpdateWithdrawalDelay : list Z;
  EvUpdateBucketsParameters : list RollupEventUpdateBucketsParameters
}.

Record AuctionEventNewBid : Type := mkEventNewBid {
  EvtSlot : Z;
  EvtBidAmount : Z;
  EvtBidder : Z
}.

Record AuctionEventSetCoordinator : Type := mkEventSetCoordinator {
  EvtBidderAddress : Z;
  EvtForgerAddress : Z;
  EvtCoordinatorURL : string
}.

Record AuctionEventNewBootCoordinator : Type := mkEventNewBootCoordinator {
  EvtNewBootCoordinator : Z;
  EvtNewBootCoordinatorURL : string
}.

Record AuctionEventNewDefaultSlotSetBid : Type := mkEventNewDefaultSlotSetBid {
  EvtSlotSet : Z;
  EvtNewInitialMinBid : Z
}.

Record AuctionEvents : Type := mkAuctionEvents {
  EvNewBid : list AuctionEventNewBid;
  EvSetCoordinator : list AuctionEventSetCoordinator;
  EvNewSlotDeadline : list Z;
  EvNewClosedAuctionSlots : list Z;
  EvNewOutbidding : list Z;
  EvNewDonationAddress : list Z;
  EvNewBootCoordinator : list AuctionEventNewBootCoordinator;
  EvNewOpenAuctionSlots : list Z;
  EvNewAllocationRatio : list (list Z);
  EvNewDefaultSlotSetBid : list AuctionEventNewDefaultSlotSetBid
}.

Record WDelayerEventDeposit : Type := mkEventDeposit {
  EvtOwner : Z;
  EvtToken : Z;
  EvtAmount : Z;
  EvtDepositTxHash : Z
}.

Record WDelayerEventEscapeHatchWithdrawal : Type := mkEventEscapeHatch {
  EvtWho : Z;
  EvtTo : Z;
  EvtEHToken : Z;
  EvtEHAmount : Z
}.

Record WDelayerEvents : Type := mkWDelayerEvents {
  EvDeposit : list WDelayerEventDeposit;
  EvWithdrawDelayer : list WDelayerTransfer;
  EvEscapeHatchWithdrawal : list WDelayerEventEscapeHatchWithdrawal;
  EvEmergencyModeEnabled : list unit;
  EvNewWithdrawalDelay : list Z;
  EvNewEmergencyCouncil : list Z;
  EvNewHermezGovernanceAddress : list Z
}.

(** What [RollupForgeBatchArgs] decodes. *)
Record RollupForgeBatchArgs : Type := mkForgeBatchArgs {
  ArgsL1Batch : bool;
  ArgsL1CoordinatorTxs : list L1Tx;
  ArgsL2TxsData : list L2Tx;
  FeeIdxCoordinator : list Z;
  NewLastIdx : Z;
  NewStRoot : Z;
  NewExitRoot : Z
}.

(** What the transaction processor returns. *)
Record ProcessTxOutput : Type := mkProcessTxOutput {
  OutExitInfos : list ExitInfo;
  OutCreatedAccounts : list Account;
  OutCollectedFees : gmap Z Z
}.

(** [common.PoolL2Tx], which the synchronizer only hands on. *)
Record PoolL2Tx : Type := mkPoolL2Tx {
  PoolData : Z
}.

(** [common.Slot] *)
Record Slot : Type := mkSlot {
  SlotSlotNum : Z;
  StartBlock : Z;
  EndBlock : Z;
  ForgerCommitment : bool;
  SlotForger : Z;
  BootCoord : bool;
  SlotDefaultSlotBid : option Z;
  SlotBidValue : option Z;
  SlotBidder : Z;
  SlotURL : string
}.

(** What [GetBestBidCoordinator] returns. *)
Record BidCoordinator : Type := mkBidCoordinator {
  BCBidValue : Z;
  BCDefaultSlotSetBid : list Z;
  BCBidder : Z;
  BCForger : Z;
  BCURL : string
}.

(** [type Stats struct]; times are numbers. *)
Record Stats : Type := mkStats {
  EthRefreshPeriod : Z;
  EthUpdated : Z;
  EthFirstBlockNum : Z;
  EthLastBlock : Block;
  EthLastBatch : Z;
  SyncUpdated : Z;
  SyncLastBlock : Block;
  SyncLastBatch : Z;
  SyncLastL1BatchBlock : Z;
  SyncLastForgeL1TxsNum : Z;
  CurrentSlot : Slot
}.

(** [common.AuctionConstants], the fields read, and its methods. *)
Record AuctionConstants : Type := mkAuctionConstants {
  GenesisBlockNum : Z;
  BlocksPerSlot : Z;
  ConstSlotNum : Z -> Z;             (* SlotNum(blockNum) *)
  ConstSlotBlocks : Z -> Z * Z;      (* SlotBlocks(slotNum) *)
  ConstRelativeBlock : Z -> Z        (* RelativeBlock(blockNum) *)
}.

(** *** The collaborators *)

(** [eth.ClientInterface]: what the chain answers during one call of the
    synchronizer, and the clock ([Now] stands for [time.Now()]). *)
Record ClientInterface : Type := mkClient {
  EthBlockByNumber : Z -> outcome Block;
  RollupLastForgedBatch : outcome Z;
  RollupEventsByBlock : Z -> outcome (RollupEvents * option Z);
  AuctionEventsByBlock : Z -> outcome (AuctionEvents * option Z);
  WDelayerEventsByBlock : Z -> outcome (WDelayerEvents * option Z);
  RollupForgeBatchArgsOf : Z -> Z -> outcome (RollupForgeBatchArgs * Z);
  EthERC20Consts : Z -> outcome ERC20Consts;
  AuctionCanForge : Z -> Z -> outcome bool;
  Now : Z
}.

(** [historydb.HistoryDB]: the methods the synchronizer calls, over the
    state [H] of the store. *)
Record HistoryDB (H : Type) : Type := mkHistoryDB {
  GetLastBlock : H -> outcome Block;
  GetBlock : H -> Z -> outcome Block;
  GetLastBatchNum : H -> outcome Z;
  GetLastL1BatchBlockNum : H -> outcome Z;
  GetLastL1TxsNum : H -> outcome (option Z);
  GetUnforgedL1UserTxs : H -> Z -> outcome (list L1Tx);
  GetSCVars : H -> outcome SCVariables;
  GetFirstBatchBlockNumBySlot : H -> Z -> outcome Z;
  GetBestBidCoordinator : H -> Z -> outcome BidCoordinator;
  AddBlockSCData : BlockData -> M H unit;
  Reorg : Z -> M H unit;
  SetInitialSCVars : SCVariables -> M H unit;
  AddCoordinators : list Coordinator -> M H unit
}.
Arguments GetLastBlock {H} _ _.
Arguments GetBlock {H} _ _ _.
Arguments GetLastBatchNum {H} _ _.
Arguments GetLastL1BatchBlockNum {H} _ _.
Arguments GetLastL1TxsNum {H} _ _.
Arguments GetUnforgedL1UserTxs {H} _ _ _.
Arguments GetSCVars {H} _ _.
Arguments GetFirstBatchBlockNumBySlot {H} _ _ _.
Arguments GetBestBidCoordinator {H} _ _ _.
Arguments AddBlockSCData {H} _ _ _.
Arguments Reorg {H} _ _ _.
Arguments SetInitialSCVars {H} _ _ _.
Arguments AddCoordinators {H} _ _ _.

(** [statedb.StateDB] with the transaction processor over it, over the
    state [D] of the store.  [ProcessTxs] also returns the pool
    transactions, which it updates in place. *)
Record StateDB (D : Type) : Type := mkStateDB {
  Reset : Z -> M D unit;
  ProcessTxs : list Z -> list L1Tx -> list L1Tx -> list PoolL2Tx ->
               M D (ProcessTxOutput * list PoolL2Tx)
}.
Arguments Reset {D} _ _ _.
Arguments ProcessTxs {D} _ _ _ _ _ _.

(** Functions of package common. *)
Record CommonFunctions : Type := mkCommonFunctions {
  NewL1Tx : L1Tx -> outcome L1Tx;
  SetType : L2Tx -> outcome L2Tx;
  SetID : L2Tx -> outcome L2Tx;
  L2TxsToPoolL2Txs : list L2Tx -> list PoolL2Tx;
  PoolL2TxsToL2Txs : list PoolL2Tx -> outcome (list L2Tx)
}.

(** [type Synchronizer struct]: the fields that change, with the states of
    the two stores. *)
Record Synchronizer (H D : Type) : Type := mkSynchronizer {
  historyDB : H;
  stateDB : D;
  vars : SCVariables;
  stats : Stats
}.
Arguments mkSynchronizer {H D} _ _ _ _.
Arguments historyDB {H D} _.
Arguments stateDB {H D} _.
Arguments vars {H D} _.
Arguments stats {H D} _.

(** [l[i]] for an [int] index: out of range panics. *)
Definition indexZ {A} (l : list A) (i : Z) : outcome A :=
  if bool_decide (i < 0) then Panic
  else match l !! Z.to_nat i with
       | Some x => Ok x
       | None => Panic
       end.

(** [if err != nil && tracerr.Unwrap(err) != sql.ErrNoRows { return err }]:
    what is left is the value, or nothing when there were no rows. *)
Definition orNoRows {A} (o : outcome A) : outcome (option A) :=
  match o with
  | Ok a => Ok (Some a)
  | Err ErrNoRows => Ok None
  | Err e => Err e
  | Panic => Panic
  end.

(** [return tracerr.Wrap(fmt.Errorf(prefix + ": %w", err))] *)
Definition orWrapped {A} (prefix : string) (o : outcome A) : outcome A :=
  match o with
  | Err e => Err (wrapError prefix e)
  | o => o
  end.

Definition wrappedM {S A} (prefix : string) (m : M S A) : M S A := fun s =>
  let '(r, s') := m s in (orWrapped prefix r, s').

(** The same, when the error that is not [sql.ErrNoRows] is wrapped in a
    message on its way out. *)
Definition orNoRowsWrapped {A} (prefix : string) (o : outcome A) : outcome (option A) :=
  match o with
  | Ok a => Ok (Some a)
  | Err ErrNoRows => Ok None
  | Err e => Err (wrapError prefix e)
  | Panic => Panic
  end.

(** [func cutStringMax(s string, max int) string]; [s[:max]] panics for a
    negative [max]. *)
Definition cutStringMax (s : string) (max : Z) : outcome string :=
  if bool_decide (max < Z.of_nat (String.length s)) then
    if bool_decide (max < 0) then Panic
    else Ok (String.substring 0 (Z.to_nat max) s)
  else Ok s.

(** [for _, evt := range evts { field = evt ...; varsUpdate = true }]: the
    value of the last event, if any. *)
Definition lastEvent {A} (evts : list A) : option A := last evts.

(** The specification's words for [cutStringMax]: a string "truncated to
    at most [n] characters" is its first [n] characters, or all of it when
    it has fewer.  A character is a byte of the Go string. *)
Fixpoint truncated (n : nat) (s : string) : string :=
  match n, s with
  | S n', String c s' => String c (truncated n' s')
  | _, _ => EmptyString
  end.

Section sync.
Context {H D : Type}.
Variable ethClient : ClientInterface.
Variable hdb : HistoryDB H.
Variable sdb : StateDB D.
Variable fns : CommonFunctions.
Variable constsAuction : AuctionConstants.   (* s.consts.Auction *)
Variable initVars : SCVariables.             (* s.initVars *)
Variable startBlockNum : Z.                  (* s.startBlockNum *)

Abbreviation Sync := (Synchronizer H D).

(** Calls on the stores held by the synchronizer. *)
Definition onHistoryDB {A} (m : M H A) : M Sync A := fun s =>
  let '(r, h) := m (historyDB s) in
  (r, mkSynchronizer h (stateDB s) (vars s) (stats s)).

Definition onStateDB {A} (m : M D A) : M Sync A := fun s =>
  let '(r, d) := m (stateDB s) in
  (r, mkSynchronizer (historyDB s) d (vars s) (stats s)).

Definition readHistoryDB {A} (f : H -> outcome A) : M Sync (outcome A) :=
  gets (fun s => f (historyDB s)).

Definition set_vars (v : SCVariables) (s : Sync) : Sync :=
  mkSynchronizer (historyDB s) (stateDB s) v (stats s).
Definition set_stats (st : Stats) (s : Sync) : Sync :=
  mkSynchronizer (historyDB s) (stateDB s) (vars s) st.

(** [func (s *Stats) Synced() bool] *)
Definition Synced (st : Stats) : bool :=
  bool_decide (Num (EthLastBlock st) = Num (SyncLastBlock st)).

(** [func (s *StatsHolder) UpdateCurrentSlot(slot common.Slot)] *)
Definition UpdateCurrentSlot (slot : Slot) (st : Stats) : Stats :=
  mkStats (EthRefreshPeriod st) (EthUpdated st) (EthFirstBlockNum st) (EthLastBlock st)
    (EthLastBatch st) (SyncUpdated st) (SyncLastBlock st) (SyncLastBatch st)
    (SyncLastL1BatchBlock st) (SyncLastForgeL1TxsNum st) slot.

(** [func (s *StatsHolder) UpdateSync(lastBlock *common.Block, lastBatch
    *common.BatchNum, lastL1BatchBlock *int64, lastForgeL1TxsNum *int64)] *)
Definition UpdateSync (lastBlock : Block) (lastBatch lastL1BatchBlock
    lastForgeL1TxsNum : option Z) (st : Stats) : outcome Stats :=
  let now := Now ethClient in
  let batch := default (SyncLastBatch st) lastBatch in
  '(l1BatchBlock, forgeL1TxsNum) ←
    match lastL1BatchBlock with
    | Some b => n ← deref lastForgeL1TxsNum; Ok (b, n)
    | None => Ok (SyncLastL1BatchBlock st, SyncLastForgeL1TxsNum st)
    end;
  Ok (mkStats (EthRefreshPeriod st) (EthUpdated st) (EthFirstBlockNum st)
        (EthLastBlock st) (EthLastBatch st) now lastBlock batch l1BatchBlock
        forgeL1TxsNum (CurrentSlot st)).

(** [func (s *StatsHolder) UpdateEth(ethClient eth.ClientInterface) error] *)
Definition UpdateEth (st : Stats) : outcome Stats :=
  let now := Now ethClient in
  let elapsed := now - EthUpdated st in
  if bool_decide (elapsed < EthRefreshPeriod st) then Ok st
  else
    lastBlock ← EthBlockByNumber ethClient (-1);
    lastBatch ← RollupLastForgedBatch ethClient;
    Ok (mkStats (EthRefreshPeriod st) now (EthFirstBlockNum st) lastBlock lastBatch
          (SyncUpdated st) (SyncLastBlock st) (SyncLastBatch st)
          (SyncLastL1BatchBlock st) (SyncLastForgeL1TxsNum st) (CurrentSlot st)).

(** Running a function of the stats on [s.stats]. *)
Definition onStats (f : Stats -> outcome Stats) : M Sync unit :=
  s ← get;
  st ← lift (f (stats s));
  modify (set_stats st).

(** [func (s *Synchronizer) updateCurrentSlotIfSync(reset bool,
    firstBatchBlockNum *int64) error] *)
Definition updateCurrentSlotIfSync (reset : bool) (firstBatchBlockNum : option Z)
  : M Sync unit :=
  s ← get;
  let cur := CurrentSlot (stats s) in
  (* We want the next block because the current one is already mined *)
  let blockNum := Num (SyncLastBlock (stats s)) + 1 in
  let slotNum := ConstSlotNum constsAuction blockNum in
  '(firstBatchBlockNum, forgerCommitment) ←
    (if reset then
       first ← lift (orNoRowsWrapped "historyDB.GetFirstBatchBySlot"
                       (GetFirstBatchBlockNumBySlot hdb (historyDB s) slotNum));
       mret (first, false)
     else if bool_decide (SlotSlotNum cur < slotNum) then
       (* We are in a new slotNum, start from default values *)
       mret (firstBatchBlockNum, false)
     else mret (firstBatchBlockNum, ForgerCommitment cur));
  let '(startBlock, endBlock) := ConstSlotBlocks constsAuction slotNum in
  let slot := mkSlot slotNum startBlock endBlock forgerCommitment 0 false None None 0 "" in
  slot ←
    (* If Synced, update the current coordinator *)
    (if Synced (stats s) && bool_decide (GenesisBlockNum constsAuction <= blockNum) then
       bidCoord ← lift (orNoRows (GetBestBidCoordinator hdb (historyDB s) slotNum));
       slot ←
         match bidCoord with
         | None =>
           mret (mkSlot slotNum startBlock endBlock forgerCommitment
                   (BootCoordinator (VarsAuction (vars s))) true None None 0
                   (BootCoordinatorURL (VarsAuction (vars s))))
         | Some bc =>
           defaultSlotBid ← lift (indexZ (BCDefaultSlotSetBid bc) (Z.rem slotNum 6));
           (* Only if the highest bid value is greater/equal than the default
              slot bid, the bidder is the winner of the slot.  Otherwise the
              boot coordinator is the winner. *)
           if bool_decide (defaultSlotBid <= BCBidValue bc) then
             mret (mkSlot slotNum startBlock endBlock forgerCommitment
                     (BCForger bc) false (Some defaultSlotBid) (Some (BCBidValue bc))
                     (BCBidder bc) (BCURL bc))
           else
             mret (mkSlot slotNum startBlock endBlock forgerCommitment
                     (BootCoordinator (VarsAuction (vars s))) true
                     (Some defaultSlotBid) (Some (BCBidValue bc)) 0
                     (BootCoordinatorURL (VarsAuction (vars s))))
         end;
       let slot :=
         match firstBatchBlockNum with
         | Some first =>
           if bool_decide (ConstRelativeBlock constsAuction first
                           < SlotDeadline (VarsAuction (vars s)))
           then mkSlot (SlotSlotNum slot) (StartBlock slot) (EndBlock slot) true
                  (SlotForger slot) (BootCoord slot) (SlotDefaultSlotBid slot)
                  (SlotBidValue slot) (SlotBidder slot) (SlotURL slot)
           else slot
         | None => slot
         end in
       (* SANITY CHECK *)
       canForge ← lift (AuctionCanForge ethClient (SlotForger slot) blockNum);
       if negb canForge then
         throw (ErrMsg "Synchronized value of forger address for closed slot differs from smart contract")
       else mret slot
     else mret slot);
  modify (fun s => set_stats (UpdateCurrentSlot slot (stats s)) s).

(** [func (s *Synchronizer) resetState(block *common.Block) error] *)
Definition resetState (block : Block) : M Sync unit :=
  s ← get;
  scVars ← lift (orNoRows (GetSCVars hdb (historyDB s)));
  match scVars with
  | None =>
    (* If SCVars are not in the HistoryDB, this is probably the first run of
       the Synchronizer: store the initial vars taken from config *)
    onHistoryDB (wrappedM "historyDB.SetInitialSCVars"
                   (SetInitialSCVars hdb initVars)) ;;
    modify (set_vars initVars) ;;
    (* Add initial boot coordinator to HistoryDB *)
    onHistoryDB (AddCoordinators hdb
      [mkCoordinator 0 (BootCoordinator (VarsAuction initVars))
         (BootCoordinatorURL (VarsAuction initVars))
         (AVEthBlockNum (VarsAuction initVars))])
  | Some v => modify (set_vars v)
  end ;;
  s ← get;
  batchNum ← lift (orNoRowsWrapped "historyDB.GetLastBatchNum"
                     (GetLastBatchNum hdb (historyDB s)));
  let batchNum := default 0 batchNum in
  lastL1BatchBlockNum ← lift (orNoRowsWrapped "historyDB.GetLastL1BatchBlockNum"
                                (GetLastL1BatchBlockNum hdb (historyDB s)));
  let lastL1BatchBlockNum := default 0 lastL1BatchBlockNum in
  lastForgeL1TxsNum ← lift (orNoRowsWrapped "historyDB.GetLastL1BatchBlockNum"
                              (GetLastL1TxsNum hdb (historyDB s)));
  let lastForgeL1TxsNum :=
    match lastForgeL1TxsNum with
    | Some (Some n) => n
    | _ => -1
    end in
  onStateDB (wrappedM "stateDB.Reset" (Reset sdb batchNum)) ;;
  onStats (UpdateSync block (Some batchNum) (Some lastL1BatchBlockNum)
             (Some lastForgeL1TxsNum)) ;;
  updateCurrentSlotIfSync true None.

(** The heights the loop of [reorg] visits: [blockNum] down to
    [s.startBlockNum]. *)
Definition heightsDownFrom (blockNum : Z) : list Z :=
  reverse (seqZ startBlockNum (blockNum - startBlockNum + 1)).

(** The loop of [reorg]; [block] is the last block read from the store. *)
Fixpoint reorgLoop (heights : list Z) (block : option Block) : M Sync (option Block) :=
  match heights with
  | [] => mret block
  | blockNum :: rest =>
    ethBlock ← lift (orWrapped "ethClient.EthBlockByNumber"
                       (EthBlockByNumber ethClient blockNum));
    s ← get;
    block ← lift (orWrapped "historyDB.GetBlock" (GetBlock hdb (historyDB s) blockNum));
    if bool_decide (Hash block = Hash ethBlock) then
      mret (Some block)        (* Found valid block: break *)
    else reorgLoop rest (Some block)
  end.

(** [func (s *Synchronizer) reorg(uncleBlock *common.Block) (int64, error)] *)
Definition reorg (uncleBlock : Block) : M Sync Z :=
  block ← reorgLoop (heightsDownFrom (Num uncleBlock)) None;
  block ← lift (deref block);    (* total := uncleBlock.Num - block.Num *)
  (* Set History DB and State DB to the correct state *)
  onHistoryDB (Reorg hdb (Num block)) ;;
  resetState block ;;
  mret (Num block).

(** [for i := range l { x, err := f(i, l[i]); if err != nil { return } ... }] *)
Fixpoint mapOutcome {A B} (f : nat -> A -> outcome B) (i : nat) (l : list A)
  : outcome (list B) :=
  match l with
  | [] => Ok []
  | x :: l' => y ← f i x; ys ← mapOutcome f (S i) l'; Ok (y :: ys)
  end.

(** [func getL1UserTx(eventsL1UserTx []eth.RollupEventL1UserTx, blockNum int64)] *)
Definition getL1UserTx (eventsL1UserTx : list L1Tx) (blockNum : Z) : outcome (list L1Tx) :=
  mapOutcome (fun _ tx =>
    (* Check validity of L1UserTx *)
    NewL1Tx fns (mkL1Tx (ToForgeL1TxsNum tx) (L1Position tx) (UserOrigin tx) blockNum
                   (L1BatchNum tx) (L1Data tx))) 0 eventsL1UserTx.

(** The L1 user transactions of this block for the queue
    [nextForgeL1TxsNum]; [*l1UserTx.ToForgeL1TxsNum] dereferences. *)
Fixpoint inBlockL1UserTxs (l1UserTxs : list L1Tx) (nextForgeL1TxsNum : Z)
  : outcome (list L1Tx) :=
  match l1UserTxs with
  | [] => Ok []
  | tx :: rest =>
    n ← deref (ToForgeL1TxsNum tx);
    found ← inBlockL1UserTxs rest nextForgeL1TxsNum;
    Ok (if bool_decide (n = nextForgeL1TxsNum) then tx :: found else found)
  end.

(** One round of the loop over the [ForgeBatch] events of [rollupSync];
    [blockL1UserTxs] is [rollupData.L1UserTxs].  Returns the batch and the
    [nextForgeL1TxsNum] of the next round. *)
Definition forgeBatch (ethBlock : Block) (blockL1UserTxs : list L1Tx)
    (nextForgeL1TxsNum : Z) (evtForgeBatch : RollupEventForgeBatch)
  : M Sync (BatchData * Z) :=
  let blockNum := Num ethBlock in
  (* Get the input for each Tx *)
  '(forgeBatchArgs, sender) ←
    lift (RollupForgeBatchArgsOf ethClient (EvtEthTxHash evtForgeBatch)
            (EvtL1UserTxsLen evtForgeBatch));
  let batchNum := EvtBatchNum evtForgeBatch in
  (* Check if this is a L1Batch to get L1 Tx from it *)
  l1UserTxs ←
    (if ArgsL1Batch forgeBatchArgs then
       s ← get;
       (* First try to find them in HistoryDB. *)
       fromDB ← lift (GetUnforgedL1UserTxs hdb (historyDB s) nextForgeL1TxsNum);
       (* Apart from the DB, try to find them in this block. *)
       inBlock ← lift (inBlockL1UserTxs blockL1UserTxs nextForgeL1TxsNum);
       mret (fromDB ++ inBlock)
     else mret []);
  let position := Z.of_nat (length l1UserTxs) in
  (* Get L1 Coordinator Txs *)
  l1CoordinatorTxs ←
    lift (mapOutcome (fun i tx =>
            NewL1Tx fns (mkL1Tx (ToForgeL1TxsNum tx) (position + Z.of_nat i) false
                           blockNum (Some batchNum) (L1Data tx)))
            0 (ArgsL1CoordinatorTxs forgeBatchArgs));
  let position := position + Z.of_nat (length l1CoordinatorTxs) in
  (* Set TxType to the forged L2Txs *)
  l2TxsData ← lift (mapOutcome (fun _ tx => SetType fns tx) 0
                      (ArgsL2TxsData forgeBatchArgs));
  (* Transform L2 txs to PoolL2Txs *)
  let poolL2Txs := L2TxsToPoolL2Txs fns l2TxsData in
  '(processTxsOut, poolL2Txs) ←
    onStateDB (ProcessTxs sdb (FeeIdxCoordinator forgeBatchArgs) l1UserTxs
                 l1CoordinatorTxs poolL2Txs);
  (* Transform processed PoolL2 txs to L2 and store in BatchData *)
  l2Txs ← lift (PoolL2TxsToL2Txs fns poolL2Txs);
  (* Set TxID, BlockNum, BatchNum and Position to the forged L2Txs *)
  l2Txs ← lift (mapOutcome (fun i tx =>
                  tx ← SetID fns tx;
                  Ok (mkL2Tx (position + Z.of_nat i) blockNum batchNum (L2Data tx)))
                  0 l2Txs);
  (* Set the BatchNum in the forged L1UserTxs *)
  let l1UserTxs :=
    map (fun tx => mkL1Tx (ToForgeL1TxsNum tx) (L1Position tx) (UserOrigin tx)
                     (L1EthBlockNum tx) (Some batchNum) (L1Data tx)) l1UserTxs in
  (* Set batchNum in exits *)
  let exitTree := map (fun e => mkExitInfo batchNum (ExitData e))
                    (OutExitInfos processTxsOut) in
  let createdAccounts := map (fun a => mkAccount 0 0 batchNum (AccData a))
                           (OutCreatedAccounts processTxsOut) in
  slotNum ←
    (if bool_decide (GenesisBlockNum constsAuction <= Num ethBlock) then
       if bool_decide (BlocksPerSlot constsAuction = 0) then panic
       else mret ((Num ethBlock - GenesisBlockNum constsAuction)
                    `quot` BlocksPerSlot constsAuction)
     else mret 0);
  (* Get Batch information *)
  let batch :=
    mkBatch batchNum blockNum sender (OutCollectedFees processTxsOut)
      (FeeIdxCoordinator forgeBatchArgs) (NewStRoot forgeBatchArgs)
      (Z.of_nat (length createdAccounts)) (NewLastIdx forgeBatchArgs)
      (NewExitRoot forgeBatchArgs)
      (if ArgsL1Batch forgeBatchArgs then Some nextForgeL1TxsNum else None) slotNum in
  mret (mkBatchData (ArgsL1Batch forgeBatchArgs) l1UserTxs l1CoordinatorTxs l2Txs
          createdAccounts exitTree batch,
        if ArgsL1Batch forgeBatchArgs then nextForgeL1TxsNum + 1 else nextForgeL1TxsNum).

(** The loop over the [ForgeBatch] events. *)
Fixpoint forgeBatches (ethBlock : Block) (blockL1UserTxs : list L1Tx)
    (nextForgeL1TxsNum : Z) (evts : list RollupEventForgeBatch)
  : M Sync (list BatchData) :=
  match evts with
  | [] => mret []
  | evt :: rest =>
    '(batchData, next) ← forgeBatch ethBlock blockL1UserTxs nextForgeL1TxsNum evt;
    batches ← forgeBatches ethBlock blockL1UserTxs next rest;
    mret (batchData :: batches)
  end.

(** One round of the loop over the [AddToken] events of [rollupSync]. *)
Definition addedToken (blockNum : Z) (evtAddToken : RollupEventAddToken) : outcome Token :=
  match EthERC20Consts ethClient (EvtTokenAddress evtAddToken) with
  | Ok consts =>
    name ← cutStringMax (ConstName consts) 20;
    symbol ← cutStringMax (ConstSymbol consts) 10;
    Ok (mkToken (EvtTokenID evtAddToken) (EvtTokenAddress evtAddToken) blockNum
          name symbol (ConstDecimals consts))
  | Err _ =>
    (* Error retreiving ERC20 token constants *)
    Ok (mkToken (EvtTokenID evtAddToken) (EvtTokenAddress evtAddToken) blockNum
          "ERC20_ETH_ERROR" "ERROR" 1)
  | Panic => Panic
  end.

(** One round of the loop over the [UpdateTokenExchange] events. *)
Definition tokenExchanges (blockNum : Z) (evt : RollupEventUpdateTokenExchange)
  : outcome (list TokenExchange) :=
  if bool_decide (length (AddressArray evt) <> length (ValueArray evt)) then
    Err (ErrMsg "in RollupEventUpdateTokenExchange len(AddressArray) != len(ValueArray)")
  else
    Ok (zip_with (fun a v => mkTokenExchange blockNum a v)
          (AddressArray evt) (ValueArray evt)).

(** The rollup variables after the events of the block, and whether any
    event changed them ([varsUpdate]).  [Buckets] and [ArrayBuckets] are Go
    arrays of one length, so that [s.vars.Rollup.Buckets[i] = ...] is
    always in range. *)
Definition updatedRollupVars (rollupEvents : RollupEvents) (blockNum : Z)
    (v : RollupVariables) : RollupVariables * bool :=
  let timeout := default (ForgeL1L2BatchTimeout v)
                   (lastEvent (EvUpdateForgeL1L2BatchTimeout rollupEvents)) in
  let feeAddToken := default (FeeAddToken v)
                       (lastEvent (EvUpdateFeeAddToken rollupEvents)) in
  let delay := default (RVWithdrawalDelay v)
                 (lastEvent (EvUpdateWithdrawalDelay rollupEvents)) in
  let buckets :=
    foldl (fun bs evt =>
             take (length bs) (ArrayBuckets evt) ++ drop (length (ArrayBuckets evt)) bs)
      (Buckets v) (EvUpdateBucketsParameters rollupEvents) in
  let safeMode := default (SafeMode v)
                    (EvtSafeMode <$> lastEvent (EvUpdateBucketsParameters rollupEvents)) in
  let varsUpdate :=
    negb (bool_decide (EvUpdateForgeL1L2BatchTimeout rollupEvents = [])
          && bool_decide (EvUpdateFeeAddToken rollupEvents = [])
          && bool_decide (EvUpdateWithdrawalDelay rollupEvents = [])
          && bool_decide (length (EvUpdateBucketsParameters rollupEvents) = 0%nat)) in
  (mkRollupVariables (if varsUpdate then blockNum else RVEthBlockNum v) feeAddToken
     timeout delay buckets safeMode, varsUpdate).

(** [func (s *Synchronizer) rollupSync(ethBlock *common.Block)], after the
    check of the hash of the events. *)
Definition rollupSyncEvents (ethBlock : Block) (rollupEvents : RollupEvents)
  : M Sync RollupData :=
  let blockNum := Num ethBlock in
  s ← get;
  nextForgeL1TxsNumPtr ← lift (GetLastL1TxsNum hdb (historyDB s));
  let nextForgeL1TxsNum :=
    match nextForgeL1TxsNumPtr with
    | Some n => n + 1
    | None => 0
    end in
  (* Get L1UserTX *)
  l1UserTxs ← lift (getL1UserTx (EvL1UserTx rollupEvents) blockNum);
  (* Get ForgeBatch events to get the L1CoordinatorTxs *)
  batches ← forgeBatches ethBlock l1UserTxs nextForgeL1TxsNum (EvForgeBatch rollupEvents);
  (* Get Registered Tokens *)
  addedTokens ← lift (mapOutcome (fun _ evt => addedToken blockNum evt) 0
                        (EvAddToken rollupEvents));
  let updateBucketWithdraw :=
    map (fun evt => mkBucketUpdate blockNum (EvtNumBucket evt) (EvtBlockStamp evt)
                      (EvtWithdrawals evt)) (EvUpdateBucketWithdraw rollupEvents) in
  let withdrawals :=
    map (fun evt => mkWithdrawInfo (EvtIdx evt) (EvtNumExitRoot evt)
                      (EvtInstantWithdraw evt) (EvtTxHash evt) 0 0)
      (EvWithdraw rollupEvents) in
  exchanges ← lift (mapOutcome (fun _ evt => tokenExchanges blockNum evt) 0
                      (EvUpdateTokenExchange rollupEvents));
  s ← get;
  let '(rollupVars, varsUpdate) :=
    updatedRollupVars rollupEvents blockNum (VarsRollup (vars s)) in
  modify (set_vars (mkSCVariables rollupVars (VarsAuction (vars s))
                      (VarsWDelayer (vars s)))) ;;
  mret (mkRollupData l1UserTxs batches addedTokens withdrawals updateBucketWithdraw
          (concat exchanges) (if varsUpdate then Some rollupVars else None)).

(** The check every stream starts with: "Get ... events in the block, and
    make sure the block hash matches the expected one." *)
Definition checkedEvents {E A} (ethBlock : Block) (events : outcome (E * option Z))
    (noEvents : A) (sync : E -> M Sync A) : M Sync A :=
  '(evts, blockHash) ← lift events;
  match blockHash with
  | None => mret noEvents     (* No events in this block *)
  | Some h =>
    if bool_decide (h <> Hash ethBlock) then throw ErrBlockHashMismatchEvent
    else sync evts
  end.

(** [func (s *Synchronizer) rollupSync(ethBlock *common.Block)] *)
Definition rollupSync (ethBlock : Block) : M Sync RollupData :=
  checkedEvents ethBlock (RollupEventsByBlock ethClient (Num ethBlock))
    NewRollupData (rollupSyncEvents ethBlock).

Definition set_auctionVars (v : AuctionVariables) (s : Sync) : Sync :=
  set_vars (mkSCVariables (VarsRollup (vars s)) v (VarsWDelayer (vars s))) s.

(** The auction variables after the events that cannot fail. *)
Definition updatedAuctionVars (auctionEvents : AuctionEvents) (v : AuctionVariables)
  : AuctionVariables :=
  let boot := lastEvent (EvNewBootCoordinator auctionEvents) in
  mkAuctionVariables (AVEthBlockNum v)
    (default (DonationAddress v) (lastEvent (EvNewDonationAddress auctionEvents)))
    (default (BootCoordinator v) (EvtNewBootCoordinator <$> boot))
    (default (BootCoordinatorURL v) (EvtNewBootCoordinatorURL <$> boot))
    (DefaultSlotSetBid v) (DefaultSlotSetBidSlotNum v)
    (default (ClosedAuctionSlots v) (lastEvent (EvNewClosedAuctionSlots auctionEvents)))
    (default (OpenAuctionSlots v) (lastEvent (EvNewOpenAuctionSlots auctionEvents)))
    (default (AllocationRatio v) (lastEvent (EvNewAllocationRatio auctionEvents)))
    (default (Outbidding v) (lastEvent (EvNewOutbidding auctionEvents)))
    (default (SlotDeadline v) (lastEvent (EvNewSlotDeadline auctionEvents))).

(** One round of the loop over the [NewDefaultSlotSetBid] events. *)
Definition newDefaultSlotSetBid (blockNum : Z) (evt : AuctionEventNewDefaultSlotSetBid)
  : M Sync unit :=
  if bool_decide (6 < EvtSlotSet evt) then
    throw (ErrMsg "unexpected SlotSet in auctionEvents.NewDefaultSlotSetBid")
  else
    s ← get;
    let v := VarsAuction (vars s) in
    (* s.vars.Auction.DefaultSlotSetBid[evt.SlotSet] = evt.NewInitialMinBid *)
    lift (indexZ (DefaultSlotSetBid v) (EvtSlotSet evt)) ;;
    modify (set_auctionVars
      (mkAuctionVariables (AVEthBlockNum v) (DonationAddress v) (BootCoordinator v)
         (BootCoordinatorURL v)
         (<[Z.to_nat (EvtSlotSet evt) := EvtNewInitialMinBid evt]> (DefaultSlotSetBid v))
         (ConstSlotNum constsAuction blockNum + ClosedAuctionSlots v + 1)
         (ClosedAuctionSlots v) (OpenAuctionSlots v) (AllocationRatio v)
         (Outbidding v) (SlotDeadline v))).

(** [func (s *Synchronizer) auctionSync(ethBlock *common.Block)], after the
    check of the hash of the events. *)
Definition auctionSyncEvents (ethBlock : Block) (auctionEvents : AuctionEvents)
  : M Sync AuctionData :=
  let blockNum := Num ethBlock in
  (* Get bids *)
  let bids := map (fun evt => mkBid (EvtSlot evt) (EvtBidAmount evt) (EvtBidder evt)
                                blockNum) (EvNewBid auctionEvents) in
  (* Get Coordinators *)
  let coordinators :=
    map (fun evt => mkCoordinator (EvtBidderAddress evt) (EvtForgerAddress evt)
                      (EvtCoordinatorURL evt) blockNum)
      (EvSetCoordinator auctionEvents)
    (* Add new boot coordinator *)
    ++ map (fun evt => mkCoordinator 0 (EvtNewBootCoordinator evt)
                         (EvtNewBootCoordinatorURL evt) blockNum)
         (EvNewBootCoordinator auctionEvents) in
  modify (fun s => set_auctionVars (updatedAuctionVars auctionEvents (VarsAuction (vars s))) s) ;;
  forM_ (EvNewDefaultSlotSetBid auctionEvents) (newDefaultSlotSetBid blockNum) ;;
  let varsUpdate :=
    negb (bool_decide (EvNewSlotDeadline auctionEvents = [])
          && bool_decide (EvNewClosedAuctionSlots auctionEvents = [])
          && bool_decide (EvNewOutbidding auctionEvents = [])
          && bool_decide (EvNewDonationAddress auctionEvents = [])
          && bool_decide (length (EvNewBootCoordinator auctionEvents) = 0%nat)
          && bool_decide (EvNewOpenAuctionSlots auctionEvents = [])
          && bool_decide (EvNewAllocationRatio auctionEvents = [])
          && bool_decide (length (EvNewDefaultSlotSetBid auctionEvents) = 0%nat)) in
  (if varsUpdate then
     modify (fun s =>
       let v := VarsAuction (vars s) in
       set_auctionVars
         (mkAuctionVariables blockNum (DonationAddress v) (BootCoordinator v)
            (BootCoordinatorURL v) (DefaultSlotSetBid v) (DefaultSlotSetBidSlotNum v)
            (ClosedAuctionSlots v) (OpenAuctionSlots v) (AllocationRatio v)
            (Outbidding v) (SlotDeadline v)) s)
   else mret tt) ;;
  s ← get;
  mret (mkAuctionData bids coordinators
          (if varsUpdate then Some (VarsAuction (vars s)) else None)).

(** [func (s *Synchronizer) auctionSync(ethBlock *common.Block)] *)
Definition auctionSync (ethBlock : Block) : M Sync AuctionData :=
  checkedEvents ethBlock (AuctionEventsByBlock ethClient (Num ethBlock))
    NewAuctionData (auctionSyncEvents ethBlock).

(** The loop over the [Deposit] events of [wdelayerSync]: the deposits in
    the order of the events, and for each transaction hash the deposits
    made in that transaction, in the same order. *)
Definition depositsByTxHash (evts : list WDelayerEventDeposit)
  : gmap Z (list WDelayerTransfer) :=
  foldl (fun m evt =>
           <[EvtDepositTxHash evt :=
               default [] (m !! EvtDepositTxHash evt)
               ++ [mkWDelayerTransfer (EvtOwner evt) (EvtToken evt) (EvtAmount evt)]]> m)
    ∅ evts.

(** The withdraw-delayer variables after the events of the block, and
    [varsUpdate]. *)
Definition updatedWDelayerVars (wDelayerEvents : WDelayerEvents) (blockNum : Z)
    (v : WDelayerVariables) : WDelayerVariables * bool :=
  let emergency := negb (bool_decide (length (EvEmergencyModeEnabled wDelayerEvents) = 0%nat)) in
  let varsUpdate :=
    emergency
    || negb (bool_decide (EvNewWithdrawalDelay wDelayerEvents = [])
             && bool_decide (EvNewEmergencyCouncil wDelayerEvents = [])
             && bool_decide (EvNewHermezGovernanceAddress wDelayerEvents = [])) in
  (mkWDelayerVariables (if varsUpdate then blockNum else WVEthBlockNum v)
     (default (HermezGovernanceAddress v)
        (lastEvent (EvNewHermezGovernanceAddress wDelayerEvents)))
     (default (EmergencyCouncilAddress v) (lastEvent (EvNewEmergencyCouncil wDelayerEvents)))
     (default (WVWithdrawalDelay v) (lastEvent (EvNewWithdrawalDelay wDelayerEvents)))
     (if emergency then blockNum else EmergencyModeStartingBlock v)
     (if emergency then true else EmergencyMode v),
   varsUpdate).

(** [func (s *Synchronizer) wdelayerSync(ethBlock *common.Block)], after the
    check of the hash of the events. *)
Definition wdelayerSyncEvents (ethBlock : Block) (wDelayerEvents : WDelayerEvents)
  : M Sync WDelayerData :=
  let blockNum := Num ethBlock in
  let deposits :=
    map (fun evt => mkWDelayerTransfer (EvtOwner evt) (EvtToken evt) (EvtAmount evt))
      (EvDeposit wDelayerEvents) in
  let escapes :=
    map (fun evt => mkEscapeHatch blockNum (EvtWho evt) (EvtTo evt) (EvtEHToken evt)
                      (EvtEHAmount evt)) (EvEscapeHatchWithdrawal wDelayerEvents) in
  s ← get;
  let '(wDelayerVars, varsUpdate) :=
    updatedWDelayerVars wDelayerEvents blockNum (VarsWDelayer (vars s)) in
  modify (set_vars (mkSCVariables (VarsRollup (vars s)) (VarsAuction (vars s))
                      wDelayerVars)) ;;
  mret (mkWDelayerData deposits (depositsByTxHash (EvDeposit wDelayerEvents))
          (EvWithdrawDelayer wDelayerEvents) escapes
          (if varsUpdate then Some wDelayerVars else None)).

(** [func (s *Synchronizer) wdelayerSync(ethBlock *common.Block)] *)
Definition wdelayerSync (ethBlock : Block) : M Sync WDelayerData :=
  checkedEvents ethBlock (WDelayerEventsByBlock ethClient (Num ethBlock))
    NewWDelayerData (wdelayerSyncEvents ethBlock).

Definition ErrWDelayerDepositNotFound : error :=
  ErrMsg "WDelayer deposit corresponding to non-instant rollup withdrawal not found".

(** The loop of [Sync2] over [rollupData.Withdrawals]: the withdrawals
    with owner and token filled in, and the deposits not yet used. *)
Fixpoint pairWithdrawals (withdrawals : list WithdrawInfo)
    (byTxHash : gmap Z (list WDelayerTransfer))
  : outcome (list WithdrawInfo * gmap Z (list WDelayerTransfer)) :=
  match withdrawals with
  | [] => Ok ([], byTxHash)
  | withdrawal :: rest =>
    if InstantWithdraw withdrawal then
      '(rest', m) ← pairWithdrawals rest byTxHash;
      Ok (withdrawal :: rest', m)
    else
      match default [] (byTxHash !! WithdrawTxHash withdrawal) with
      | [] => Err ErrWDelayerDepositNotFound
      | wDelayerTransfer :: others =>
        (* Pop the first wDelayerTransfer to consume them in chronological order *)
        let byTxHash := <[WithdrawTxHash withdrawal := others]> byTxHash in
        '(rest', m) ← pairWithdrawals rest byTxHash;
        Ok (mkWithdrawInfo (WithdrawIdx withdrawal) (NumExitRoot withdrawal)
              (InstantWithdraw withdrawal) (WithdrawTxHash withdrawal)
              (TransferOwner wDelayerTransfer) (TransferToken wDelayerTransfer)
              :: rest', m)
      end
  end.

(** The arguments of the [UpdateSync] at the end of [Sync2]: the number of
    the last batch, and the block and queue of the last L1 batch. *)
Definition lastL1Batch (batches : list BatchData) : option Z * option Z :=
  foldl (fun acc batchData =>
           if L1Batch batchData
           then (Some (BatchEthBlockNum (BatchOf batchData)),
                 ForgeL1TxsNum (BatchOf batchData))
           else acc) (None, None) batches.

(** The end of [Sync2]: "Group all the block data into the structs to save
    into HistoryDB", save them, and update the stats and the current slot.
    Every batch of the block carries the number of the block, which is what
    [lastL1BatchBlock] reads. *)
Definition storeBlockData (ethBlock : Block) (rollupData : RollupData)
    (auctionData : AuctionData) (wDelayerData : WDelayerData)
  : M Sync (option BlockData * option Z) :=
  let blockData := mkBlockData ethBlock rollupData auctionData wDelayerData in
  onHistoryDB (AddBlockSCData hdb blockData) ;;
  let '(lastL1BatchBlock, lastForgeL1TxsNum) := lastL1Batch (Batches rollupData) in
  onStats (UpdateSync ethBlock
             (BatchNum ∘ BatchOf <$> last (Batches rollupData))
             (if bool_decide (length (Batches rollupData) = 0%nat) then None
              else lastL1BatchBlock)
             lastForgeL1TxsNum) ;;
  let firstBatchBlockNum :=
    BatchEthBlockNum ∘ BatchOf <$> head (Batches rollupData) in
  updateCurrentSlotIfSync false firstBatchBlockNum ;;
  mret (Some blockData, None).

(** [rollupData.Withdrawals[i]] and [wDelayerData.DepositsByTxHash[h]] are
    written in place. *)
Definition set_Withdrawals (withdrawals : list WithdrawInfo) (rollupData : RollupData)
  : RollupData :=
  mkRollupData (L1UserTxs rollupData) (Batches rollupData) (AddedTokens rollupData)
    withdrawals (UpdateBucketWithdraw rollupData) (TokenExchanges rollupData)
    (RollupVars rollupData).

Definition set_DepositsByTxHash (byTxHash : gmap Z (list WDelayerTransfer))
    (wDelayerData : WDelayerData) : WDelayerData :=
  mkWDelayerData (Deposits wDelayerData) byTxHash (WDelayerWithdrawals wDelayerData)
    (EscapeHatchWithdrawals wDelayerData) (WDelayerVars wDelayerData).

(** The part of [Sync2] that synchronizes [ethBlock], once it is known to
    follow the last saved block. *)
Definition syncBlock (ethBlock : Block) : M Sync (option BlockData * option Z) :=
  (* Get data from the rollup contract *)
  rollupData ← rollupSync ethBlock;
  (* Get data from the auction contract *)
  auctionData ← auctionSync ethBlock;
  (* Get data from the WithdrawalDelayer contract *)
  wDelayerData ← wdelayerSync ethBlock;
  '(withdrawals, byTxHash) ←
    lift (pairWithdrawals (Withdrawals rollupData) (DepositsByTxHash wDelayerData));
  storeBlockData ethBlock (set_Withdrawals withdrawals rollupData) auctionData
    (set_DepositsByTxHash byTxHash wDelayerData).

(** "If we don't have any stored block, we must do a full sync starting from
    the startBlockNum": the last saved block [Sync2] works with. *)
Definition lastSaved (lastSavedBlock : option Block) : M Sync (option Block) :=
  match lastSavedBlock with
  | Some b => mret (Some b)
  | None =>
    (* Get lastSavedBlock from History DB *)
    s ← get;
    b ← lift (orNoRows (GetLastBlock hdb (historyDB s)));
    match b with
    | None => mret None
    | Some b => if bool_decide (Num b = 0) then mret None else mret (Some b)
    end
  end.

(** [func (s *Synchronizer) Sync2(ctx context.Context, lastSavedBlock
    *common.Block)]: it returns the block data when a block was
    synchronized, the number of discarded blocks after a reorg, or neither
    when there is no block to synchronize yet. *)
Definition Sync2 (lastSavedBlock : option Block)
  : M Sync (option BlockData * option Z) :=
  lastSavedBlock ← lastSaved lastSavedBlock;
  nextBlockNum ←
    match lastSavedBlock with
    | None => mret startBlockNum
    | Some b =>
      if bool_decide (Num b < startBlockNum)
      then throw (ErrMsg "lastSavedBlock < startBlockNum")
      else mret (Num b + 1)
    end;
  match EthBlockByNumber ethClient nextBlockNum with
  | Err ErrNotFound => mret (None, None)
  | Err e => throw e
  | Panic => panic
  | Ok ethBlock =>
    onStats UpdateEth ;;
    (* Check that the obtianed ethBlock.ParentHash == prevEthBlock.Hash; if
       not, reorg! *)
    match lastSavedBlock with
    | Some last =>
      if bool_decide (Hash last <> ParentHash ethBlock) then
        (* Reorg detected *)
        lastDBBlockNum ← reorg last;
        let discarded := Num last - lastDBBlockNum in
        mret (None, Some discarded)
      else syncBlock ethBlock
    | None => syncBlock ethBlock
    end
  end.

(** *** Tokens *)

Lemma substring_truncated (n : nat) (s : string) :
  String.substring 0 n s = truncated n s.
Proof.
  revert s. induction n as [|n IH]; intros [|c s]; simpl; try done.
  by rewrite IH.
Qed.

Lemma truncated_all (n : nat) (s : string) :
  (String.length s <= n)%nat -> truncated n s = s.
Proof.
  revert s. induction n as [|n IH]; intros [|c s]; simpl; try done; [lia|].
  intros Hlen. rewrite IH; [done|lia].
Qed.

Lemma truncated_length (n : nat) (s : string) :
  String.length (truncated n s) = (n `min` String.length s)%nat.
Proof.
  revert s. induction n as [|n IH]; intros [|c s]; simpl; try done.
  by rewrite IH.
Qed.

Lemma cutStringMax_truncated (n : nat) (s : string) :
  cutStringMax s (Z.of_nat n) = Ok (truncated n s).
Proof.
  unfold cutStringMax. case_bool_decide as Hlen.
  - rewrite bool_decide_false by lia.
    by rewrite Nat2Z.id, substring_truncated.
  - rewrite truncated_all; [done|lia].
Qed.



(** A token is added unless the probe itself panics. *)
Lemma addedToken_total (blockNum : Z) (evt : RollupEventAddToken) :
  EthERC20Consts ethClient (EvtTokenAddress evt) <> Panic ->
  is_Ok (addedToken blockNum evt).
Proof.
  unfold addedToken.
  destruct (EthERC20Consts ethClient (EvtTokenAddress evt)) as [consts|e|]; [| |done].
  - intros _. change 20 with (Z.of_nat 20). change 10 with (Z.of_nat 10).
    rewrite !cutStringMax_truncated. simpl. by eexists.
  - intros _. by eexists.
Qed.




(** *** The first steps of [Sync2] *)

Lemma onStats_run (f : Stats -> outcome Stats) (s : Sync) (st : Stats) :
  f (stats s) = Ok st -> onStats f s = (Ok tt, set_stats st s).
Proof.
  intros Hf. unfold onStats. rewrite (bind_run _ _ s s s); [|done].
  rewrite (bind_run _ _ s s st); [done|]. unfold lift. by rewrite Hf.
Qed.

(** The number of the block [Sync2] fetches after the last saved block. *)
Definition nextBlockNum (last : option Block) : Z :=
  match last with
  | Some b => Num b + 1
  | None => startBlockNum
  end.

Lemma lastSaved_given (b : Block) (s : Sync) : lastSaved (Some b) s = (Ok (Some b), s).
Proof. done. Qed.

(** With the last saved block at or above the start, the next block
    [ethBlock] fetched and the stats of the chain updated, [Sync2] compares
    the hash of the last saved block with the parent hash of [ethBlock]: it
    synchronizes the block when they agree (or when there is no saved
    block), and handles a reorg when they differ. *)
Lemma Sync2_next_block (lastSavedBlock last : option Block) (ethBlock : Block)
    (s : Sync) (st : Stats) :
  lastSaved lastSavedBlock s = (Ok last, s) ->
  (forall b, last = Some b -> startBlockNum <= Num b) ->
  EthBlockByNumber ethClient (nextBlockNum last) = Ok ethBlock ->
  UpdateEth (stats s) = Ok st ->
  Sync2 lastSavedBlock s =
    match last with
    | Some b =>
      if bool_decide (Hash b <> ParentHash ethBlock)
      then (lastDBBlockNum ← reorg b;
            mret (None, Some (Num b - lastDBBlockNum))) (set_stats st s)
      else syncBlock ethBlock (set_stats st s)
    | None => syncBlock ethBlock (set_stats st s)
    end.
Proof.
  intros Hlast Hstart Hblock Hstats. unfold Sync2.
  rewrite (bind_run _ _ s s last); [|done].
  rewrite (bind_run _ _ s s (nextBlockNum last)).
  - rewrite Hblock.
    rewrite (bind_run _ _ s (set_stats st s) tt); [|by apply onStats_run].
    destruct last as [b|]; [|done]. by case_bool_decide.
  - destruct last as [b|]; [|done].
    rewrite bool_decide_false; [done|]. specialize (Hstart b eq_refl). lia.
Qed.


(** *** The three streams of events *)

(** The history store is [h]. *)
Definition historyIs (h : H) (s : Sync) : Prop := historyDB s = h.

Lemma onStateDB_history {A} (h : H) (m : M D A) : preserves (historyIs h) (onStateDB m).
Proof. intros s Hs. unfold onStateDB. by destruct (m (stateDB s)). Qed.

Ltac keeps_history :=
  repeat first
    [ apply preserves_ret | apply preserves_get | apply preserves_lift
    | apply preserves_throw | apply preserves_panic
    | apply onStateDB_history
    | apply preserves_bind; [|intros ?]
    | apply preserves_forM_; intros ?
    | apply preserves_modify; intros ? ?; assumption
    | progress cbv zeta
    | match goal with
      | |- preserves _ (match ?x with _ => _ end) => destruct x
      | |- preserves _ (if ?x then _ else _) => destruct x
      end ].

Lemma forgeBatch_history (h : H) (ethBlock : Block) (blockL1UserTxs : list L1Tx)
    (next : Z) (evt : RollupEventForgeBatch) :
  preserves (historyIs h) (forgeBatch ethBlock blockL1UserTxs next evt).
Proof. unfold forgeBatch. keeps_history. Qed.

Lemma forgeBatches_history (h : H) (ethBlock : Block) (blockL1UserTxs : list L1Tx)
    (next : Z) (evts : list RollupEventForgeBatch) :
  preserves (historyIs h) (forgeBatches ethBlock blockL1UserTxs next evts).
Proof.
  revert next. induction evts as [|evt evts IH]; intros next; simpl.
  - apply preserves_ret.
  - apply preserves_bind; [apply forgeBatch_history|]. intros [batchData next'].
    apply preserves_bind; [apply IH|]. intros batches. apply preserves_ret.
Qed.

Lemma checkedEvents_history {E A} (h : H) (ethBlock : Block)
    (events : outcome (E * option Z)) (noEvents : A) (sync : E -> M Sync A) :
  (forall evts, preserves (historyIs h) (sync evts)) ->
  preserves (historyIs h) (checkedEvents ethBlock events noEvents sync).
Proof. intros Hsync. unfold checkedEvents. keeps_history. apply Hsync. Qed.

Lemma rollupSync_history (h : H) (ethBlock : Block) :
  preserves (historyIs h) (rollupSync ethBlock).
Proof.
  apply checkedEvents_history. intros evts. unfold rollupSyncEvents.
  keeps_history. apply forgeBatches_history.
Qed.

Lemma auctionSync_history (h : H) (ethBlock : Block) :
  preserves (historyIs h) (auctionSync ethBlock).
Proof.
  apply checkedEvents_history. intros evts.
  unfold auctionSyncEvents, newDefaultSlotSetBid. keeps_history.
Qed.

Lemma wdelayerSync_history (h : H) (ethBlock : Block) :
  preserves (historyIs h) (wdelayerSync ethBlock).
Proof.
  apply checkedEvents_history. intros evts. unfold wdelayerSyncEvents. keeps_history.
Qed.






Lemma rollupSync_keeps_history (ethBlock : Block) (s s1 : Sync) (r : outcome RollupData) :
  rollupSync ethBlock s = (r, s1) -> historyDB s1 = historyDB s.
Proof.
  intros Hrun. pose proof (rollupSync_history (historyDB s) ethBlock s eq_refl) as Hh.
  by rewrite Hrun in Hh.
Qed.

Lemma auctionSync_keeps_history (ethBlock : Block) (s s1 : Sync) (r : outcome AuctionData) :
  auctionSync ethBlock s = (r, s1) -> historyDB s1 = historyDB s.
Proof.
  intros Hrun. pose proof (auctionSync_history (historyDB s) ethBlock s eq_refl) as Hh.
  by rewrite Hrun in Hh.
Qed.

Lemma wdelayerSync_keeps_history (ethBlock : Block) (s s1 : Sync) (r : outcome WDelayerData) :
  wdelayerSync ethBlock s = (r, s1) -> historyDB s1 = historyDB s.
Proof.
  intros Hrun. pose proof (wdelayerSync_history (historyDB s) ethBlock s eq_refl) as Hh.
  by rewrite Hrun in Hh.
Qed.


(** *** Delayed withdrawals and their deposits *)


(** a withdrawal that is not instant and carries [txHash]: *)
Definition delayedOf (txHash : Z) (w : WithdrawInfo) : Prop :=
  InstantWithdraw w = false /\ WithdrawTxHash w = txHash.

#[local] Instance delayedOf_dec (txHash : Z) (w : WithdrawInfo) :
  Decision (delayedOf txHash w).
Proof. unfold delayedOf. apply _. Defined.

(** how many deposits of [txHash] the withdrawals before the [i]-th have
    consumed, one each: *)
Definition consumedBefore (withdrawals : list WithdrawInfo) (i : nat) (txHash : Z) : nat :=
  length (filter (delayedOf txHash) (take i withdrawals)).


(** The withdrawal [w] with the owner and the token of the deposit. *)
Definition annotated (w : WithdrawInfo) (owner token : Z) : WithdrawInfo :=
  mkWithdrawInfo (WithdrawIdx w) (NumExitRoot w) (InstantWithdraw w)
    (WithdrawTxHash w) owner token.

Definition transferOf (d : WDelayerEventDeposit) : WDelayerTransfer :=
  mkWDelayerTransfer (EvtOwner d) (EvtToken d) (EvtAmount d).

(** The same deposit, read from the map of [wdelayerSync]. *)
Definition unconsumed (byTxHash : gmap Z (list WDelayerTransfer))
    (withdrawals : list WithdrawInfo) (i : nat) (w : WithdrawInfo)
  : option WDelayerTransfer :=
  default [] (byTxHash !! WithdrawTxHash w)
    !! consumedBefore withdrawals i (WithdrawTxHash w).

Lemma consumedBefore_instant (w : WithdrawInfo) (ws : list WithdrawInfo) (i : nat)
    (txHash : Z) :
  InstantWithdraw w = true ->
  consumedBefore (w :: ws) (S i) txHash = consumedBefore ws i txHash.
Proof.
  intros Hw. unfold consumedBefore. simpl.
  rewrite filter_cons_False; [done|]. intros [? _]. congruence.
Qed.

Lemma consumedBefore_other (w : WithdrawInfo) (ws : list WithdrawInfo) (i : nat)
    (txHash : Z) :
  WithdrawTxHash w <> txHash ->
  consumedBefore (w :: ws) (S i) txHash = consumedBefore ws i txHash.
Proof.
  intros Hw. unfold consumedBefore. simpl.
  rewrite filter_cons_False; [done|]. by intros [_ ?].
Qed.

Lemma consumedBefore_delayed (w : WithdrawInfo) (ws : list WithdrawInfo) (i : nat) :
  InstantWithdraw w = false ->
  consumedBefore (w :: ws) (S i) (WithdrawTxHash w)
  = S (consumedBefore ws i (WithdrawTxHash w)).
Proof.
  intros Hw. unfold consumedBefore. simpl.
  by rewrite filter_cons_True.
Qed.

(** After an instant withdrawal the deposits left are the same. *)
Lemma unconsumed_after_instant (m : gmap Z (list WDelayerTransfer)) (w w' : WithdrawInfo)
    (ws : list WithdrawInfo) (i : nat) :
  InstantWithdraw w = true ->
  unconsumed m (w :: ws) (S i) w' = unconsumed m ws i w'.
Proof. intros Hw. unfold unconsumed. by rewrite consumedBefore_instant. Qed.

(** After a delayed withdrawal the first deposit of its transaction is
    popped. *)
Lemma unconsumed_after_delayed (m : gmap Z (list WDelayerTransfer)) (w w' : WithdrawInfo)
    (ws : list WithdrawInfo) (i : nat) (d : WDelayerTransfer)
    (others : list WDelayerTransfer) :
  InstantWithdraw w = false ->
  default [] (m !! WithdrawTxHash w) = d :: others ->
  unconsumed (<[WithdrawTxHash w := others]> m) ws i w'
  = unconsumed m (w :: ws) (S i) w'.
Proof.
  intros Hw Hm. unfold unconsumed.
  destruct (decide (WithdrawTxHash w = WithdrawTxHash w')) as [Heq|Hne].
  - rewrite <- Heq, lookup_insert_eq, consumedBefore_delayed, Hm; done.
  - rewrite lookup_insert_ne, consumedBefore_other; done.
Qed.

(** What the loop of [Sync2] over the withdrawals comes to. *)
Definition pairedAll (m : gmap Z (list WDelayerTransfer)) (ws ws' : list WithdrawInfo)
  : Prop :=
  length ws' = length ws
  /\ forall i w, ws !! i = Some w ->
       if InstantWithdraw w then ws' !! i = Some w
       else exists d, unconsumed m ws i w = Some d
                      /\ ws' !! i = Some (annotated w (TransferOwner d) (TransferToken d)).

Definition unpaired (m : gmap Z (list WDelayerTransfer)) (ws : list WithdrawInfo) : Prop :=
  exists i w, ws !! i = Some w /\ InstantWithdraw w = false /\ unconsumed m ws i w = None.

Lemma pairWithdrawals_spec (ws : list WithdrawInfo) (m : gmap Z (list WDelayerTransfer)) :
  match pairWithdrawals ws m with
  | Ok (ws', _) => pairedAll m ws ws'
  | Err e => e = ErrWDelayerDepositNotFound /\ unpaired m ws
  | Panic => False
  end.
Proof.
  revert m. induction ws as [|w ws IH]; intros m; simpl.
  - split; [done|]. intros i w Hw. by rewrite lookup_nil in Hw.
  - destruct (InstantWithdraw w) eqn:Hinstant.
    + specialize (IH m).
      destruct (pairWithdrawals ws m) as [[ws' m']|e|]; simpl; [| |done].
      * destruct IH as [Hlen Hpaired]. split; [simpl; by rewrite Hlen|].
        intros [|i] w' Hw'; simpl in *.
        -- injection Hw' as <-. by rewrite Hinstant.
        -- specialize (Hpaired i w' Hw').
           destruct (InstantWithdraw w'); [done|].
           destruct Hpaired as (d & Hd & Hi). exists d.
           by rewrite unconsumed_after_instant.
      * destruct IH as [-> (i & w' & Hw' & Hdelayed & Hnone)]. split; [done|].
        exists (S i), w'. by rewrite unconsumed_after_instant.
    + destruct (default [] (m !! WithdrawTxHash w)) as [|d others] eqn:Hm.
      * split; [done|]. exists 0%nat, w. split; [done|]. split; [done|].
        unfold unconsumed. by rewrite Hm.
      * specialize (IH (<[WithdrawTxHash w := others]> m)).
        destruct (pairWithdrawals ws _) as [[ws' m']|e|]; simpl; [| |done].
        -- destruct IH as [Hlen Hpaired]. split; [simpl; by rewrite Hlen|].
           intros [|i] w' Hw'; simpl in *.
           ++ injection Hw' as <-. rewrite Hinstant. exists d.
              split; [|unfold annotated; by rewrite Hinstant].
              unfold unconsumed. by rewrite Hm.
           ++ specialize (Hpaired i w' Hw').
              destruct (InstantWithdraw w'); [done|].
              destruct Hpaired as (d' & Hd' & Hi). exists d'.
              by erewrite <- unconsumed_after_delayed.
        -- destruct IH as [-> (i & w' & Hw' & Hdelayed & Hnone)]. split; [done|].
           exists (S i), w'. by erewrite <- unconsumed_after_delayed.
Qed.







(** The withdrawal [rollupSync] makes of an event: no owner, no token. *)
Definition withdrawalOf (evt : RollupEventWithdraw) : WithdrawInfo :=
  mkWithdrawInfo (EvtIdx evt) (EvtNumExitRoot evt) (EvtInstantWithdraw evt)
    (EvtTxHash evt) 0 0.





(** *** Reorganizations *)

(** At the height [n] the block of the store and the block of the chain
    are both read. *)
Definition readAt (s : Sync) (n : Z) (stored onChain : Block) : Prop :=
  EthBlockByNumber ethClient n = Ok onChain
  /\ GetBlock hdb (historyDB s) n = Ok stored.

(** At the height [n] the store holds a block that is not the block of the
    chain. *)
Definition forkedAt (s : Sync) (n : Z) : Prop :=
  exists stored onChain, readAt s n stored onChain /\ Hash stored <> Hash onChain.

Lemma reorgLoop_step_forked (s : Sync) (n : Z) (rest : list Z) (block : option Block)
    (stored onChain : Block) :
  readAt s n stored onChain -> Hash stored <> Hash onChain ->
  reorgLoop (n :: rest) block s = reorgLoop rest (Some stored) s.
Proof.
  intros [Hchain Hstored] Hne. simpl.
  rewrite (bind_run _ _ s s onChain) by (unfold lift; by rewrite Hchain).
  rewrite (bind_run _ _ s s s) by done.
  rewrite (bind_run _ _ s s stored) by (unfold lift; by rewrite Hstored).
  by rewrite bool_decide_false.
Qed.

Lemma reorgLoop_step_found (s : Sync) (n : Z) (rest : list Z) (block : option Block)
    (stored onChain : Block) :
  readAt s n stored onChain -> Hash stored = Hash onChain ->
  reorgLoop (n :: rest) block s = (Ok (Some stored), s).
Proof.
  intros [Hchain Hstored] Heq. simpl.
  rewrite (bind_run _ _ s s onChain) by (unfold lift; by rewrite Hchain).
  rewrite (bind_run _ _ s s s) by done.
  rewrite (bind_run _ _ s s stored) by (unfold lift; by rewrite Hstored).
  by rewrite bool_decide_true.
Qed.

(** The walk goes down over the forked heights [above] to the height [n],
    and stops there: because the hashes agree, or because no height is
    left. *)
Lemma reorgLoop_stops (s : Sync) (above below : list Z) (n : Z) (block : option Block)
    (stored onChain : Block) :
  Forall (forkedAt s) above ->
  readAt s n stored onChain ->
  Hash stored = Hash onChain \/ below = [] ->
  reorgLoop (above ++ n :: below) block s = (Ok (Some stored), s).
Proof.
  intros Habove Hn Hstop. revert block.
  induction Habove as [|m above (sb & eb & Hm & Hne) _ IH]; intros block.
  - rewrite app_nil_l.
    destruct (decide (Hash stored = Hash onChain)) as [Heq|Hne].
    + by eapply reorgLoop_step_found.
    + destruct Hstop as [?| ->]; [done|].
      by erewrite reorgLoop_step_forked.
  - rewrite <- app_comm_cons. by erewrite reorgLoop_step_forked.
Qed.

(** The heights of the walk, split at one of them. *)
Lemma heightsDownFrom_split (blockNum n : Z) :
  startBlockNum <= n <= blockNum ->
  heightsDownFrom blockNum
  = reverse (seqZ (n + 1) (blockNum - n)) ++ n :: reverse (seqZ startBlockNum (n - startBlockNum)).
Proof.
  intros Hn. unfold heightsDownFrom.
  replace (blockNum - startBlockNum + 1)
    with ((n - startBlockNum) + (1 + (blockNum - n))) by lia.
  rewrite seqZ_app by lia.
  replace (startBlockNum + (n - startBlockNum)) with n by lia.
  rewrite (seqZ_cons n) by lia.
  replace (Z.succ n) with (n + 1) by lia.
  replace (Z.pred (1 + (blockNum - n))) with (blockNum - n) by lia.
  by rewrite reverse_app, reverse_cons, <- app_assoc.
Qed.

Lemma reorg_walk (uncleBlock stored onChain : Block) (s : Sync) (n : Z) :
  startBlockNum <= n <= Num uncleBlock ->
  (forall m, n < m <= Num uncleBlock -> forkedAt s m) ->
  readAt s n stored onChain ->
  Hash stored = Hash onChain \/ n = startBlockNum ->
  reorgLoop (heightsDownFrom (Num uncleBlock)) None s = (Ok (Some stored), s).
Proof.
  intros Hn Habove Hread Hstop.
  rewrite (heightsDownFrom_split _ n) by done.
  eapply reorgLoop_stops; [|done|].
  - apply Forall_forall. intros m Hm. apply Habove.
    apply elem_of_reverse, elem_of_seqZ in Hm. lia.
  - destruct Hstop as [?| ->]; [by left|right].
    by rewrite Z.sub_diag.
Qed.

(** Once the walk stopped at the stored block [stored], [reorg] truncates
    the history store at its number and resets the state. *)
Lemma reorg_run (uncleBlock stored : Block) (s s' : Sync) (h1 : H) :
  reorgLoop (heightsDownFrom (Num uncleBlock)) None s = (Ok (Some stored), s) ->
  Reorg hdb (Num stored) (historyDB s) = (Ok tt, h1) ->
  resetState stored (mkSynchronizer h1 (stateDB s) (vars s) (stats s)) = (Ok tt, s') ->
  reorg uncleBlock s = (Ok (Num stored), s').
Proof.
  intros Hwalk Hreorg Hreset. unfold reorg.
  rewrite (bind_run _ _ s s (Some stored)) by done.
  rewrite (bind_run _ _ s s stored) by done.
  rewrite (bind_run _ _ s (mkSynchronizer h1 (stateDB s) (vars s) (stats s)) tt)
    by (unfold onHistoryDB; by rewrite Hreorg).
  by rewrite (bind_run _ _ _ s' tt).
Qed.

(** The two stores and the variables are these. *)
Definition storesAre (h : H) (d : D) (v : SCVariables) (s : Sync) : Prop :=
  historyDB s = h /\ stateDB s = d /\ vars s = v.

Lemma onStats_stores (h : H) (d : D) (v : SCVariables) (f : Stats -> outcome Stats) :
  preserves (storesAre h d v) (onStats f).
Proof. unfold onStats. keeps_history. Qed.

Lemma updateCurrentSlotIfSync_stores (h : H) (d : D) (v : SCVariables) (reset : bool)
    (firstBatchBlockNum : option Z) :
  preserves (storesAre h d v) (updateCurrentSlotIfSync reset firstBatchBlockNum).
Proof. unfold updateCurrentSlotIfSync. keeps_history. Qed.

(** The number of the last batch of the history store, 0 when it has
    none. *)
Definition lastBatchNumOf (h : H) : Z :=
  match GetLastBatchNum hdb h with
  | Ok batchNum => batchNum
  | _ => 0
  end.

(** A [resetState] that ends well over a history store that holds the
    variables: the variables are those of the store, the state store is
    reset to the last batch of the history store, and the history store is
    not written. *)
Lemma resetState_effect (block : Block) (s s' : Sync) (v : SCVariables) :
  GetSCVars hdb (historyDB s) = Ok v ->
  resetState block s = (Ok tt, s') ->
  historyDB s' = historyDB s
  /\ vars s' = v
  /\ Reset sdb (lastBatchNumOf (historyDB s)) (stateDB s) = (Ok tt, stateDB s').
Proof.
  intros Hvars Hrun. unfold resetState in Hrun.
  apply bind_run_Ok in Hrun as (s0 & s1 & Hget & Hrun). apply get_run in Hget as [-> ->].
  apply bind_run_Ok in Hrun as (scVars & s1 & Hsc & Hrun).
  apply lift_run in Hsc as [Hsc ->]. rewrite Hvars in Hsc. injection Hsc as <-.
  apply bind_run_Ok in Hrun as (u & s1 & Hmod & Hrun). apply modify_run in Hmod as ->.
  apply bind_run_Ok in Hrun as (s0 & s1 & Hget & Hrun). apply get_run in Hget as [-> ->].
  apply bind_run_Ok in Hrun as (batchNum & s1 & Hbatch & Hrun).
  apply lift_run in Hbatch as [Hbatch ->].
  apply bind_run_Ok in Hrun as (l1BatchBlock & s1 & Hl1 & Hrun).
  apply lift_run in Hl1 as [_ ->].
  apply bind_run_Ok in Hrun as (l1TxsNum & s1 & Htxs & Hrun).
  apply lift_run in Htxs as [_ ->].
  apply bind_run_Ok in Hrun as (u1 & s1 & Hreset & Hrun).
  apply bind_run_Ok in Hrun as (u2 & s2 & Hstats & Hrun).
  assert (default 0 batchNum = lastBatchNumOf (historyDB s)) as Hnum.
  { unfold lastBatchNumOf. simpl in Hbatch.
    destruct (GetLastBatchNum hdb (historyDB s)) as [n|[]|]; simpl in Hbatch;
      by simplify_eq. }
  rewrite Hnum in Hreset. unfold onStateDB, wrappedM in Hreset. simpl in Hreset.
  destruct (Reset sdb (lastBatchNumOf (historyDB s)) (stateDB s)) as [[[]|e|] d] eqn:Hd;
    simpl in Hreset; [|done..].
  injection Hreset as Heq. subst s1.
  assert (storesAre (historyDB s) d v
            (mkSynchronizer (historyDB s) d v (stats s))) as Hs1 by done.
  eapply preserves_run in Hstats; [|apply onStats_stores|exact Hs1].
  eapply preserves_run in Hrun; [|apply updateCurrentSlotIfSync_stores|exact Hstats].
  by destruct Hrun as (-> & -> & ->).
Qed.

(** [Sync2] on a block that does not follow the last saved block: the
    walk of [reorg] stops at the stored block [stored], the history store
    is truncated there and the state reset, and the call returns the number
    of blocks discarded, without an error and without data of the block. *)
Lemma Sync2_reorg (lastSavedBlock : option Block) (last ethBlock stored : Block)
    (s s' : Sync) (st : Stats) (h1 : H) :
  lastSaved lastSavedBlock s = (Ok (Some last), s) ->
  startBlockNum <= Num last ->
  EthBlockByNumber ethClient (Num last + 1) = Ok ethBlock ->
  UpdateEth (stats s) = Ok st ->
  Hash last <> ParentHash ethBlock ->
  reorgLoop (heightsDownFrom (Num last)) None (set_stats st s)
  = (Ok (Some stored), set_stats st s) ->
  Reorg hdb (Num stored) (historyDB s) = (Ok tt, h1) ->
  resetState stored (mkSynchronizer h1 (stateDB s) (vars s) st) = (Ok tt, s') ->
  Sync2 lastSavedBlock s = (Ok (None, Some (Num last - Num stored)), s').
Proof.
  intros Hlast Hstart Hblock Hstats Hparent Hwalk Hreorg Hreset.
  rewrite (Sync2_next_block _ (Some last) ethBlock s st); [|done| |done..].
  - rewrite bool_decide_true by done.
    by rewrite (bind_run _ _ _ s' (Num stored)) by by eapply reorg_run.
  - by intros b [= <-].
Qed.

(** X1. When the store and the chain have a block in common, [Sync2] goes
    back to the last of them: with the same block at the height [n] and other
    blocks at the heights above, it leaves the history store truncated at
    [n], the variables as the truncated store has them, the state store
    reset to the last batch of the truncated store, and it returns the
    number of discarded blocks, no block data and no error. *)
Lemma Sync2_reorg_to_last_common_block (lastSavedBlock : option Block)
    (last ethBlock stored onChain : Block) (s s' : Sync) (st : Stats) (h1 : H)
    (v : SCVariables) (n : Z) :
  lastSaved lastSavedBlock s = (Ok (Some last), s) ->
  startBlockNum <= n <= Num last ->
  EthBlockByNumber ethClient (Num last + 1) = Ok ethBlock ->
  UpdateEth (stats s) = Ok st ->
  Hash last <> ParentHash ethBlock ->
  (forall m, n < m <= Num last -> forkedAt s m) ->
  readAt s n stored onChain ->
  Hash stored = Hash onChain ->
  Num stored = n ->
  Reorg hdb n (historyDB s) = (Ok tt, h1) ->
  GetSCVars hdb h1 = Ok v ->
  resetState stored (mkSynchronizer h1 (stateDB s) (vars s) st) = (Ok tt, s') ->
  Sync2 lastSavedBlock s = (Ok (None, Some (Num last - n)), s')
  /\ historyDB s' = h1
  /\ vars s' = v
  /\ Reset sdb (lastBatchNumOf h1) (stateDB s) = (Ok tt, stateDB s').
Proof.
  intros Hlast Hn Hblock Hstats Hparent Habove Hread Hhash Hnum Hreorg Hvars Hreset.
  split.
  - rewrite <- Hnum. eapply Sync2_reorg; try done; [lia| |by rewrite Hnum].
    eapply (reorg_walk last stored onChain _ n); [done|exact Habove|exact Hread|by left].
  - by apply (resetState_effect stored _ s' v) in Hreset.
Qed.

(** C3. When no height of the store has the block of the chain, the walk
    of [reorg] ends at [startBlockNum] and takes the block stored there as
    the last valid one: [Sync2] truncates the history store at that block,
    which is not a block of the chain, and returns the count of the blocks
    above it with a nil error. *)
Theorem Sync2_reorg_without_common_block (lastSavedBlock : option Block)
    (last ethBlock stored : Block) (s s' : Sync) (st : Stats) (h1 : H) :
  lastSaved lastSavedBlock s = (Ok (Some last), s) ->
  startBlockNum <= Num last ->
  EthBlockByNumber ethClient (Num last + 1) = Ok ethBlock ->
  UpdateEth (stats s) = Ok st ->
  Hash last <> ParentHash ethBlock ->
  (forall n, startBlockNum <= n <= Num last -> forkedAt s n) ->
  GetBlock hdb (historyDB s) startBlockNum = Ok stored ->
  Reorg hdb (Num stored) (historyDB s) = (Ok tt, h1) ->
  resetState stored (mkSynchronizer h1 (stateDB s) (vars s) st) = (Ok tt, s') ->
  Sync2 lastSavedBlock s = (Ok (None, Some (Num last - Num stored)), s').
Proof.
  intros Hlast Hstart Hblock Hstats Hparent Hforked Hstored Hreorg Hreset.
  eapply (Sync2_reorg _ last ethBlock stored); try done.
  destruct (Hforked startBlockNum) as (stored' & onChain & Hread & _); [lia|].
  assert (stored' = stored) as -> by (destruct Hread as [_ Hread]; congruence).
  eapply (reorg_walk last stored onChain _ startBlockNum); [lia| |exact Hread|by right].
  intros m Hm. apply Hforked. lia.
Qed.

(** *** Calls that synchronize nothing *)

(** X2. At the tip of the chain, when the client does not find the block
    after the last saved one, [Sync2] returns no block, no count of
    discarded blocks and no error, and leaves the synchronizer, its stats
    included, as it was. *)
Theorem Sync2_no_next_block (lastSavedBlock last : option Block) (s : Sync) :
  lastSaved lastSavedBlock s = (Ok last, s) ->
  (forall b, last = Some b -> startBlockNum <= Num b) ->
  EthBlockByNumber ethClient (nextBlockNum last) = Err ErrNotFound ->
  Sync2 lastSavedBlock s = (Ok (None, None), s).
Proof.
  intros Hlast Hstart Hblock. unfold Sync2.
  rewrite (bind_run _ _ s s last) by done.
  rewrite (bind_run _ _ s s (nextBlockNum last)).
  - by rewrite Hblock.
  - destruct last as [b|]; [|done].
    rewrite bool_decide_false; [done|]. specialize (Hstart b eq_refl). lia.
Qed.

(** X3. A last saved block below the first block of the contracts is
    refused before the chain is asked anything: [Sync2] returns an error and
    leaves the synchronizer as it was. *)
Theorem Sync2_last_saved_below_start (lastSavedBlock : option Block) (b : Block)
    (s : Sync) :
  lastSaved lastSavedBlock s = (Ok (Some b), s) ->
  Num b < startBlockNum ->
  Sync2 lastSavedBlock s = (Err (ErrMsg "lastSavedBlock < startBlockNum"), s).
Proof.
  intros Hlast Hb. unfold Sync2.
  rewrite (bind_run _ _ s s (Some b)) by done.
  rewrite bool_decide_true by done.
  by rewrite (bind_run_Err _ _ s s (ErrMsg "lastSavedBlock < startBlockNum")).
Qed.

(** X4. The three streams never write the history store: whatever
    [rollupSync], [auctionSync] and [wdelayerSync] return, an error or a
    panic included, the history store after the call is the one before
    it. *)
Theorem streams_never_write_history (ethBlock : Block) (s : Sync) :
  historyDB (rollupSync ethBlock s).2 = historyDB s
  /\ historyDB (auctionSync ethBlock s).2 = historyDB s
  /\ historyDB (wdelayerSync ethBlock s).2 = historyDB s.
Proof.
  split; [|split].
  - by apply (rollupSync_history (historyDB s) ethBlock s).
  - by apply (auctionSync_history (historyDB s) ethBlock s).
  - by apply (wdelayerSync_history (historyDB s) ethBlock s).
Qed.

(** *** What a synchronized block leaves behind *)

Lemma pairWithdrawals_unused (ws ws' : list WithdrawInfo)
    (m m' : gmap Z (list WDelayerTransfer)) (txHash : Z) :
  pairWithdrawals ws m = Ok (ws', m') ->
  default [] (m' !! txHash)
  = drop (length (filter (delayedOf txHash) ws)) (default [] (m !! txHash)).
Proof.
  revert m ws'. induction ws as [|w ws IH]; intros m ws'; simpl.
  - by intros [= _ <-].
  - destruct (InstantWithdraw w) eqn:Hinstant.
    + destruct (pairWithdrawals ws m) as [[rest m1]|e|] eqn:Hrest; simpl; [|done..].
      intros [= _ <-]. rewrite filter_cons_False by (intros [? _]; congruence).
      by eapply IH.
    + destruct (default [] (m !! WithdrawTxHash w)) as [|d others] eqn:Hm; [done|].
      destruct (pairWithdrawals ws _) as [[rest m1]|e|] eqn:Hrest; simpl; [|done..].
      intros [= _ <-]. rewrite (IH _ _ Hrest).
      destruct (decide (WithdrawTxHash w = txHash)) as [<-|Hne].
      * rewrite lookup_insert_eq, filter_cons_True by done. simpl. by rewrite Hm.
      * rewrite lookup_insert_ne by done.
        by rewrite filter_cons_False by (by intros [_ ?]).
Qed.

(** X5. The loop of [Sync2] over the withdrawals, when it ends without
    error, changes nothing of a withdrawal but its owner and token, and
    consumes one deposit for each delayed withdrawal: the deposits left for
    a transaction hash are those of the block without the first [k], [k]
    being the number of delayed withdrawals with that hash. *)
Theorem pairWithdrawals_consumes_one_each (ws ws' : list WithdrawInfo)
    (m m' : gmap Z (list WDelayerTransfer)) :
  pairWithdrawals ws m = Ok (ws', m') ->
  length ws' = length ws
  /\ (forall txHash,
        default [] (m' !! txHash)
        = drop (length (filter (delayedOf txHash) ws)) (default [] (m !! txHash)))
  /\ (forall i w, ws !! i = Some w ->
        exists w', ws' !! i = Some w'
                   /\ WithdrawIdx w' = WithdrawIdx w
                   /\ NumExitRoot w' = NumExitRoot w
                   /\ InstantWithdraw w' = InstantWithdraw w
                   /\ WithdrawTxHash w' = WithdrawTxHash w).
Proof.
  intros Hpair. pose proof (pairWithdrawals_spec ws m) as Hspec.
  rewrite Hpair in Hspec. destruct Hspec as [Hlen Hpaired].
  split; [done|]. split; [intros txHash; by eapply pairWithdrawals_unused|].
  intros i w Hw. specialize (Hpaired i w Hw).
  destruct (InstantWithdraw w) eqn:Hinstant.
  - by exists w.
  - destruct Hpaired as (d & _ & Hi). eexists. split; [exact Hi|]. done.
Qed.

Lemma lastSaved_state (lastSavedBlock : option Block) (s s' : Sync)
    (r : outcome (option Block)) :
  lastSaved lastSavedBlock s = (r, s') -> s' = s.
Proof.
  intros Hrun. eapply (preserves_run (fun x => x = s)) in Hrun; [done| |done].
  unfold lastSaved. keeps_history.
Qed.

Lemma onStats_history (h : H) (f : Stats -> outcome Stats) :
  preserves (historyIs h) (onStats f).
Proof. unfold onStats. keeps_history. Qed.

Lemma updateCurrentSlotIfSync_history (h : H) (reset : bool)
    (firstBatchBlockNum : option Z) :
  preserves (historyIs h) (updateCurrentSlotIfSync reset firstBatchBlockNum).
Proof. unfold updateCurrentSlotIfSync. keeps_history. Qed.

Lemma storeBlockData_Ok (ethBlock : Block) (rollupData : RollupData)
    (auctionData : AuctionData) (wDelayerData : WDelayerData) (s s' : Sync)
    (r : option BlockData * option Z) :
  storeBlockData ethBlock rollupData auctionData wDelayerData s = (Ok r, s') ->
  r = (Some (mkBlockData ethBlock rollupData auctionData wDelayerData), None)
  /\ AddBlockSCData hdb (mkBlockData ethBlock rollupData auctionData wDelayerData)
       (historyDB s) = (Ok tt, historyDB s').
Proof.
  unfold storeBlockData. intros Hrun.
  apply bind_run_Ok in Hrun as (u & s1 & Hadd & Hrun).
  destruct (lastL1Batch (Batches rollupData)) as [lastL1BatchBlock lastForgeL1TxsNum].
  apply bind_run_Ok in Hrun as (u1 & s2 & Hstats & Hrun).
  apply bind_run_Ok in Hrun as (u2 & s3 & Hslot & Hrun).
  apply mret_run in Hrun as [-> ->]. split; [done|].
  unfold onHistoryDB in Hadd.
  destruct (AddBlockSCData hdb _ (historyDB s)) as [[[]|e|] h1] eqn:Hh1;
    simpl in Hadd; [|done..].
  injection Hadd as Heq. subst s1.
  eapply (preserves_run (historyIs h1)) in Hstats; [|apply onStats_history|done].
  eapply (preserves_run (historyIs h1)) in Hslot;
    [|apply updateCurrentSlotIfSync_history|done].
  by rewrite Hslot.
Qed.

Lemma syncBlock_Ok (ethBlock : Block) (s s' : Sync) (r : option BlockData * option Z) :
  syncBlock ethBlock s = (Ok r, s') ->
  exists blockData,
    r = (Some blockData, None)
    /\ BlockOf blockData = ethBlock
    /\ AddBlockSCData hdb blockData (historyDB s) = (Ok tt, historyDB s').
Proof.
  unfold syncBlock. intros Hrun.
  apply bind_run_Ok in Hrun as (rollupData & s1 & Hrollup & Hrun).
  apply bind_run_Ok in Hrun as (auctionData & s2 & Hauction & Hrun).
  apply bind_run_Ok in Hrun as (wDelayerData & s3 & Hwdelayer & Hrun).
  apply bind_run_Ok in Hrun as ([withdrawals byTxHash] & s4 & Hpair & Hrun).
  apply lift_run in Hpair as [_ ->].
  apply storeBlockData_Ok in Hrun as [-> Hadd].
  apply rollupSync_keeps_history in Hrollup.
  apply auctionSync_keeps_history in Hauction.
  apply wdelayerSync_keeps_history in Hwdelayer.
  eexists. split; [done|]. split; [done|].
  rewrite <- Hrollup, <- Hauction, <- Hwdelayer. exact Hadd.
Qed.

(** X6. [Sync2] returns a block only when it has stored it: a call that
    returns block data returns no count of discarded blocks; the data are
    those of the block the client gave for the number after the last saved
    block; and the history store after the call is the store before it
    with exactly these data added by [AddBlockSCData]. *)
Theorem Sync2_returns_the_block_it_stored (lastSavedBlock : option Block)
    (s s' : Sync) (blockData : BlockData) (discarded : option Z) :
  Sync2 lastSavedBlock s = (Ok (Some blockData, discarded), s') ->
  discarded = None
  /\ AddBlockSCData hdb blockData (historyDB s) = (Ok tt, historyDB s')
  /\ exists last,
       lastSaved lastSavedBlock s = (Ok last, s)
       /\ EthBlockByNumber ethClient (nextBlockNum last) = Ok (BlockOf blockData).
Proof.
  unfold Sync2. intros Hrun.
  apply bind_run_Ok in Hrun as (last & s1 & Hlast & Hrun).
  pose proof (lastSaved_state _ _ _ _ Hlast) as ->.
  apply bind_run_Ok in Hrun as (next & s1 & Hnext & Hrun).
  assert (next = nextBlockNum last /\ s1 = s) as [-> ->].
  { destruct last as [b|]; simpl in *.
    - case_bool_decide; [done|]. by apply mret_run in Hnext.
    - by apply mret_run in Hnext. }
  destruct (EthBlockByNumber ethClient (nextBlockNum last)) as [ethBlock|e|] eqn:Hblock;
    [|destruct e; try done; by apply mret_run in Hrun as [[=] _]|done].
  apply bind_run_Ok in Hrun as (u & s1 & Hstats & Hrun).
  eapply (preserves_run (historyIs (historyDB s))) in Hstats;
    [|apply onStats_history|done].
  assert (syncBlock ethBlock s1 = (Ok (Some blockData, discarded), s')) as Hsync.
  { destruct last as [b|]; [|done].
    case_bool_decide; [|done].
    apply bind_run_Ok in Hrun as (n & s2 & _ & Hrun).
    by apply mret_run in Hrun as [[=] _]. }
  apply syncBlock_Ok in Hsync as (blockData' & [= <- ->] & <- & Hadd).
  split; [done|]. rewrite Hstats in Hadd. split; [done|]. by exists last.
Qed.

(** *** The default bids of the slot sets *)

Lemma indexZ_in_range {A} (l : list A) (i : Z) :
  0 <= i < Z.of_nat (length l) -> is_Ok (indexZ l i).
Proof.
  intros Hi. unfold indexZ. rewrite bool_decide_false by lia.
  destruct (lookup_lt_is_Some_2 l (Z.to_nat i)) as [x Hx]; [lia|].
  rewrite Hx. by eexists.
Qed.

Lemma indexZ_out_of_range {A} (l : list A) (i : Z) :
  Z.of_nat (length l) <= i -> indexZ l i = Panic.
Proof.
  intros Hi. unfold indexZ. rewrite bool_decide_false by lia.
  by rewrite lookup_ge_None_2 by lia.
Qed.

(** One round of the loop over the [NewDefaultSlotSetBid] events, by the
    slot set of the event. *)
Lemma newDefaultSlotSetBid_above (blockNum : Z) (evt : AuctionEventNewDefaultSlotSetBid)
    (s : Sync) :
  6 < EvtSlotSet evt ->
  newDefaultSlotSetBid blockNum evt s
  = (Err (ErrMsg "unexpected SlotSet in auctionEvents.NewDefaultSlotSetBid"), s).
Proof. intros Hset. unfold newDefaultSlotSetBid. by rewrite bool_decide_true. Qed.

Lemma newDefaultSlotSetBid_out_of_range (blockNum : Z)
    (evt : AuctionEventNewDefaultSlotSetBid) (s : Sync) :
  EvtSlotSet evt <= 6 ->
  Z.of_nat (length (DefaultSlotSetBid (VarsAuction (vars s)))) <= EvtSlotSet evt ->
  newDefaultSlotSetBid blockNum evt s = (Panic, s).
Proof.
  intros Hset Hlen. unfold newDefaultSlotSetBid. rewrite bool_decide_false by lia.
  rewrite (bind_run _ _ s s s) by done.
  unfold mbind, M_bind, lift. by rewrite indexZ_out_of_range.
Qed.

Lemma newDefaultSlotSetBid_in_range (blockNum : Z)
    (evt : AuctionEventNewDefaultSlotSetBid) (s : Sync) :
  EvtSlotSet evt <= 6 ->
  0 <= EvtSlotSet evt < Z.of_nat (length (DefaultSlotSetBid (VarsAuction (vars s)))) ->
  exists s',
    newDefaultSlotSetBid blockNum evt s = (Ok tt, s')
    /\ historyDB s' = historyDB s /\ stateDB s' = stateDB s /\ stats s' = stats s
    /\ VarsRollup (vars s') = VarsRollup (vars s)
    /\ VarsWDelayer (vars s') = VarsWDelayer (vars s)
    /\ DefaultSlotSetBid (VarsAuction (vars s'))
       = <[Z.to_nat (EvtSlotSet evt) := EvtNewInitialMinBid evt]>
           (DefaultSlotSetBid (VarsAuction (vars s)))
    /\ DefaultSlotSetBidSlotNum (VarsAuction (vars s'))
       = ConstSlotNum constsAuction blockNum + ClosedAuctionSlots (VarsAuction (vars s)) + 1.
Proof.
  intros Hset Hlen. unfold newDefaultSlotSetBid. rewrite bool_decide_false by lia.
  destruct (indexZ_in_range _ _ Hlen) as [old Hold].
  rewrite (bind_run _ _ s s s) by done.
  rewrite (bind_run _ _ s s old) by (unfold lift; by rewrite Hold).
  eexists. split; [reflexivity|]. done.
Qed.

(** X7. The guard of [auctionSync] on [NewDefaultSlotSetBid] events lets the
    slot set 6 through.  With the six default bids of the auction
    variables, the first such event of a block makes [auctionSync] return
    the error "unexpected SlotSet" when its slot set is above 6, and panic
    on the index out of range when it is 6; a single event with a slot set
    from 0 to 5 sets that default bid, and the variables, stamped with the
    number of the block, are returned with the data. *)
Theorem auctionSync_default_slot_set_bid (ethBlock : Block) (s : Sync)
    (auctionEvents : AuctionEvents) (evt : AuctionEventNewDefaultSlotSetBid)
    (rest : list AuctionEventNewDefaultSlotSetBid) :
  AuctionEventsByBlock ethClient (Num ethBlock) = Ok (auctionEvents, Some (Hash ethBlock)) ->
  EvNewDefaultSlotSetBid auctionEvents = evt :: rest ->
  length (DefaultSlotSetBid (VarsAuction (vars s))) = 6%nat ->
  (6 < EvtSlotSet evt ->
     (auctionSync ethBlock s).1
     = Err (ErrMsg "unexpected SlotSet in auctionEvents.NewDefaultSlotSetBid"))
  /\ (EvtSlotSet evt = 6 -> (auctionSync ethBlock s).1 = Panic)
  /\ (0 <= EvtSlotSet evt < 6 -> rest = [] ->
       exists auctionData s',
         auctionSync ethBlock s = (Ok auctionData, s')
         /\ DefaultSlotSetBid (VarsAuction (vars s')) !! Z.to_nat (EvtSlotSet evt)
            = Some (EvtNewInitialMinBid evt)
         /\ AVEthBlockNum (VarsAuction (vars s')) = Num ethBlock
         /\ AuctionVars auctionData = Some (VarsAuction (vars s'))).
Proof.
  intros Hevents Hevt Hlen. unfold auctionSync, checkedEvents.
  rewrite (bind_run _ _ s s (auctionEvents, Some (Hash ethBlock)))
    by (unfold lift; by rewrite Hevents).
  rewrite bool_decide_false by (by intros Hne).
  unfold auctionSyncEvents.
  set (s1 := set_auctionVars (updatedAuctionVars auctionEvents (VarsAuction (vars s))) s).
  rewrite (bind_run _ _ s s1 tt) by done.
  assert (length (DefaultSlotSetBid (VarsAuction (vars s1))) = 6%nat) as Hlen1 by done.
  rewrite Hevt. simpl forM_.
  split; [|split].
  - intros Hset.
    rewrite (bind_run_Err _ _ s1 s1
               (ErrMsg "unexpected SlotSet in auctionEvents.NewDefaultSlotSetBid"));
      [done|].
    apply bind_run_Err. by apply newDefaultSlotSetBid_above.
  - intros Hset.
    pose proof (newDefaultSlotSetBid_out_of_range (Num ethBlock) evt s1) as Hpanic.
    unfold mbind at 1, M_bind at 1. unfold mbind at 1, M_bind at 1.
    rewrite Hpanic; [done|lia|lia].
  - intros Hset ->.
    destruct (newDefaultSlotSetBid_in_range (Num ethBlock) evt s1)
      as (s2 & Hrun & _ & _ & _ & _ & _ & Hbid & _); [lia|lia|].
    rewrite (bind_run _ _ s1 s2 tt)
      by (rewrite (bind_run _ _ s1 s2 tt) by done; done).
    replace (bool_decide (length (evt :: @nil AuctionEventNewDefaultSlotSetBid) = 0%nat))
      with false by done.
    rewrite !andb_false_r. simpl negb. cbv iota.
    eexists _, _. split; [reflexivity|]. simpl. split; [|done].
    rewrite Hbid. apply list_lookup_insert_eq. lia.
Qed.

End sync.

(** *** Stores and a chain to run the synchronizer on

    Collaborators kept in memory, in the manner of the test client of the
    package's tests. *)

(** A history store: the blocks saved, the oldest first, and the initial
    variables and coordinators once they are set.  It keeps no record of
    the best bids. *)
Record MemoryDB : Type := mkMemoryDB {
  savedBlocks : list BlockData;
  savedVars : option SCVariables;
  savedCoordinators : list Coordinator
}.

Definition savedBatches (h : MemoryDB) : list BatchData :=
  savedBlocks h ≫= (fun b => Batches (Rollup b)).

Definition latestVars (h : MemoryDB) (v : SCVariables) : SCVariables :=
  foldl (fun v b =>
           mkSCVariables (default (VarsRollup v) (RollupVars (Rollup b)))
             (default (VarsAuction v) (AuctionVars (Auction b)))
             (default (VarsWDelayer v) (WDelayerVars (WDelayer b))))
    v (savedBlocks h).

Definition orErrNoRows {A} (o : option A) : outcome A :=
  match o with
  | Some a => Ok a
  | None => Err ErrNoRows
  end.

Definition memoryDB : HistoryDB MemoryDB := {|
  GetLastBlock h := orErrNoRows (BlockOf <$> last (savedBlocks h));
  GetBlock h n :=
    orErrNoRows (BlockOf <$> head (filter (fun b => Num (BlockOf b) = n) (savedBlocks h)));
  GetLastBatchNum h := orErrNoRows (BatchNum ∘ BatchOf <$> last (savedBatches h));
  GetLastL1BatchBlockNum h :=
    orErrNoRows (BatchEthBlockNum ∘ BatchOf
                   <$> last (filter (fun b => L1Batch b = true) (savedBatches h)));
  GetLastL1TxsNum h :=
    Ok (last (filter (fun b => L1Batch b = true) (savedBatches h))
          ≫= (fun b => ForgeL1TxsNum (BatchOf b)));
  GetUnforgedL1UserTxs h n :=
    Ok (filter (fun tx => ToForgeL1TxsNum tx = Some n)
          (savedBlocks h ≫= (fun b => L1UserTxs (Rollup b))));
  GetSCVars h := orErrNoRows (latestVars h <$> savedVars h);
  GetFirstBatchBlockNumBySlot h slotNum :=
    orErrNoRows (BatchEthBlockNum ∘ BatchOf
                   <$> head (filter (fun b => SlotNum (BatchOf b) = slotNum)
                               (savedBatches h)));
  GetBestBidCoordinator h slotNum := Err ErrNoRows;
  AddBlockSCData blockData :=
    modify (fun h => mkMemoryDB (savedBlocks h ++ [blockData]) (savedVars h)
                       (savedCoordinators h));
  Reorg lastValidBlock :=
    modify (fun h => mkMemoryDB
                       (filter (fun b => Num (BlockOf b) <= lastValidBlock) (savedBlocks h))
                       (savedVars h) (savedCoordinators h));
  SetInitialSCVars v :=
    modify (fun h => mkMemoryDB (savedBlocks h) (Some v) (savedCoordinators h));
  AddCoordinators coordinators :=
    modify (fun h => mkMemoryDB (savedBlocks h) (savedVars h)
                       (savedCoordinators h ++ coordinators))
|}.

(** A state store that only remembers the number of its batch. *)
Definition batchCounter : StateDB Z := {|
  Reset batchNum := put batchNum;
  ProcessTxs _ _ _ poolL2Txs :=
    modify Z.succ ;; mret (mkProcessTxOutput [] [] ∅, poolL2Txs)
|}.

Definition plainFunctions : CommonFunctions := {|
  NewL1Tx := Ok;
  SetType := Ok;
  SetID := Ok;
  L2TxsToPoolL2Txs := map (fun tx => mkPoolL2Tx (L2Data tx));
  PoolL2TxsToL2Txs txs := Ok (map (fun tx => mkL2Tx 0 0 0 (PoolData tx)) txs)
|}.

(** Slots of 40 blocks from the genesis block 0. *)
Definition slotsOf40 : AuctionConstants := {|
  GenesisBlockNum := 0;
  BlocksPerSlot := 40;
  ConstSlotNum blockNum := if bool_decide (0 <= blockNum) then blockNum `quot` 40 else 0;
  ConstSlotBlocks slotNum := (slotNum * 40, (slotNum + 1) * 40 - 1);
  ConstRelativeBlock blockNum := blockNum `rem` 40
|}.

(** A client of a chain of blocks, with the events of each block and the
    tokens that answer the probe. *)
Definition chainClient (chain : list Block)
    (rollupEvents : Z -> outcome (RollupEvents * option Z))
    (auctionEvents : Z -> outcome (AuctionEvents * option Z))
    (wdelayerEvents : Z -> outcome (WDelayerEvents * option Z))
    (tokens : Z -> outcome ERC20Consts) : ClientInterface := {|
  EthBlockByNumber n :=
    match (if bool_decide (n = -1) then last chain
           else head (filter (fun b => Num b = n) chain)) with
    | Some b => Ok b
    | None => Err ErrNotFound
    end;
  RollupLastForgedBatch := Ok 0;
  RollupEventsByBlock := rollupEvents;
  AuctionEventsByBlock := auctionEvents;
  WDelayerEventsByBlock := wdelayerEvents;
  RollupForgeBatchArgsOf _ _ := Err ErrNotFound;
  EthERC20Consts := tokens;
  AuctionCanForge _ _ := Ok true;
  Now := 0
|}.

Definition noRollupEvents : RollupEvents := mkRollupEvents [] [] [] [] [] [] [] [] [] [].
Definition noAuctionEvents : AuctionEvents := mkAuctionEvents [] [] [] [] [] [] [] [] [] [].
Definition noWDelayerEvents : WDelayerEvents := mkWDelayerEvents [] [] [] [] [] [] [].

Definition zeroVars : SCVariables :=
  mkSCVariables (mkRollupVariables 0 0 0 0 [] false)
    (mkAuctionVariables 0 0 0 EmptyString [0; 0; 0; 0; 0; 0] 0 0 0 [] 0 20)
    (mkWDelayerVariables 0 0 0 0 0 false).

Definition zeroBlock : Block := mkBlock 0 0 0 0.
Definition zeroSlot : Slot := mkSlot 0 0 0 false 0 false None None 0 EmptyString.
Definition zeroStats : Stats := mkStats 0 0 0 zeroBlock 0 0 zeroBlock 0 0 0 zeroSlot.

(** The hash of the block [n] of the sample chains is [100 + n]. *)
Definition chainBlock (n : Z) : Block := mkBlock n 0 (100 + n) (100 + n - 1).

Definition savedBlock (b : Block) : BlockData :=
  mkBlockData b NewRollupData NewAuctionData NewWDelayerData.

(** A synchronizer that saved the blocks [blocks]. *)
Definition syncOf (blocks : list Block) : Synchronizer MemoryDB Z :=
  mkSynchronizer (mkMemoryDB (savedBlock <$> blocks) (Some zeroVars) []) 0 zeroVars
    zeroStats.

(** *** Runs on sample chains *)

(** The stats once [UpdateEth] has seen [b] as the last block of the chain. *)
Definition statsAt (b : Block) : Stats := mkStats 0 0 0 b 0 0 zeroBlock 0 0 0 zeroSlot.

Definition sampleTokens (addr : Z) : outcome ERC20Consts :=
  if bool_decide (addr = 1)
  then Ok (mkERC20Consts "A token with a long name" "LONGSYMBOLXYZ" 18)
  else Err (ErrMsg "no contract code at given address").







(** A block with three withdrawals, two of them delayed and of the
    transaction 7, and one deposit of that transaction: the second delayed
    withdrawal finds no deposit left.  With a second deposit each finds its
    own. *)
Definition withdrawalEvents : RollupEvents :=
  mkRollupEvents [] [] [] []
    [mkEventWithdraw 300 1 false 7; mkEventWithdraw 301 1 true 7;
     mkEventWithdraw 302 1 false 7] [] [] [] [] [].







(** A store that followed another branch: its blocks have the hashes
    [900 + n]. *)
Definition orphanBlock (n : Z) : Block := mkBlock n 0 (900 + n) (900 + n - 1).

Definition plainClient (chain : list Block) : ClientInterface :=
  chainClient chain (fun _ => Ok (noRollupEvents, None))
    (fun _ => Ok (noAuctionEvents, None)) (fun _ => Ok (noWDelayerEvents, None))
    sampleTokens.

Definition chainOf3 : list Block := [chainBlock 1; chainBlock 2; chainBlock 3].

(** The synchronizer after a reorg back to the blocks [blocks], seen from
    a chain that ends with the block 3. *)
Definition syncAfterReorg (blocks : list Block) (lastBlock : Block)
  : Synchronizer MemoryDB Z :=
  mkSynchronizer (mkMemoryDB (savedBlock <$> blocks) (Some zeroVars) []) 0 zeroVars
    (mkStats 0 0 0 (chainBlock 3) 0 0 lastBlock 0 0 (-1)
       (mkSlot 0 0 39 false 0 false None None 0 EmptyString)).

Lemma Sync2_reorg_without_common_block_witness :
  Sync2 (plainClient chainOf3) memoryDB batchCounter plainFunctions slotsOf40 zeroVars 1
    (Some (orphanBlock 2)) (syncOf [orphanBlock 1; orphanBlock 2])
  = (Ok (None, Some 1), syncAfterReorg [orphanBlock 1] (orphanBlock 1))
  /\ GetBlock memoryDB (historyDB (syncAfterReorg [orphanBlock 1] (orphanBlock 1))) 1
     = Ok (orphanBlock 1)
  /\ Hash (orphanBlock 1) = 901
  /\ Hash <$> chainOf3 = [101; 102; 103]
  /\ (Sync2 (plainClient chainOf3) memoryDB batchCounter plainFunctions slotsOf40
        zeroVars 1 (Some (orphanBlock 1))
        (syncAfterReorg [orphanBlock 1] (orphanBlock 1))).1
     = Ok (None, Some 0).
Proof.
  split; [|by vm_compute].
  apply (Sync2_reorg_without_common_block (plainClient chainOf3) memoryDB batchCounter
           plainFunctions slotsOf40 zeroVars 1 (Some (orphanBlock 2)) (orphanBlock 2)
           (chainBlock 3) (orphanBlock 1) (syncOf [orphanBlock 1; orphanBlock 2])
           (syncAfterReorg [orphanBlock 1] (orphanBlock 1)) (statsAt (chainBlock 3))
           (mkMemoryDB [savedBlock (orphanBlock 1)] (Some zeroVars) [])).
  - reflexivity.
  - simpl; lia.
  - reflexivity.
  - reflexivity.
  - simpl; lia.
  - intros n Hn. simpl in Hn.
    assert (n = 1 \/ n = 2) as [-> | ->] by lia.
    + exists (orphanBlock 1), (chainBlock 1). split; [by split|]. simpl; lia.
    + exists (orphanBlock 2), (chainBlock 2). split; [by split|]. simpl; lia.
  - reflexivity.
  - reflexivity.
  - vm_compute; reflexivity.
Defined.

Lemma Sync2_reorg_to_last_common_block_witness :
  Sync2 (plainClient chainOf3) memoryDB batchCounter plainFunctions slotsOf40 zeroVars 1
    (Some (orphanBlock 2)) (syncOf [chainBlock 1; orphanBlock 2])
  = (Ok (None, Some 1), syncAfterReorg [chainBlock 1] (chainBlock 1))
  /\ Reset batchCounter 0 0 = (Ok tt, 0).
Proof.
  destruct (Sync2_reorg_to_last_common_block (plainClient chainOf3) memoryDB batchCounter
           plainFunctions slotsOf40 zeroVars 1 (Some (orphanBlock 2)) (orphanBlock 2)
           (chainBlock 3) (chainBlock 1) (chainBlock 1)
           (syncOf [chainBlock 1; orphanBlock 2])
           (syncAfterReorg [chainBlock 1] (chainBlock 1)) (statsAt (chainBlock 3))
           (mkMemoryDB [savedBlock (chainBlock 1)] (Some zeroVars) []) zeroVars 1)
    as (Hrun & _ & _ & Hreset).
  - reflexivity.
  - simpl; lia.
  - reflexivity.
  - reflexivity.
  - simpl; lia.
  - intros m Hm. simpl in Hm. assert (m = 2) as -> by lia.
    exists (orphanBlock 2), (chainBlock 2). split; [by split|]. simpl; lia.
  - by split.
  - reflexivity.
  - reflexivity.
  - reflexivity.
  - reflexivity.
  - vm_compute; reflexivity.
  - split; [exact Hrun|exact Hreset].
Defined.

Lemma Sync2_no_next_block_witness :
  Sync2 (plainClient chainOf3) memoryDB batchCounter plainFunctions slotsOf40 zeroVars 1
    None (syncOf chainOf3)
  = (Ok (None, None), syncOf chainOf3).
Proof.
  apply (Sync2_no_next_block (plainClient chainOf3) memoryDB batchCounter plainFunctions
           slotsOf40 zeroVars 1 None (Some (chainBlock 3)) (syncOf chainOf3)).
  - reflexivity.
  - intros b [= <-]. simpl; lia.
  - reflexivity.
Defined.

Lemma Sync2_last_saved_below_start_witness :
  Sync2 (plainClient chainOf3) memoryDB batchCounter plainFunctions slotsOf40 zeroVars 3
    (Some (chainBlock 2)) (syncOf chainOf3)
  = (Err (ErrMsg "lastSavedBlock < startBlockNum"), syncOf chainOf3).
Proof.
  apply (Sync2_last_saved_below_start (plainClient chainOf3) memoryDB batchCounter
           plainFunctions slotsOf40 zeroVars 3 (Some (chainBlock 2)) (chainBlock 2)
           (syncOf chainOf3)).
  - reflexivity.
  - simpl; lia.
Defined.

Definition chainOf2 : list Block := [chainBlock 1; chainBlock 2].

(** The synchronizer that saved the blocks 1 and 2 of [chainOf2], the
    second by [Sync2]. *)
Definition syncedTo2 : Synchronizer MemoryDB Z :=
  mkSynchronizer (mkMemoryDB (savedBlock <$> chainOf2) (Some zeroVars) []) 0 zeroVars
    (mkStats 0 0 0 (chainBlock 2) 0 0 (chainBlock 2) 0 0 0
       (mkSlot 0 0 39 false 0 true None None 0 EmptyString)).

Lemma Sync2_returns_the_block_it_stored_witness :
  Sync2 (plainClient chainOf2) memoryDB batchCounter plainFunctions slotsOf40 zeroVars 1
    (Some (chainBlock 1)) (syncOf [chainBlock 1])
  = (Ok (Some (savedBlock (chainBlock 2)), None), syncedTo2)
  /\ AddBlockSCData memoryDB (savedBlock (chainBlock 2)) (historyDB (syncOf [chainBlock 1]))
     = (Ok tt, historyDB syncedTo2).
Proof.
  assert (Sync2 (plainClient chainOf2) memoryDB batchCounter plainFunctions slotsOf40
            zeroVars 1 (Some (chainBlock 1)) (syncOf [chainBlock 1])
          = (Ok (Some (savedBlock (chainBlock 2)), None), syncedTo2)) as Hrun
    by (vm_compute; reflexivity).
  split; [exact Hrun|].
  exact (proj1 (proj2 (Sync2_returns_the_block_it_stored (plainClient chainOf2) memoryDB
                         batchCounter plainFunctions slotsOf40 zeroVars 1 _ _ _ _ _ Hrun))).
Defined.

Definition threeDeposits : list WDelayerEventDeposit :=
  [mkEventDeposit 11 21 5 7; mkEventDeposit 12 22 6 7; mkEventDeposit 13 23 7 7].

Lemma pairWithdrawals_consumes_one_each_witness :
  pairWithdrawals (withdrawalOf <$> EvWithdraw withdrawalEvents)
    (depositsByTxHash threeDeposits)
  = Ok ([mkWithdrawInfo 300 1 false 7 11 21; mkWithdrawInfo 301 1 true 7 0 0;
         mkWithdrawInfo 302 1 false 7 12 22],
        <[7 := [mkWDelayerTransfer 13 23 7]]> (depositsByTxHash threeDeposits))
  /\ default [] ((<[7 := [mkWDelayerTransfer 13 23 7]]> (depositsByTxHash threeDeposits))
                   !! 7)
     = drop 2 (default [] (depositsByTxHash threeDeposits !! 7)).
Proof.
  assert (pairWithdrawals (withdrawalOf <$> EvWithdraw withdrawalEvents)
            (depositsByTxHash threeDeposits)
          = Ok ([mkWithdrawInfo 300 1 false 7 11 21; mkWithdrawInfo 301 1 true 7 0 0;
                 mkWithdrawInfo 302 1 false 7 12 22],
                <[7 := [mkWDelayerTransfer 13 23 7]]> (depositsByTxHash threeDeposits)))
    as Hrun by (vm_compute; reflexivity).
  split; [exact Hrun|].
  exact (proj1 (proj2 (pairWithdrawals_consumes_one_each _ _ _ _ Hrun)) 7).
Defined.

(** A block whose auction events hold one new default bid, for the slot
    set [slotSet]. *)
Definition slotSetEvents (slotSet : Z) : AuctionEvents :=
  mkAuctionEvents [] [] [] [] [] [] [] [] [] [mkEventNewDefaultSlotSetBid slotSet 5].

Definition slotSetClient (slotSet : Z) : ClientInterface :=
  chainClient chainOf2 (fun _ => Ok (noRollupEvents, None))
    (fun _ => Ok (slotSetEvents slotSet, Some 102))
    (fun _ => Ok (noWDelayerEvents, None)) sampleTokens.

Lemma auctionSync_default_slot_set_bid_witness :
  (auctionSync (slotSetClient 6) slotsOf40 (chainBlock 2) (syncOf [chainBlock 1])).1
  = Panic
  /\ (auctionSync (slotSetClient 7) slotsOf40 (chainBlock 2) (syncOf [chainBlock 1])).1
     = Err (ErrMsg "unexpected SlotSet in auctionEvents.NewDefaultSlotSetBid")
  /\ DefaultSlotSetBid
       (VarsAuction
          (vars (auctionSync (slotSetClient 5) slotsOf40 (chainBlock 2)
                   (syncOf [chainBlock 1])).2))
     = [0; 0; 0; 0; 0; 5].
Proof.
  split; [|split; [|by vm_compute]].
  - apply (auctionSync_default_slot_set_bid (slotSetClient 6) slotsOf40 (chainBlock 2)
             (syncOf [chainBlock 1]) (slotSetEvents 6)
             (mkEventNewDefaultSlotSetBid 6 5) []); reflexivity.
  - apply (auctionSync_default_slot_set_bid (slotSetClient 7) slotsOf40 (chainBlock 2)
             (syncOf [chainBlock 1]) (slotSetEvents 7)
             (mkEventNewDefaultSlotSetBid 7 5) []); reflexivity.
Defined.

End Synchronizer.
